(** * Backup and restore scripts of the workspace database and directory

    A shallow embedding of the four scripts under [scripts/]
    ([backup_db.py], [backup_workspace.py], [restore_db.py] and
    [restore_workspace.py]) over a model of the part of the file system and
    of the Python library they use, and the properties of the scripts that
    the specification states. *)

From Stdlib Require Import Ascii String.
From stdpp Require Import gmap strings list fin_maps sorting.

Set Warnings "-register-all,-abstract-large-number".

(** * Python strings

    A [str] is modelled by the sequence of the bytes of its UTF-8 encoding:
    comparing two [str] by code points, as Python does, and comparing their
    encodings byte by byte give the same order. *)

Module Str.

(** [s.startswith(pre)]. *)
Definition startswith (s pre : string) : bool := String.prefix pre s.

(** [s.endswith(suf)]: one of the tails of [s] is [suf]. *)
Fixpoint endswith (s suf : string) : bool :=
  if String.eqb s suf then true
  else match s with
       | EmptyString => false
       | String _ s' => endswith s' suf
       end.

(** [a <= b] and [a < b] on [str]. *)
Definition le (a b : string) : bool := String.leb a b.
Definition lt (a b : string) : bool := String.ltb a b.

(** [sep.join(l)]. *)
Definition join (sep : string) (l : list string) : string := String.concat sep l.

End Str.

(** * [list.sort(reverse=True)] on a list of [str]

    The sort is stable, also in reverse: of two equal elements the one that
    came first stays first.  It is modelled by an insertion sort that walks
    the list from its end and puts an element before the first element that
    is not above it. *)

Fixpoint insert_reverse (x : string) (l : list string) : list string :=
  match l with
  | [] => [x]
  | y :: l' => if Str.le y x then x :: y :: l' else y :: insert_reverse x l'
  end.

Definition sort_reverse (l : list string) : list string :=
  foldr insert_reverse [] l.

(** * [datetime.now().strftime('%Y%m%d_%H%M%S')]

    The clock is read to the second: the format prints nothing finer. *)

Record datetime := Datetime {
  year : nat; month : nat; day : nat;
  hour : nat; minute : nat; second : nat
}.

(** The ranges of the fields of a [datetime] ([MINYEAR = 1], [MAXYEAR = 9999];
    the length of the month is not needed). *)
Definition valid_datetime (d : datetime) : bool :=
  (1 <=? year d) && (year d <=? 9999) &&
  (1 <=? month d) && (month d <=? 12) &&
  (1 <=? day d) && (day d <=? 31) &&
  (hour d <=? 23) && (minute d <=? 59) && (second d <=? 59).

(** The decimal digit of [n mod 10]. *)
Definition digit (n : nat) : ascii := ascii_of_nat (48 + n mod 10).

(** [zpad w n]: the [w] low decimal digits of [n], the highest first; for
    [n < 10 ^ w] this is [n] in decimal, padded with zeros to the width [w],
    what [%Y] does for the width 4 and [%m], [%d], [%H], [%M] and [%S] for
    the width 2. *)
Fixpoint zpad (w n : nat) : string :=
  match w with
  | 0 => EmptyString
  | S w' => String (digit (n / 10 ^ w')) (zpad w' n)
  end.

Definition strftime (d : datetime) : string :=
  zpad 4 (year d) +:+ zpad 2 (month d) +:+ zpad 2 (day d) +:+ "_" +:+
  zpad 2 (hour d) +:+ zpad 2 (minute d) +:+ zpad 2 (second d).

(** The order of time on [datetime]: the fields compared in turn, from the
    year to the second. *)
Fixpoint lex_lt (a b : list nat) : Prop :=
  match a, b with
  | x :: a', y :: b' => x < y ∨ (x = y ∧ lex_lt a' b')
  | _, _ => False
  end.

Definition fields (d : datetime) : list nat :=
  [year d; month d; day d; hour d; minute d; second d].

Definition earlier (d1 d2 : datetime) : Prop := lex_lt (fields d1) (fields d2).

(** * The file system

    A tree of regular files and directories below the directory the scripts
    are started in.  A file has its bytes and the metadata that
    [shutil.copystat] carries over (permission bits and times), kept as one
    number.  Links and special files are not modelled. *)

Inductive node :=
| File (data : string) (stat : nat)
| Dir (entries : gmap string node).

(** A relative path, as the list of its components: ['backups'] is
    [["backups"]]. *)
Definition path := list string.

(** [os.path.join(dir, name)] for a [name] that is one component (an entry of
    a listing, or an artifact name, see [artifact_name_one_component]). *)
Definition path_join (dir : path) (name : string) : path := dir ++ [name].

(** The path as Python prints it. *)
Definition path_str (p : path) : string := Str.join "/" p.

(** [os.path.split]: the directory part and the last component. *)
Fixpoint path_split (p : path) : option (path * string) :=
  match p with
  | [] => None
  | [c] => Some ([], c)
  | c :: p' => match path_split p' with
               | Some (d, b) => Some (c :: d, b)
               | None => None
               end
  end.

Definition basename (p : path) : string :=
  match path_split p with Some (_, b) => b | None => "" end.

(** The exceptions the scripts can end with. *)
Inductive exn :=
| FileNotFoundError
| FileExistsError
| NotADirectoryError
| IsADirectoryError
| SameFileError
| IndexError
| SystemExit (code : nat).

Inductive result (A : Type) :=
| Ok (a : A)
| Raise (e : exn).
Arguments Ok {A} a.
Arguments Raise {A} e.

Definition result_bind {A B} (r : result A) (k : A → result B) : result B :=
  match r with Ok a => k a | Raise e => Raise e end.

(** What the path names, or the error of the system call that walks it. *)
Fixpoint resolve (p : path) (n : node) : result node :=
  match p with
  | [] => Ok n
  | c :: p' =>
      match n with
      | File _ _ => Raise NotADirectoryError
      | Dir m => match m !! c with
                 | None => Raise FileNotFoundError
                 | Some n' => resolve p' n'
                 end
      end
  end.

(** Changes the entries of the directory at [p] by [f]. *)
Fixpoint update_dir (p : path)
    (f : gmap string node → result (gmap string node)) (n : node)
    : result node :=
  match n with
  | File _ _ => Raise NotADirectoryError
  | Dir m =>
      match p with
      | [] => result_bind (f m) (λ m', Ok (Dir m'))
      | c :: p' =>
          match m !! c with
          | None => Raise FileNotFoundError
          | Some n' =>
              result_bind (update_dir p' f n') (λ n'', Ok (Dir (<[c:=n'']> m)))
          end
      end
  end.

(** Changes the entry that [p] names in its parent directory. *)
Definition update_entry (p : path)
    (f : string → gmap string node → result (gmap string node)) (n : node)
    : result node :=
  match path_split p with
  | None => Raise FileExistsError
  | Some (d, b) => update_dir d (f b) n
  end.

(** [os.mkdir(p)]. *)
Definition fs_mkdir (p : path) : node → result node :=
  update_entry p (λ b m,
    match m !! b with
    | Some _ => Raise FileExistsError
    | None => Ok (<[b:=Dir ∅]> m)
    end).

(** [open(p, 'wb')], writing [data], and [copystat] setting [stat]. *)
Definition fs_write (p : path) (data : string) (stat : nat)
    : node → result node :=
  update_entry p (λ b m,
    match m !! b with
    | Some (Dir _) => Raise IsADirectoryError
    | _ => Ok (<[b:=File data stat]> m)
    end).

(** [shutil.rmtree(p)]. *)
Definition fs_rmtree (p : path) : node → result node :=
  update_entry p (λ b m,
    match m !! b with
    | None => Raise FileNotFoundError
    | Some (File _ _) => Raise NotADirectoryError
    | Some (Dir _) => Ok (delete b m)
    end).

(** Fills the directory at [p] with [entries]. *)
Definition fs_fill (p : path) (entries : gmap string node)
    : node → result node :=
  update_dir p (λ _, Ok entries).

(** The order in which the system gives the entries of a directory: any
    order of its names. *)
Definition listing := gset string → list string.

Definition listing_ok (ls : listing) : Prop := ∀ X, ls X ≡ₚ elements X.

(** * The scripts as state transformers

    A script runs on the file system and its standard output; an exception
    leaves both as they are when it is raised. *)

Record world := World { fs : node; stdout : list string }.

Definition M (A : Type) := world → result A * world.

Definition ret {A} (a : A) : M A := λ w, (Ok a, w).

Definition bind {A B} (m : M A) (k : A → M B) : M B :=
  λ w, match m w with
       | (Ok a, w') => k a w'
       | (Raise e, w') => (Raise e, w')
       end.

Definition raise {A} (e : exn) : M A := λ w, (Raise e, w).

(** [try: m  except: h]. *)
Definition try_except {A} (m : M A) (h : exn → M A) : M A :=
  λ w, match m w with
       | (Ok a, w') => (Ok a, w')
       | (Raise e, w') => h e w'
       end.

Declare Scope script_scope.
Delimit Scope script_scope with script.
Notation "'let*' x := m 'in' k" := (bind m (λ x, k))
  (at level 10, x name, m at level 100, k at level 200) : script_scope.
Notation "m ;; k" := (bind m (λ _, k))
  (at level 100, k at level 200, right associativity) : script_scope.
Local Open Scope script_scope.

(** A system call that reads. *)
Definition fs_read {A} (f : node → A) : M A := λ w, (Ok (f (fs w)), w).

(** A system call that writes, or fails and changes nothing. *)
Definition fs_call (f : node → result node) : M unit :=
  λ w, match f (fs w) with
       | Ok n => (Ok tt, World n (stdout w))
       | Raise e => (Raise e, w)
       end.

Definition print (s : string) : M unit :=
  λ w, (Ok tt, World (fs w) (stdout w ++ [s])).

(** [exit(code)]. *)
Definition exit {A} (code : nat) : M A := raise (SystemExit code).

Module os.

(** [os.path.exists(p)]. *)
Definition path_exists (p : path) : M bool :=
  fs_read (λ n, match resolve p n with Ok _ => true | Raise _ => false end).

(** [os.path.isdir(p)]. *)
Definition path_isdir (p : path) : M bool :=
  fs_read (λ n, match resolve p n with Ok (Dir _) => true | _ => false end).

Definition mkdir (p : path) : M unit := fs_call (fs_mkdir p).

(** [os.listdir(p)]. *)
Definition listdir (ls : listing) (p : path) : M (list string) :=
  let* r := fs_read (resolve p) in
  match r with
  | Ok (Dir m) => ret (ls (dom m))
  | Ok (File _ _) => raise NotADirectoryError
  | Raise e => raise e
  end.

(** [os.makedirs(name, exist_ok=exist_ok)], on the path [rev rname]:
<<
    head, tail = path.split(name)
    if head and tail and not path.exists(head):
        try:
            makedirs(head, exist_ok=exist_ok)
        except FileExistsError:
            pass
    try:
        mkdir(name, mode)
    except OSError:
        if not exist_ok or not path.isdir(name):
            raise
>> *)
Fixpoint makedirs_rev (exist_ok : bool) (rname : list string) : M unit :=
  (match rname return M unit with
   | _ :: ((_ :: _) as rhead) =>
       let* there := path_exists (rev rhead) in
       if there then ret tt
       else try_except (makedirs_rev exist_ok rhead)
              (λ e, match e with FileExistsError => ret tt | _ => raise e end)
   | _ => ret tt
   end);;
  try_except (mkdir (rev rname))
    (λ e, let* isdir := path_isdir (rev rname) in
          if negb exist_ok || negb isdir then raise e else ret tt).

Definition makedirs (name : path) (exist_ok : bool) : M unit :=
  makedirs_rev exist_ok (rev name).

End os.

Module shutil.

(** [shutil.copy2(src, dst)]:
<<
    if os.path.isdir(dst):
        dst = os.path.join(dst, os.path.basename(src))
    copyfile(src, dst)
    copystat(src, dst)
>>
    where [copyfile] refuses to copy a file onto itself, opens [src] for
    reading and then [dst] for writing. *)
Definition copy2 (src dst : path) : M unit :=
  let* isdir := os.path_isdir dst in
  let dst := if isdir then path_join dst (basename src) else dst in
  let* there := os.path_exists src in
  if bool_decide (src = dst) && there then raise SameFileError
  else
    let* r := fs_read (resolve src) in
    match r with
    | Raise e => raise e
    | Ok (Dir _) => raise IsADirectoryError
    | Ok (File data stat) => fs_call (fs_write dst data stat)
    end.

(** [shutil.copytree(src, dst)]:
<<
    with os.scandir(src) as itr:
        entries = list(itr)
    os.makedirs(dst, exist_ok=False)
    for srcentry in entries: ...   # copy2, or copytree on a directory
    copystat(src, dst)
>>
    The scripts copy between [backups] and [backend], so the copy never
    reads what it writes; with files and directories only, every entry is
    copied into the new directory, which ends as a copy of the source. *)
Definition copytree (src dst : path) : M unit :=
  let* r := fs_read (resolve src) in
  match r with
  | Raise e => raise e
  | Ok (File _ _) => raise NotADirectoryError
  | Ok (Dir entries) =>
      os.makedirs dst false;;
      fs_call (fs_fill dst entries)
  end.

Definition rmtree (p : path) : M unit := fs_call (fs_rmtree p).

End shutil.

(** How a run ends: the exit status, what was printed, the file system. *)
Record outcome := Outcome {
  status : nat;
  printed : list string;
  final : node
}.

(** Runs a script: an uncaught exception ends it with status 1, [exit(code)]
    with [code]. *)
Definition run (script : M unit) (n : node) : outcome :=
  match script (World n []) with
  | (Ok _, w) => Outcome 0 (stdout w) (fs w)
  | (Raise (SystemExit code), w) => Outcome code (stdout w) (fs w)
  | (Raise _, w) => Outcome 1 (stdout w) (fs w)
  end.

(** The exception a run ends with, if any. *)
Definition raised (script : M unit) (n : node) : option exn :=
  match script (World n []) with
  | (Ok _, _) => None
  | (Raise e, _) => Some e
  end.

(** ** [scripts/backup_db.py] *)
Module backup_db.

Definition SRC : path :=
  ["backend"; "src"; "infrastructure"; "storage"; "workspace.db"].
Definition DST_DIR : path := ["backups"].
Definition TS (now : datetime) : string := strftime now.
Definition artifact (now : datetime) : string :=
  "db_backup_" +:+ TS now +:+ ".sqlite3".
Definition DST (now : datetime) : path := path_join DST_DIR (artifact now).

Definition main (now : datetime) : M unit :=
  os.makedirs DST_DIR true;;
  let* there := os.path_exists SRC in
  if there then
    shutil.copy2 SRC (DST now);;
    print ("Database backup created: " +:+ path_str (DST now))
  else
    print "No database file found to backup.".

End backup_db.

(** ** [scripts/backup_workspace.py] *)
Module backup_workspace.

Definition SRC : path :=
  ["backend"; "src"; "infrastructure"; "storage"; "workspace"].
Definition DST_DIR : path := ["backups"].
Definition TS (now : datetime) : string := strftime now.
Definition artifact (now : datetime) : string := "workspace_backup_" +:+ TS now.
Definition DST (now : datetime) : path := path_join DST_DIR (artifact now).

Definition main (now : datetime) : M unit :=
  os.makedirs DST_DIR true;;
  let* there := os.path_exists SRC in
  if there then
    shutil.copytree SRC (DST now);;
    print ("Workspace backup created: " +:+ path_str (DST now))
  else
    print "No workspace directory found to backup.".

End backup_workspace.

(** ** [scripts/restore_db.py] *)
Module restore_db.

Definition SRC_DIR : path := ["backups"].
Definition DST : path :=
  ["backend"; "src"; "infrastructure"; "storage"; "workspace.db"].

(** The condition of the comprehension that builds [backups]. *)
Definition is_backup (f : string) : bool :=
  Str.startswith f "db_backup_" && Str.endswith f ".sqlite3".

Definition main (ls : listing) : M unit :=
  let* names := os.listdir ls SRC_DIR in
  let backups := List.filter is_backup names in
  match backups with
  | [] => print "No DB backup found.";; exit 1
  | _ :: _ =>
      match sort_reverse backups with
      | [] => raise IndexError
      | latest :: _ =>
          let SRC := path_join SRC_DIR latest in
          shutil.copy2 SRC DST;;
          print ("Database restored from: " +:+ path_str SRC)
      end
  end.

End restore_db.

(** ** [scripts/restore_workspace.py] *)
Module restore_workspace.

Definition SRC_DIR : path := ["backups"].
Definition DST : path :=
  ["backend"; "src"; "infrastructure"; "storage"; "workspace"].

Definition is_backup (f : string) : bool :=
  Str.startswith f "workspace_backup_".

Definition main (ls : listing) : M unit :=
  let* names := os.listdir ls SRC_DIR in
  let backups := List.filter is_backup names in
  match backups with
  | [] => print "No workspace backup found.";; exit 1
  | _ :: _ =>
      match sort_reverse backups with
      | [] => raise IndexError
      | latest :: _ =>
          let SRC := path_join SRC_DIR latest in
          let* there := os.path_exists DST in
          (if there then shutil.rmtree DST else ret tt);;
          shutil.copytree SRC DST;;
          print ("Workspace restored from: " +:+ path_str SRC)
      end
  end.

End restore_workspace.

(** * Notions used in the statements *)

(** [l] goes down: every element is at least the ones after it. *)
Definition descending (l : list string) : Prop :=
  StronglySorted (λ a b, Str.le b a = true) l.

Definition is_digit (c : ascii) : bool :=
  (48 <=? nat_of_ascii c) && (nat_of_ascii c <=? 57).

Fixpoint all_digits (s : string) : bool :=
  match s with
  | EmptyString => true
  | String c s' => is_digit c && all_digits s'
  end.

(** The number a string of decimal digits writes. *)
Fixpoint decimal_from (acc : nat) (s : string) : nat :=
  match s with
  | EmptyString => acc
  | String c s' => decimal_from (10 * acc + (nat_of_ascii c - 48)) s'
  end.

Definition decimal (s : string) : nat := decimal_from 0 s.

(** [c in s]. *)
Fixpoint contains (c : ascii) (s : string) : bool :=
  match s with
  | EmptyString => false
  | String x s' => Ascii.eqb x c || contains c s'
  end.

(** [p] and [q] part ways: at some depth they name different entries of the
    same directory, so neither path lies on the other. *)
Fixpoint diverge (p q : path) : bool :=
  match p, q with
  | c :: p', c' :: q' => if String.eqb c c' then diverge p' q' else true
  | _, _ => false
  end.

(** [f] changes the entry [b] and no other. *)
Definition local_to (b : string)
    (f : gmap string node → result (gmap string node)) : Prop :=
  ∀ m m' k, f m = Ok m' → k ≠ b → m' !! k = m !! k.

(** The script [m] leaves what every path in [Q] names as it is. *)
Definition keeps {A} (Q : path → Prop) (m : M A) : Prop :=
  ∀ w q, Q q → resolve q (fs (m w).2) = resolve q (fs w).

(** The script [m] prints nothing. *)
Definition silent {A} (m : M A) : Prop := ∀ w, stdout (m w).2 = stdout w.

(** The state in which a script leaves the file system. *)
Definition after {A} (m : M A) (n : node) : node := fs (m (World n [])).2.

(** [x] is the greatest of the entries of [m] that [is_backup] accepts. *)
Definition greatest (is_backup : string → bool) (m : gmap string node)
    (x : string) : Prop :=
  is_Some (m !! x) ∧ is_backup x = true ∧
  ∀ y, is_Some (m !! y) → is_backup y = true → Str.le y x = true.

(** The backup root is not a directory with an entry that [is_backup]
    accepts: it is missing, empty, or holds other entries only. *)
Definition no_artifact (is_backup : string → bool) (n : node) : Prop :=
  ∀ m x, resolve ["backups"] n = Ok (Dir m) → is_Some (m !! x) →
         is_backup x = false.

(** One run of one of the four scripts, with the clock or the order of
    listing it meets. *)
Inductive operation :=
| BackupDb (now : datetime)
| BackupWorkspace (now : datetime)
| RestoreDb (ls : listing)
| RestoreWorkspace (ls : listing).

Definition script (o : operation) : M unit :=
  match o with
  | BackupDb now => backup_db.main now
  | BackupWorkspace now => backup_workspace.main now
  | RestoreDb ls => restore_db.main ls
  | RestoreWorkspace ls => restore_workspace.main ls
  end.

(** The file system after a sequence of runs. *)
Definition run_all (ops : list operation) (n : node) : node :=
  foldl (λ n o, final (run (script o) n)) n ops.

(** The entries of the backup root; none when it is not a directory. *)
Definition backup_entries (n : node) : gmap string node :=
  match resolve ["backups"] n with
  | Ok (Dir m) => m
  | _ => ∅
  end.

(** The backup root is a directory, or can be made: nothing has its name. *)
Definition backup_root_ok (n : node) : Prop :=
  resolve ["backups"] n = Raise FileNotFoundError ∨
  ∃ m, resolve ["backups"] n = Ok (Dir m).

(** The directory of the live database and the live workspace. *)
Definition storage : path := ["backend"; "src"; "infrastructure"; "storage"].

(** The errors of the system calls: every exception but [SystemExit]. *)
Definition os_error (e : exn) : Prop :=
  match e with SystemExit _ => False | _ => True end.

(** The script [m] does not call [exit]. *)
Definition raises_os {A} (m : M A) : Prop :=
  ∀ w e w', m w = (Raise e, w') → os_error e.

(** The character that ends a line. *)
Definition newline : ascii := "010"%char.

(** How a script that starts with an empty output ends: with one call of
    [print], on a text that [P] holds of; with an error of a system call and
    no output; or with [exit(1)] and one of the two messages of the
    restores. *)
Definition one_message (P : string → Prop) (m : M unit) : Prop :=
  ∀ w, stdout w = [] →
    match m w with
    | (Ok _, w') => ∃ text, stdout w' = [text] ∧ P text
    | (Raise (SystemExit code), w') =>
        code = 1 ∧ (stdout w' = ["No DB backup found."] ∨
                    stdout w' = ["No workspace backup found."])
    | (Raise _, w') => stdout w' = []
    end.

(** The script [m] removes nothing: a path that names something before
    names something after. *)
Definition grows {A} (m : M A) : Prop :=
  ∀ w q x, resolve q (fs w) = Ok x → ∃ x', resolve q (fs (m w).2) = Ok x'.

(** * The example of the specification *)

(** The file system of the example of the specification: three database
    backups and three workspace backups, and a live database and workspace. *)
Definition example_backups : gmap string node :=
  {[ "db_backup_20240101_010000.sqlite3" := File "one" 1;
     "db_backup_20240101_020000.sqlite3" := File "two" 2;
     "db_backup_20231231_235959.sqlite3" := File "zero" 0;
     "workspace_backup_20240101_010000" := Dir {[ "a.txt" := File "one" 1 ]};
     "workspace_backup_20240101_020000" := Dir {[ "a.txt" := File "two" 2 ]};
     "workspace_backup_20231231_235959" := Dir {[ "a.txt" := File "zero" 0 ]} ]}.

Definition example_storage : gmap string node :=
  {[ "workspace.db" := File "live" 9;
     "workspace" := Dir {[ "a.txt" := File "live" 9;
                           "stale.txt" := File "stale" 9 ]} ]}.

Definition example_fs : node :=
  Dir {[ "backups" := Dir example_backups;
         "backend" := Dir {[ "src" := Dir {[ "infrastructure" :=
                        Dir {[ "storage" := Dir example_storage ]} ]} ]} ]}.

(** Two orders of listing: the order of the names, and its reverse. *)
Definition elements_reversed : listing := λ X, reverse (elements X).

(** * Examples *)

Example strftime_new_year :
  strftime (Datetime 2024 1 1 2 0 0) = "20240101_020000".
Proof. reflexivity. Qed.

Example sort_reverse_three :
  sort_reverse ["b"; "c"; "a"] = ["c"; "b"; "a"].
Proof. reflexivity. Qed.

Example endswith_ext :
  Str.endswith "db_backup_1.sqlite3" ".sqlite3" = true ∧
  Str.endswith "db_backup_1.sqlite" ".sqlite3" = false ∧
  Str.startswith "db_backup_1" "db_backup_" = true ∧
  Str.startswith "db_backup" "db_backup_" = false.
Proof. repeat split; reflexivity. Qed.
(** * The order on strings *)

Section StrOrder.
Implicit Types a b c : string.

Lemma ascii_compare_refl (x : ascii) : Ascii.compare x x = Eq.
Proof. apply N.compare_refl. Qed.

Lemma ascii_compare_lt_trans (x y z : ascii) :
  Ascii.compare x y = Lt → Ascii.compare y z = Lt → Ascii.compare x z = Lt.
Proof.
  unfold Ascii.compare. rewrite !N.compare_lt_iff. lia.
Qed.

Lemma str_compare_refl a : String.compare a a = Eq.
Proof.
  induction a as [|x a IH]; simpl; [done|].
  by rewrite ascii_compare_refl.
Qed.

Lemma str_compare_trans a b c :
  String.compare a b ≠ Gt → String.compare b c ≠ Gt →
  String.compare a c ≠ Gt.
Proof.
  revert b c. induction a as [|x a IH]; intros [|y b] [|z c]; simpl; try done.
  destruct (Ascii.compare x y) eqn:Hxy, (Ascii.compare y z) eqn:Hyz;
    try done.
  - apply Ascii.compare_eq_iff in Hxy as ->. rewrite Hyz. apply IH.
  - apply Ascii.compare_eq_iff in Hxy as ->. by rewrite Hyz.
  - apply Ascii.compare_eq_iff in Hyz as <-. by rewrite Hxy.
  - by rewrite (ascii_compare_lt_trans x y z).
Qed.

Lemma le_compare a b : Str.le a b = true ↔ String.compare a b ≠ Gt.
Proof.
  unfold Str.le, String.leb. by destruct (String.compare a b).
Qed.

Lemma lt_compare a b : Str.lt a b = true ↔ String.compare a b = Lt.
Proof.
  unfold Str.lt, String.ltb. by destruct (String.compare a b).
Qed.

Lemma le_refl a : Str.le a a = true.
Proof. apply le_compare. by rewrite str_compare_refl. Qed.

Lemma le_trans a b c :
  Str.le a b = true → Str.le b c = true → Str.le a c = true.
Proof. rewrite !le_compare. apply str_compare_trans. Qed.

Lemma le_total a b : Str.le a b = true ∨ Str.le b a = true.
Proof. apply String.leb_total. Qed.

Lemma le_antisym a b : Str.le a b = true → Str.le b a = true → a = b.
Proof. apply String.leb_antisym. Qed.

Lemma lt_le a b : Str.lt a b = true → Str.le a b = true.
Proof. rewrite lt_compare, le_compare. by intros ->. Qed.

Lemma lt_not_le a b : Str.lt a b = true → Str.le b a = false.
Proof.
  rewrite lt_compare. unfold Str.le, String.leb.
  rewrite (String.compare_antisym b a). by intros ->.
Qed.
End StrOrder.

(** * Sorting in reverse *)

Lemma insert_reverse_perm x l : insert_reverse x l ≡ₚ x :: l.
Proof.
  induction l as [|y l IH]; simpl; [done|].
  destruct (Str.le y x); [done|].
  rewrite IH. apply Permutation_swap.
Qed.

Lemma sort_reverse_perm l : sort_reverse l ≡ₚ l.
Proof.
  induction l as [|x l IH]; simpl; [done|].
  by rewrite insert_reverse_perm, IH.
Qed.

Lemma insert_reverse_descending x l :
  descending l → descending (insert_reverse x l).
Proof.
  unfold descending. induction 1 as [|y l Hl IH Hy]; simpl.
  - repeat constructor.
  - destruct (Str.le y x) eqn:Hyx.
    + constructor; [by constructor|].
      constructor; [done|].
      eapply Forall_impl; [exact Hy|]. simpl. intros z Hz. by eapply le_trans.
    + constructor; [done|].
      rewrite insert_reverse_perm. constructor; [|done].
      destruct (le_total x y); congruence.
Qed.

Lemma sort_reverse_descending l : descending (sort_reverse l).
Proof.
  induction l as [|x l IH]; simpl.
  - constructor.
  - by apply insert_reverse_descending.
Qed.

(** The first element of the sorted list is in the list and is its greatest
    element. *)
Lemma sort_reverse_head l x r :
  sort_reverse l = x :: r → x ∈ l ∧ ∀ y, y ∈ l → Str.le y x = true.
Proof.
  intros Hs. split.
  - rewrite <-(sort_reverse_perm l), Hs. left.
  - intros y. rewrite <-(sort_reverse_perm l).
    pose proof (sort_reverse_descending l) as Hd. rewrite Hs in *.
    apply StronglySorted_inv in Hd as [_ Hd].
    rewrite elem_of_cons. intros [->|Hy]; [apply le_refl|].
    by rewrite Forall_forall in Hd; apply Hd.
Qed.

Lemma sort_reverse_nil l : sort_reverse l = [] → l = [].
Proof.
  intros Hs. apply Permutation_nil_r. by rewrite <-Hs, sort_reverse_perm.
Qed.

(** The greatest element is the first of the sorted list. *)
Lemma sort_reverse_greatest l x :
  x ∈ l → (∀ y, y ∈ l → Str.le y x = true) → head (sort_reverse l) = Some x.
Proof.
  intros Hx Hmax. destruct (sort_reverse l) as [|z r] eqn:Hs.
  - apply sort_reverse_nil in Hs as ->. by apply elem_of_nil in Hx.
  - apply sort_reverse_head in Hs as [Hz Hzmax]. simpl. f_equal.
    apply le_antisym; auto.
Qed.

Lemma sort_reverse_head_perm l1 l2 :
  l1 ≡ₚ l2 → head (sort_reverse l1) = head (sort_reverse l2).
Proof.
  intros Hp. destruct (sort_reverse l1) as [|x r] eqn:Hs.
  - apply sort_reverse_nil in Hs as ->. apply Permutation_nil_l in Hp. by subst.
  - apply sort_reverse_head in Hs as [Hx Hmax]. symmetry.
    apply sort_reverse_greatest.
    + by rewrite <-Hp.
    + intros y Hy. apply Hmax. by rewrite Hp.
Qed.
(** * Prefixes and suffixes *)

Lemma str_app_nil_l (s : string) : "" +:+ s = s.
Proof. reflexivity. Qed.

Lemma str_app_cons (x : ascii) (a s : string) :
  String x a +:+ s = String x (a +:+ s).
Proof. reflexivity. Qed.

Lemma str_app_assoc (a b c : string) : (a +:+ b) +:+ c = a +:+ (b +:+ c).
Proof.
  induction a as [|x a IH]; [done|].
  by rewrite !str_app_cons, IH.
Qed.

Lemma startswith_spec s pre :
  Str.startswith s pre = true ↔ ∃ t, s = pre +:+ t.
Proof.
  unfold Str.startswith. revert s.
  induction pre as [|x pre IH]; intros s; simpl.
  - destruct s; split; eauto.
  - destruct s as [|y s]; simpl.
    + split; [done|]. by intros [t ?].
    + destruct (ascii_dec x y) as [->|Hne].
      * rewrite IH. split; intros [t Ht]; exists t.
        -- by rewrite str_app_cons, Ht.
        -- rewrite str_app_cons in Ht. congruence.
      * split; [done|]. intros [t Ht].
        rewrite str_app_cons in Ht. congruence.
Qed.

Lemma endswith_unfold s suf :
  Str.endswith s suf =
  if String.eqb s suf then true
  else match s with
       | EmptyString => false
       | String _ s' => Str.endswith s' suf
       end.
Proof. by destruct s. Qed.

Lemma endswith_spec s suf :
  Str.endswith s suf = true ↔ ∃ t, s = t +:+ suf.
Proof.
  induction s as [|x s IH]; rewrite endswith_unfold.
  - destruct (String.eqb_spec "" suf) as [<-|Hne].
    + split; [|done]. by exists "".
    + split; [done|]. intros [[|y t] Ht].
      * by rewrite str_app_nil_l in Ht.
      * by rewrite str_app_cons in Ht.
  - destruct (String.eqb_spec (String x s) suf) as [<-|Hne].
    + split; [|done]. by exists "".
    + rewrite IH. split.
      * intros [t ->]. by exists (String x t).
      * intros [[|y t] Ht].
        -- by rewrite str_app_nil_l in Ht.
        -- rewrite str_app_cons in Ht. exists t. congruence.
Qed.

Lemma startswith_app pre t : Str.startswith (pre +:+ t) pre = true.
Proof. apply startswith_spec. by exists t. Qed.

Lemma endswith_app t suf : Str.endswith (t +:+ suf) suf = true.
Proof. apply endswith_spec. by exists t. Qed.

Lemma str_compare_app p a b :
  String.compare (p +:+ a) (p +:+ b) = String.compare a b.
Proof.
  induction p as [|x p IH]; [done|].
  rewrite !str_app_cons. simpl. by rewrite ascii_compare_refl.
Qed.

(** * The timestamp *)

Lemma nat_of_digit n : nat_of_ascii (digit n) = 48 + n mod 10.
Proof.
  unfold digit. apply nat_ascii_embedding.
  pose proof (Nat.mod_upper_bound n 10). lia.
Qed.

Lemma digit_compare n m :
  Ascii.compare (digit n) (digit m) = (n mod 10 ?= m mod 10).
Proof.
  unfold Ascii.compare.
  rewrite <-(N2Nat.id (N_of_ascii (digit n))), <-(N2Nat.id (N_of_ascii (digit m))).
  change (N.to_nat (N_of_ascii ?c)) with (nat_of_ascii c).
  rewrite !nat_of_digit, <-Nat2N.inj_compare.
  destruct (Nat.compare_spec (n mod 10) (m mod 10));
    [apply Nat.compare_eq_iff|apply Nat.compare_lt_iff|apply Nat.compare_gt_iff];
    lia.
Qed.

Lemma zpad_length w n : String.length (zpad w n) = w.
Proof. induction w as [|w IH]; simpl; [done|]. by rewrite IH. Qed.

Lemma zpad_all_digits w n : all_digits (zpad w n) = true.
Proof.
  induction w as [|w IH]; cbn [zpad all_digits]; [done|].
  rewrite IH, andb_true_r. unfold is_digit. rewrite nat_of_digit.
  pose proof (Nat.mod_upper_bound (n / 10 ^ w) 10).
  apply andb_true_iff; split; apply Nat.leb_le; lia.
Qed.

(** Splitting off the digit of weight [10 ^ w]. *)
Lemma mod_pow_succ n w :
  n mod 10 ^ S w = (n / 10 ^ w) mod 10 * 10 ^ w + n mod 10 ^ w.
Proof.
  assert (10 ^ w ≠ 0) as Hw by (apply Nat.pow_nonzero; lia).
  rewrite Nat.pow_succ_r', (Nat.mul_comm 10).
  rewrite Nat.Div0.mod_mul_r. lia.
Qed.

Lemma decimal_from_zpad w n acc :
  decimal_from acc (zpad w n) = acc * 10 ^ w + n mod 10 ^ w.
Proof.
  revert acc. induction w as [|w IH]; intros acc; cbn [zpad].
  - cbn [decimal_from]. rewrite Nat.pow_0_r, Nat.mod_1_r. lia.
  - cbn [decimal_from]. rewrite IH, nat_of_digit, mod_pow_succ.
    rewrite Nat.pow_succ_r'. lia.
Qed.

(** Reading the padded number back gives the number. *)
Lemma decimal_zpad w n : n < 10 ^ w → decimal (zpad w n) = n.
Proof.
  intros Hn. unfold decimal. rewrite decimal_from_zpad.
  rewrite Nat.mod_small by done. lia.
Qed.

(** Comparing two numbers by their leading digit and the rest. *)
Lemma compare_leading P a b r q :
  r < P → q < P →
  (a * P + r ?= b * P + q) = match a ?= b with Eq => r ?= q | c => c end.
Proof.
  intros Hr Hq. destruct (Nat.compare_spec a b) as [->|Hab|Hab].
  - destruct (Nat.compare_spec r q) as [->|Hrq|Hrq].
    + apply Nat.compare_refl.
    + apply Nat.compare_lt_iff. lia.
    + apply Nat.compare_gt_iff. lia.
  - apply Nat.compare_lt_iff. nia.
  - apply Nat.compare_gt_iff. nia.
Qed.

(** Numbers padded to the same width compare as strings the way their low
    digits compare as numbers, whatever follows them. *)
Lemma zpad_compare w n m s t :
  String.compare (zpad w n +:+ s) (zpad w m +:+ t) =
  match n mod 10 ^ w ?= m mod 10 ^ w with
  | Eq => String.compare s t
  | c => c
  end.
Proof.
  induction w as [|w IH]; cbn [zpad].
  - rewrite !str_app_nil_l. by rewrite !Nat.mod_1_r.
  - rewrite !str_app_cons. cbn [String.compare]. rewrite digit_compare, IH.
    rewrite !mod_pow_succ.
    assert (10 ^ w ≠ 0) as Hw by (apply Nat.pow_nonzero; lia).
    rewrite compare_leading by (by apply Nat.mod_upper_bound).
    by destruct ((n / 10 ^ w) mod 10 ?= (m / 10 ^ w) mod 10).
Qed.

Lemma zpad_compare_small w n m s t :
  n < 10 ^ w → m < 10 ^ w →
  String.compare (zpad w n +:+ s) (zpad w m +:+ t) =
  match n ?= m with
  | Eq => String.compare s t
  | c => c
  end.
Proof.
  intros Hn Hm. by rewrite zpad_compare, !Nat.mod_small.
Qed.

Lemma valid_datetime_bounds d :
  valid_datetime d = true →
  (1 ≤ year d ≤ 9999) ∧ (1 ≤ month d ≤ 12) ∧ (1 ≤ day d ≤ 31) ∧
  hour d ≤ 23 ∧ minute d ≤ 59 ∧ second d ≤ 59.
Proof.
  unfold valid_datetime. rewrite !andb_true_iff, !Nat.leb_le. lia.
Qed.

Lemma strftime_length d : String.length (strftime d) = 15.
Proof. reflexivity. Qed.

(** The fields of a valid [datetime] fit the widths they are printed in. *)
Lemma valid_datetime_widths d :
  valid_datetime d = true →
  year d < 10 ^ 4 ∧ month d < 10 ^ 2 ∧ day d < 10 ^ 2 ∧
  hour d < 10 ^ 2 ∧ minute d < 10 ^ 2 ∧ second d < 10 ^ 2.
Proof.
  intros Hv. apply valid_datetime_bounds in Hv.
  assert (S 9999 = 10 ^ 4) as <- by (vm_compute; reflexivity).
  change (10 ^ 2) with 100. lia.
Qed.

(** The timestamp with what follows it, field by field. *)
Lemma strftime_app d s :
  strftime d +:+ s =
  zpad 4 (year d) +:+ zpad 2 (month d) +:+ zpad 2 (day d) +:+
  String "_" (zpad 2 (hour d) +:+ zpad 2 (minute d) +:+ zpad 2 (second d) +:+ s).
Proof.
  unfold strftime. by rewrite !str_app_assoc.
Qed.

(** The format is fixed-width and zero-padded, so the order of the timestamps
    as strings is the order of time, whatever follows the timestamps. *)
Lemma strftime_compare d1 d2 s t :
  valid_datetime d1 = true → valid_datetime d2 = true →
  earlier d1 d2 →
  String.compare (strftime d1 +:+ s) (strftime d2 +:+ t) = Lt.
Proof.
  intros (Hy1 & Hm1 & Hd1 & Hh1 & Hi1 & Hs1)%valid_datetime_widths
         (Hy2 & Hm2 & Hd2 & Hh2 & Hi2 & Hs2)%valid_datetime_widths.
  rewrite !strftime_app. unfold earlier, fields. cbn [lex_lt].
  intros He.
  do 3 (rewrite zpad_compare_small by assumption;
        destruct He as [He|[Heq He]];
        [by rewrite (proj2 (Nat.compare_lt_iff _ _) He)
        |rewrite Heq, Nat.compare_refl; clear Heq]).
  cbn [String.compare]. rewrite ascii_compare_refl.
  do 3 (rewrite zpad_compare_small by assumption;
        destruct He as [He|[Heq He]];
        [by rewrite (proj2 (Nat.compare_lt_iff _ _) He)
        |rewrite Heq, Nat.compare_refl; clear Heq]).
  done.
Qed.

(** * The names of the artifacts *)

Lemma str_app_nil_r (s : string) : s +:+ "" = s.
Proof.
  induction s as [|x s IH]; [done|]. by rewrite str_app_cons, IH.
Qed.

Lemma contains_app c a b :
  contains c (a +:+ b) = contains c a || contains c b.
Proof.
  induction a as [|x a IH]; [done|].
  rewrite str_app_cons. cbn [contains]. by rewrite IH, orb_assoc.
Qed.

Lemma contains_all_digits c s :
  is_digit c = false → all_digits s = true → contains c s = false.
Proof.
  intros Hc. induction s as [|x s IH]; cbn [all_digits contains]; [done|].
  intros [Hx Hs]%andb_true_iff. rewrite IH by done.
  destruct (Ascii.eqb_spec x c) as [->|]; [congruence|done].
Qed.

Lemma zpad_no_sep w n : contains "/" (zpad w n) = false.
Proof.
  apply contains_all_digits; [reflexivity|apply zpad_all_digits].
Qed.

(** The timestamp has no path separator in it. *)
Lemma strftime_no_sep d : contains "/" (strftime d) = false.
Proof.
  unfold strftime. rewrite !contains_app, !zpad_no_sep.
  reflexivity.
Qed.

(** The artifact names are one path component each, which is what
    [path_join] asks for. *)
Lemma artifact_name_one_component now :
  contains "/" (backup_db.artifact now) = false ∧
  contains "/" (backup_workspace.artifact now) = false.
Proof.
  unfold backup_db.artifact, backup_db.TS,
    backup_workspace.artifact, backup_workspace.TS.
  rewrite !contains_app, strftime_no_sep. split; reflexivity.
Qed.

Lemma db_artifact_is_backup now :
  restore_db.is_backup (backup_db.artifact now) = true.
Proof.
  unfold restore_db.is_backup, backup_db.artifact.
  rewrite startswith_app. rewrite <-str_app_assoc, endswith_app. done.
Qed.

Lemma workspace_artifact_is_backup now :
  restore_workspace.is_backup (backup_workspace.artifact now) = true.
Proof.
  unfold restore_workspace.is_backup, backup_workspace.artifact.
  apply startswith_app.
Qed.

(** An earlier backup has the smaller name. *)
Lemma db_artifact_lt d1 d2 :
  valid_datetime d1 = true → valid_datetime d2 = true → earlier d1 d2 →
  Str.lt (backup_db.artifact d1) (backup_db.artifact d2) = true.
Proof.
  intros Hv1 Hv2 He. apply lt_compare.
  unfold backup_db.artifact, backup_db.TS.
  rewrite str_compare_app. by apply strftime_compare.
Qed.

Lemma workspace_artifact_lt d1 d2 :
  valid_datetime d1 = true → valid_datetime d2 = true → earlier d1 d2 →
  Str.lt (backup_workspace.artifact d1) (backup_workspace.artifact d2) = true.
Proof.
  intros Hv1 Hv2 He. apply lt_compare.
  unfold backup_workspace.artifact, backup_workspace.TS.
  rewrite str_compare_app.
  rewrite <-(str_app_nil_r (strftime d1)), <-(str_app_nil_r (strftime d2)).
  by apply strftime_compare.
Qed.

(** * Paths *)

Lemma path_split_snoc d b : path_split (d ++ [b]) = Some (d, b).
Proof.
  induction d as [|c d IH]; [done|].
  cbn [app path_split]. rewrite IH. by destruct d.
Qed.

Lemma path_split_inv p d b : path_split p = Some (d, b) → p = d ++ [b].
Proof.
  revert d. induction p as [|c p IH]; intros d; [done|].
  cbn [path_split]. destruct p as [|c' p].
  - by intros [= <- <-].
  - destruct (path_split (c' :: p)) as [[d' b']|]; [|done].
    intros [= <- <-]. by rewrite (IH d' eq_refl).
Qed.

Lemma diverge_app p k q : diverge p q = true → diverge (p ++ k) q = true.
Proof.
  revert q. induction p as [|c p IH]; intros [|c' q]; cbn [app diverge];
    try done.
  destruct (String.eqb c c'); auto.
Qed.

(** Two paths part ways, or one lies on the other. *)
Lemma diverge_or_prefix p q :
  diverge p q = true ∨ (∃ k, p = q ++ k) ∨ (∃ x r, q = p ++ x :: r).
Proof.
  revert q. induction p as [|c p IH]; intros [|c' q]; cbn [diverge].
  - right; left. by exists [].
  - right; right. by exists c', q.
  - right; left. by exists (c :: p).
  - destruct (String.eqb_spec c c') as [<-|Hne]; [|by left].
    destruct (IH q) as [?|[[k ->]|(x & r & ->)]]; [by left|right; left|right; right].
    + by exists k.
    + by exists x, r.
Qed.

Lemma diverge_not_prefix p q k : diverge p q = true → p ≠ q ++ k.
Proof.
  revert q. induction p as [|c p IH]; intros [|c' q]; cbn [diverge];
    try done.
  destruct (String.eqb_spec c c') as [<-|Hne].
  - intros Hd [= Hp]. by eapply IH.
  - intros _ [= ? _]. done.
Qed.

Lemma diverge_snoc_inv d b q :
  diverge (d ++ [b]) q = true →
  diverge d q = true ∨ ∃ b' q', q = d ++ b' :: q' ∧ b' ≠ b.
Proof.
  revert q. induction d as [|c d IH]; intros [|c' q]; cbn [app diverge];
    try done.
  - destruct (String.eqb_spec b c') as [<-|Hne]; [by destruct q|].
    intros _. right. by exists c', q.
  - destruct (String.eqb_spec c c') as [<-|Hne]; [|by left].
    intros [?|(b' & q' & -> & ?)]%IH; [by left|right]. by exists b', q'.
Qed.

(** * Reading the file system after a change *)

Lemma resolve_app p q n :
  resolve (p ++ q) n = result_bind (resolve p n) (resolve q).
Proof.
  revert n. induction p as [|c p IH]; intros n; [done|].
  cbn [app resolve]. destruct n as [|m]; [done|].
  destruct (m !! c); [apply IH|done].
Qed.

Lemma resolve_snoc_inv d b n x :
  resolve (d ++ [b]) n = Ok x →
  ∃ m, resolve d n = Ok (Dir m) ∧ m !! b = Some x.
Proof.
  rewrite resolve_app. destruct (resolve d n) as [[|m]|]; cbn; try done.
  destruct (m !! b) eqn:Hb; [|done]. intros [= ->]. by exists m.
Qed.

(** A change of the directory at [d] succeeds when the directory is there
    and the change of its entries does. *)
Lemma update_dir_inv d f n n' :
  update_dir d f n = Ok n' →
  ∃ m m', resolve d n = Ok (Dir m) ∧ f m = Ok m' ∧ resolve d n' = Ok (Dir m').
Proof.
  revert n n'. induction d as [|c d IH]; intros [|m] n'; cbn; try done.
  - destruct (f m) as [m'|] eqn:Hf; cbn; [|done].
    intros [= <-]. by exists m, m'.
  - destruct (m !! c) as [x|] eqn:Hc; [|done].
    destruct (update_dir d f x) as [x'|] eqn:Hx; cbn; [|done].
    intros [= <-]. rewrite lookup_insert_eq. by apply IH.
Qed.

Lemma update_dir_ok d f n m m' :
  resolve d n = Ok (Dir m) → f m = Ok m' →
  ∃ n', update_dir d f n = Ok n'.
Proof.
  revert n. induction d as [|c d IH]; intros [|m0]; cbn; try done.
  - intros [= ->] ->. cbn. eauto.
  - destruct (m0 !! c) as [x|]; [|done].
    intros Hx Hf. destruct (IH x Hx Hf) as [x' ->]. cbn. eauto.
Qed.

Lemma update_dir_raise d f n m e :
  resolve d n = Ok (Dir m) → f m = Raise e → update_dir d f n = Raise e.
Proof.
  revert n. induction d as [|c d IH]; intros [|m0]; cbn; try done.
  - by intros [= ->] ->.
  - destruct (m0 !! c) as [x|]; [|done].
    intros Hx Hf. by rewrite (IH x Hx Hf).
Qed.

(** Without the directory there is nothing to change. *)
Lemma update_dir_absent d f n :
  (∀ m, resolve d n ≠ Ok (Dir m)) → ∃ e, update_dir d f n = Raise e.
Proof.
  revert n. induction d as [|c d IH]; intros [|m] Hn; cbn; eauto.
  - by destruct (Hn m).
  - destruct (m !! c) as [x|] eqn:Hc; [|eauto].
    destruct (IH x) as [e ->]; [|cbn; eauto].
    intros m'. specialize (Hn m'). cbn in Hn. by rewrite Hc in Hn.
Qed.

(** A change below [d] is not seen from the paths that part ways with [d]. *)
Lemma update_dir_frame d f n n' q :
  update_dir d f n = Ok n' → diverge d q = true →
  resolve q n' = resolve q n.
Proof.
  revert n n' q. induction d as [|c d IH]; intros [|m] n' [|c' q]; cbn;
    try done.
  destruct (m !! c) as [x|] eqn:Hc; [|done].
  destruct (update_dir d f x) as [x'|] eqn:Hx; cbn; [|done].
  intros [= <-]. destruct (String.eqb_spec c c') as [<-|Hne].
  - intros Hd. rewrite lookup_insert_eq, Hc. by eapply IH.
  - intros _. by rewrite lookup_insert_ne.
Qed.

Lemma update_entry_frame p f n n' q :
  (∀ b, local_to b (f b)) →
  update_entry p f n = Ok n' → diverge p q = true →
  resolve q n' = resolve q n.
Proof.
  intros Hloc. unfold update_entry.
  destruct (path_split p) as [[d b]|] eqn:Hp; [|done].
  apply path_split_inv in Hp as ->. intros Hu Hd.
  apply diverge_snoc_inv in Hd as [Hd|(b' & q' & -> & Hb)].
  - by eapply update_dir_frame.
  - apply update_dir_inv in Hu as (m & m' & Hm & Hf & Hm').
    rewrite !resolve_app, Hm, Hm'. cbn.
    by rewrite (Hloc b m m' b' Hf Hb).
Qed.

(** * The system calls *)

Lemma fs_mkdir_local b :
  local_to b (λ m, match m !! b with
                   | Some _ => Raise FileExistsError
                   | None => Ok (<[b:=Dir ∅]> m)
                   end).
Proof.
  intros m m' k. destruct (m !! b); [done|].
  intros [= <-] Hk. by rewrite lookup_insert_ne.
Qed.

Lemma fs_write_local data stat b :
  local_to b (λ m, match m !! b with
                   | Some (Dir _) => Raise IsADirectoryError
                   | _ => Ok (<[b:=File data stat]> m)
                   end).
Proof.
  intros m m' k. destruct (m !! b) as [[]|]; try done;
    intros [= <-] Hk; by rewrite lookup_insert_ne.
Qed.

Lemma fs_rmtree_local b :
  local_to b (λ m, match m !! b with
                   | None => Raise FileNotFoundError
                   | Some (File _ _) => Raise NotADirectoryError
                   | Some (Dir _) => Ok (delete b m)
                   end).
Proof.
  intros m m' k. destruct (m !! b) as [[]|]; try done.
  intros [= <-] Hk. by rewrite lookup_delete_ne.
Qed.

Lemma fs_write_frame p data stat n n' q :
  fs_write p data stat n = Ok n' → diverge p q = true →
  resolve q n' = resolve q n.
Proof.
  apply (update_entry_frame p (λ b m, match m !! b with
    | Some (Dir _) => Raise IsADirectoryError
    | _ => Ok (<[b:=File data stat]> m) end)).
  intros b. apply fs_write_local.
Qed.

Lemma fs_rmtree_frame p n n' q :
  fs_rmtree p n = Ok n' → diverge p q = true → resolve q n' = resolve q n.
Proof.
  apply (update_entry_frame p (λ b m, match m !! b with
    | None => Raise FileNotFoundError
    | Some (File _ _) => Raise NotADirectoryError
    | Some (Dir _) => Ok (delete b m) end)).
  intros b. apply fs_rmtree_local.
Qed.

Lemma fs_fill_frame p entries n n' q :
  fs_fill p entries n = Ok n' → diverge p q = true →
  resolve q n' = resolve q n.
Proof. apply update_dir_frame. Qed.

(** A new directory is seen from the paths to it only: it is empty. *)
Lemma fs_mkdir_frame p n n' q :
  fs_mkdir p n = Ok n' → (∀ k, p ≠ q ++ k) → resolve q n' = resolve q n.
Proof.
  intros Hmk Hq.
  destruct (diverge_or_prefix p q) as [Hd|[[k ->]|(x & r & ->)]].
  - revert Hmk Hd. apply (update_entry_frame p (λ b m, match m !! b with
      | Some _ => Raise FileExistsError
      | None => Ok (<[b:=Dir ∅]> m) end)).
    intros b. apply fs_mkdir_local.
  - by destruct (Hq k).
  - unfold fs_mkdir, update_entry in Hmk.
    destruct (path_split p) as [[d b]|] eqn:Hp; [|done].
    apply path_split_inv in Hp as ->.
    apply update_dir_inv in Hmk as (m & m' & Hm & Hf & Hm').
    destruct (m !! b) eqn:Hb; [done|]. injection Hf as <-.
    rewrite <-!(assoc_L (++)), !resolve_app, Hm, Hm'. cbn.
    by rewrite lookup_insert_eq, Hb.
Qed.

(** [os.mkdir] succeeds where the parent directory is there and the name is
    free, and makes an empty directory. *)
Lemma fs_mkdir_ok d b n m :
  resolve d n = Ok (Dir m) → m !! b = None →
  ∃ n', fs_mkdir (d ++ [b]) n = Ok n' ∧
        resolve d n' = Ok (Dir (<[b:=Dir ∅]> m)).
Proof.
  intros Hd Hb. unfold fs_mkdir, update_entry. rewrite path_split_snoc.
  destruct (update_dir_ok d (λ m, match m !! b with
      | Some _ => Raise FileExistsError
      | None => Ok (<[b:=Dir ∅]> m) end) n m (<[b:=Dir ∅]> m) Hd)
    as [n' Hn']; [by rewrite Hb|].
  exists n'. split; [done|].
  apply update_dir_inv in Hn' as (m1 & m1' & Hm1 & Hf & Hm1').
  rewrite Hd in Hm1. injection Hm1 as <-.
  rewrite Hb in Hf. by injection Hf as <-.
Qed.

Lemma fs_mkdir_exists d b n m x :
  resolve d n = Ok (Dir m) → m !! b = Some x →
  fs_mkdir (d ++ [b]) n = Raise FileExistsError.
Proof.
  intros Hd Hb. unfold fs_mkdir, update_entry. rewrite path_split_snoc.
  eapply update_dir_raise; [done|]. by rewrite Hb.
Qed.

Lemma fs_write_ok d b n m data stat :
  resolve d n = Ok (Dir m) → (∀ m', m !! b ≠ Some (Dir m')) →
  ∃ n', fs_write (d ++ [b]) data stat n = Ok n' ∧
        resolve d n' = Ok (Dir (<[b:=File data stat]> m)).
Proof.
  intros Hd Hb. unfold fs_write, update_entry. rewrite path_split_snoc.
  destruct (update_dir_ok d (λ m, match m !! b with
      | Some (Dir _) => Raise IsADirectoryError
      | _ => Ok (<[b:=File data stat]> m) end) n m (<[b:=File data stat]> m) Hd)
    as [n' Hn'].
  { destruct (m !! b) as [[|m']|]; try done. by destruct (Hb m'). }
  exists n'. split; [done|].
  apply update_dir_inv in Hn' as (m1 & m1' & Hm1 & Hf & Hm1').
  rewrite Hd in Hm1. injection Hm1 as <-.
  destruct (m !! b) as [[|m']|]; try (by injection Hf as <-).
  by destruct (Hb m').
Qed.

Lemma fs_rmtree_ok d b n m m0 :
  resolve d n = Ok (Dir m) → m !! b = Some (Dir m0) →
  ∃ n', fs_rmtree (d ++ [b]) n = Ok n' ∧
        resolve d n' = Ok (Dir (delete b m)).
Proof.
  intros Hd Hb. unfold fs_rmtree, update_entry. rewrite path_split_snoc.
  destruct (update_dir_ok d (λ m, match m !! b with
      | None => Raise FileNotFoundError
      | Some (File _ _) => Raise NotADirectoryError
      | Some (Dir _) => Ok (delete b m) end) n m (delete b m) Hd)
    as [n' Hn']; [by rewrite Hb|].
  exists n'. split; [done|].
  apply update_dir_inv in Hn' as (m1 & m1' & Hm1 & Hf & Hm1').
  rewrite Hd in Hm1. injection Hm1 as <-.
  rewrite Hb in Hf. by injection Hf as <-.
Qed.

Lemma fs_rmtree_file d b n m data stat :
  resolve d n = Ok (Dir m) → m !! b = Some (File data stat) →
  fs_rmtree (d ++ [b]) n = Raise NotADirectoryError.
Proof.
  intros Hd Hb. unfold fs_rmtree, update_entry. rewrite path_split_snoc.
  eapply update_dir_raise; [done|]. by rewrite Hb.
Qed.

Lemma fs_fill_ok p n m entries :
  resolve p n = Ok (Dir m) →
  ∃ n', fs_fill p entries n = Ok n' ∧ resolve p n' = Ok (Dir entries).
Proof.
  intros Hp. unfold fs_fill.
  destruct (update_dir_ok p (λ _, Ok entries) n m entries Hp eq_refl)
    as [n' Hn'].
  exists n'. split; [done|].
  apply update_dir_inv in Hn' as (m1 & m1' & Hm1 & Hf & Hm1').
  by injection Hf as <-.
Qed.

(** * What a script leaves alone *)

Section Keeps.
Context {A : Type} (Q : path → Prop).

Lemma keeps_ret (a : A) : keeps Q (ret a).
Proof. by intros w q _. Qed.

Lemma keeps_raise (e : exn) : keeps Q (raise (A:=A) e).
Proof. by intros w q _. Qed.

Lemma keeps_fs_read (f : node → A) : keeps Q (fs_read f).
Proof. by intros w q _. Qed.

Lemma keeps_bind {B} (m : M B) (k : B → M A) :
  keeps Q m → (∀ b, keeps Q (k b)) → keeps Q (bind m k).
Proof.
  intros Hm Hk w q Hq. specialize (Hm w q Hq). unfold bind.
  destruct (m w) as [[b|e] w']; [|done].
  by rewrite (Hk b w' q Hq).
Qed.

Lemma keeps_try_except (m : M A) (h : exn → M A) :
  keeps Q m → (∀ e, keeps Q (h e)) → keeps Q (try_except m h).
Proof.
  intros Hm Hh w q Hq. specialize (Hm w q Hq). unfold try_except.
  destruct (m w) as [[b|e] w']; [done|].
  by rewrite (Hh e w' q Hq).
Qed.

Lemma keeps_weaken (Q' : path → Prop) (m : M A) :
  (∀ q, Q q → Q' q) → keeps Q' m → keeps Q m.
Proof. intros HQ Hm w q Hq. apply Hm, HQ, Hq. Qed.
End Keeps.

Lemma keeps_print Q s : keeps Q (print s).
Proof. by intros w q _. Qed.

Lemma keeps_fs_call Q f :
  (∀ n n' q, f n = Ok n' → Q q → resolve q n' = resolve q n) →
  keeps Q (fs_call f).
Proof.
  intros Hf w q Hq. unfold fs_call.
  destruct (f (fs w)) as [n'|e] eqn:E; [|done]. by apply Hf.
Qed.

Lemma keeps_path_exists Q p : keeps Q (os.path_exists p).
Proof. apply keeps_fs_read. Qed.

Lemma keeps_path_isdir Q p : keeps Q (os.path_isdir p).
Proof. apply keeps_fs_read. Qed.

Lemma keeps_listdir Q ls p : keeps Q (os.listdir ls p).
Proof.
  apply keeps_bind; [apply keeps_fs_read|].
  intros [[|m]|e]; (apply keeps_ret || apply keeps_raise).
Qed.

Lemma keeps_mkdir p : keeps (λ q, ∀ k, p ≠ q ++ k) (os.mkdir p).
Proof.
  apply keeps_fs_call. intros n n' q Hmk Hq. by eapply fs_mkdir_frame.
Qed.

Lemma keeps_makedirs_rev exist_ok rname :
  keeps (λ q, ∀ k, rev rname ≠ q ++ k) (os.makedirs_rev exist_ok rname).
Proof.
  induction rname as [|tail rhead IH].
  - apply keeps_bind; [apply keeps_ret|]. intros _.
    apply keeps_try_except; [apply keeps_mkdir|]. intros e.
    apply keeps_bind; [apply keeps_path_isdir|].
    intros isdir. destruct (_ || _); [apply keeps_raise|apply keeps_ret].
  - cbn [os.makedirs_rev]. apply keeps_bind.
    + destruct rhead as [|tail' rhead']; [apply keeps_ret|].
      apply keeps_bind; [apply keeps_path_exists|].
      intros []; [apply keeps_ret|].
      apply keeps_try_except.
      * eapply keeps_weaken; [|exact IH].
        intros q Hq k Hk. apply (Hq (k ++ [tail])).
        change (rev (tail :: tail' :: rhead'))
          with (rev (tail' :: rhead') ++ [tail]).
        by rewrite Hk, (assoc_L (++)).
      * intros []; (apply keeps_ret || apply keeps_raise).
    + intros _. apply keeps_try_except; [apply keeps_mkdir|]. intros e.
      apply keeps_bind; [apply keeps_path_isdir|].
      intros isdir. destruct (_ || _); [apply keeps_raise|apply keeps_ret].
Qed.

Lemma keeps_makedirs name exist_ok :
  keeps (λ q, ∀ k, name ≠ q ++ k) (os.makedirs name exist_ok).
Proof.
  intros w q Hq. apply (keeps_makedirs_rev exist_ok (rev name)).
  intros k. rewrite rev_involutive. apply Hq.
Qed.

Lemma keeps_copy2 src dst :
  keeps (λ q, diverge dst q = true) (shutil.copy2 src dst).
Proof.
  apply keeps_bind; [apply keeps_path_isdir|]. intros isdir.
  apply keeps_bind; [apply keeps_path_exists|]. intros there.
  destruct (_ && _); [apply keeps_raise|].
  apply keeps_bind; [apply keeps_fs_read|].
  intros [[data stat|m]|e]; try apply keeps_raise.
  apply keeps_fs_call. intros n n' q Hw Hq.
  eapply fs_write_frame; [done|].
  destruct isdir; [by apply diverge_app|done].
Qed.

Lemma keeps_copytree src dst :
  keeps (λ q, diverge dst q = true) (shutil.copytree src dst).
Proof.
  apply keeps_bind; [apply keeps_fs_read|].
  intros [[data stat|m]|e]; try apply keeps_raise.
  apply keeps_bind.
  - eapply keeps_weaken; [|apply keeps_makedirs].
    intros q Hq k. by apply diverge_not_prefix.
  - intros _. apply keeps_fs_call. intros n n' q Hf Hq.
    by eapply fs_fill_frame.
Qed.

Lemma keeps_rmtree p : keeps (λ q, diverge p q = true) (shutil.rmtree p).
Proof.
  apply keeps_fs_call. intros n n' q Hr Hq. by eapply fs_rmtree_frame.
Qed.

(** ** The four scripts *)

(** [backup_db] writes to its destination and nowhere else. *)
Lemma keeps_backup_db now :
  keeps (λ q, diverge (backup_db.DST now) q = true) (backup_db.main now).
Proof.
  apply keeps_bind.
  - eapply keeps_weaken; [|apply keeps_makedirs].
    intros q Hq k Hk. revert Hq.
    destruct q as [|c [|c' q]], k; try done; injection Hk as <-; by cbn.
  - intros _. apply keeps_bind; [apply keeps_path_exists|].
    intros []; [|apply keeps_print].
    apply keeps_bind; [apply keeps_copy2|]. intros _. apply keeps_print.
Qed.

Lemma keeps_backup_workspace now :
  keeps (λ q, diverge (backup_workspace.DST now) q = true)
        (backup_workspace.main now).
Proof.
  apply keeps_bind.
  - eapply keeps_weaken; [|apply keeps_makedirs].
    intros q Hq k Hk. revert Hq.
    destruct q as [|c [|c' q]], k; try done; injection Hk as <-; by cbn.
  - intros _. apply keeps_bind; [apply keeps_path_exists|].
    intros []; [|apply keeps_print].
    apply keeps_bind; [apply keeps_copytree|]. intros _. apply keeps_print.
Qed.

(** The restore scripts write to the live path and nowhere else. *)
Lemma keeps_restore_db ls :
  keeps (λ q, diverge restore_db.DST q = true) (restore_db.main ls).
Proof.
  apply keeps_bind; [apply keeps_listdir|]. intros names.
  cbn zeta. destruct (List.filter _ names) as [|x l] eqn:Hf.
  - apply keeps_bind; [apply keeps_print|]. intros _. apply keeps_raise.
  - destruct (sort_reverse (x :: l)) as [|latest rest]; [apply keeps_raise|].
    apply keeps_bind; [apply keeps_copy2|]. intros _. apply keeps_print.
Qed.

Lemma keeps_restore_workspace ls :
  keeps (λ q, diverge restore_workspace.DST q = true)
        (restore_workspace.main ls).
Proof.
  apply keeps_bind; [apply keeps_listdir|]. intros names.
  cbn zeta. destruct (List.filter _ names) as [|x l] eqn:Hf.
  - apply keeps_bind; [apply keeps_print|]. intros _. apply keeps_raise.
  - destruct (sort_reverse (x :: l)) as [|latest rest]; [apply keeps_raise|].
    apply keeps_bind; [apply keeps_path_exists|]. intros there.
    apply keeps_bind.
    { destruct there; [apply keeps_rmtree|apply keeps_ret]. }
    intros _. apply keeps_bind; [apply keeps_copytree|].
    intros _. apply keeps_print.
Qed.

(** * Running a script *)

Lemma final_run m n : final (run m n) = after m n.
Proof.
  unfold run, after. by destruct (m (World n [])) as [[[]|[]] w].
Qed.

Lemma keeps_after Q (m : M unit) n q :
  keeps Q m → Q q → resolve q (final (run m n)) = resolve q n.
Proof. intros Hm Hq. rewrite final_run. by apply (Hm (World n [])). Qed.

(** * The latest backup *)

Lemma filter_listing ls (P : string → bool) (X : gset string) x :
  listing_ok ls → x ∈ List.filter P (ls X) ↔ x ∈ X ∧ P x = true.
Proof.
  intros Hls. rewrite list_elem_of_In, filter_In, <-list_elem_of_In.
  by rewrite (Hls X), elem_of_elements.
Qed.

(** The first name of the sorted list of backups is the greatest of the
    entries of the backup root that the filter accepts. *)
Lemma latest_greatest ls P (m : gmap string node) x :
  listing_ok ls →
  head (sort_reverse (List.filter P (ls (dom m)))) = Some x ↔ greatest P m x.
Proof.
  intros Hls. unfold greatest. split.
  - destruct (sort_reverse _) as [|z r] eqn:Hs; [done|].
    intros [= ->]. apply sort_reverse_head in Hs as [Hx Hmax].
    apply (filter_listing ls P) in Hx as [Hx HP]; [|done].
    split; [by apply elem_of_dom|]. split; [done|].
    intros y Hy HPy. apply Hmax, filter_listing; [done|].
    split; [by apply elem_of_dom|done].
  - intros (Hx & HP & Hmax). apply sort_reverse_greatest.
    + apply filter_listing; [done|]. split; [by apply elem_of_dom|done].
    + intros y [Hy HPy]%filter_listing; [|done].
      apply Hmax; [by apply elem_of_dom|done].
Qed.

Lemma latest_none ls P (m : gmap string node) :
  listing_ok ls →
  head (sort_reverse (List.filter P (ls (dom m)))) = None ↔
  ∀ x, is_Some (m !! x) → P x = false.
Proof.
  intros Hls. split.
  - destruct (sort_reverse _) as [|z r] eqn:Hs; [|done]. intros _ x Hx.
    apply sort_reverse_nil in Hs. destruct (P x) eqn:HP; [|done].
    assert (x ∈ List.filter P (ls (dom m))) as Hin.
    { apply filter_listing; [done|]. split; [by apply elem_of_dom|done]. }
    rewrite Hs in Hin. by apply elem_of_nil in Hin.
  - intros Hno. destruct (sort_reverse _) as [|z r] eqn:Hs; [done|].
    apply sort_reverse_head in Hs as [Hz _].
    apply filter_listing in Hz as [Hz HP]; [|done].
    rewrite (Hno z) in HP; [done|by apply elem_of_dom].
Qed.

(** [restore_db] as a function of the latest backup. *)
Lemma restore_db_main_eq ls w :
  restore_db.main ls w =
  match resolve restore_db.SRC_DIR (fs w) with
  | Ok (Dir m) =>
      match head (sort_reverse (List.filter restore_db.is_backup (ls (dom m)))) with
      | None => (print "No DB backup found.";; exit 1) w
      | Some latest =>
          (shutil.copy2 (path_join restore_db.SRC_DIR latest) restore_db.DST;;
           print ("Database restored from: " +:+
                  path_str (path_join restore_db.SRC_DIR latest))) w
      end
  | Ok (File _ _) => (Raise NotADirectoryError, w)
  | Raise e => (Raise e, w)
  end.
Proof.
  unfold restore_db.main, os.listdir, bind at 1 2, fs_read.
  destruct (resolve restore_db.SRC_DIR (fs w)) as [[|m]|e]; try done.
  unfold ret. cbn zeta.
  destruct (List.filter _ _) as [|x l] eqn:Hf; [done|].
  destruct (sort_reverse (x :: l)) as [|latest r] eqn:Hs; [|done].
  by apply sort_reverse_nil in Hs.
Qed.

(** [restore_workspace] as a function of the latest backup. *)
Lemma restore_workspace_main_eq ls w :
  restore_workspace.main ls w =
  match resolve restore_workspace.SRC_DIR (fs w) with
  | Ok (Dir m) =>
      match head (sort_reverse
                    (List.filter restore_workspace.is_backup (ls (dom m)))) with
      | None => (print "No workspace backup found.";; exit 1) w
      | Some latest =>
          (let* there := os.path_exists restore_workspace.DST in
           (if there then shutil.rmtree restore_workspace.DST else ret tt);;
           shutil.copytree (path_join restore_workspace.SRC_DIR latest)
                           restore_workspace.DST;;
           print ("Workspace restored from: " +:+
                  path_str (path_join restore_workspace.SRC_DIR latest))) w
      end
  | Ok (File _ _) => (Raise NotADirectoryError, w)
  | Raise e => (Raise e, w)
  end.
Proof.
  unfold restore_workspace.main, os.listdir, bind at 1 2, fs_read.
  destruct (resolve restore_workspace.SRC_DIR (fs w)) as [[|m]|e]; try done.
  unfold ret. cbn zeta.
  destruct (List.filter _ _) as [|x l] eqn:Hf; [done|].
  destruct (sort_reverse (x :: l)) as [|latest r] eqn:Hs; [|done].
  by apply sort_reverse_nil in Hs.
Qed.

(** * The properties of the specification *)

(** ** Selection of the latest backup *)

(** A name that starts with [db_backup_] and ends with [.sqlite3] is one the
    filter of [restore_db] accepts, and a name that starts with
    [workspace_backup_] is one the filter of [restore_workspace] accepts; the
    filters accept no other names. *)
Lemma restore_db_filter f :
  restore_db.is_backup f = true ↔
  (∃ t, f = "db_backup_" +:+ t) ∧ (∃ t, f = t +:+ ".sqlite3").
Proof.
  unfold restore_db.is_backup.
  by rewrite andb_true_iff, startswith_spec, endswith_spec.
Qed.

Lemma restore_workspace_filter f :
  restore_workspace.is_backup f = true ↔ ∃ t, f = "workspace_backup_" +:+ t.
Proof. apply startswith_spec. Qed.

Lemma listing_ok_elements : listing_ok elements.
Proof. by intros X. Qed.

(** C2.  Of the entries of the backup root whose names start with
    [db_backup_] and end with [.sqlite3], [restore_db] restores from the one
    whose name is the greatest in the lexicographic order of strings, and
    from no other: it goes on exactly as the copy from that entry to the live
    path, followed by the message that names it.  [restore_workspace] does
    the same with the entries whose names start with [workspace_backup_].  *)
Theorem restore_selects_greatest ls n m x out :
  listing_ok ls →
  resolve ["backups"] n = Ok (Dir m) →
  is_Some (m !! x) →
  ((∃ t, x = "db_backup_" +:+ t) → (∃ t, x = t +:+ ".sqlite3") →
   (∀ y, is_Some (m !! y) →
         (∃ t, y = "db_backup_" +:+ t) → (∃ t, y = t +:+ ".sqlite3") →
         String.compare y x ≠ Gt) →
   restore_db.main ls (World n out) =
   (shutil.copy2 ["backups"; x] restore_db.DST;;
    print ("Database restored from: backups/" +:+ x)) (World n out)) ∧
  ((∃ t, x = "workspace_backup_" +:+ t) →
   (∀ y, is_Some (m !! y) → (∃ t, y = "workspace_backup_" +:+ t) →
         String.compare y x ≠ Gt) →
   restore_workspace.main ls (World n out) =
   (let* there := os.path_exists restore_workspace.DST in
    (if there then shutil.rmtree restore_workspace.DST else ret tt);;
    shutil.copytree ["backups"; x] restore_workspace.DST;;
    print ("Workspace restored from: backups/" +:+ x)) (World n out)).
Proof.
  intros Hls Hm Hin. split.
  - intros Hpre Hsuf Hmax.
    assert (greatest restore_db.is_backup m x) as Hx.
    { split; [done|]. split; [by apply restore_db_filter|].
      intros y Hy [Hp Hs]%restore_db_filter. apply le_compare. by apply Hmax. }
    rewrite restore_db_main_eq. cbn [fs]. unfold restore_db.SRC_DIR.
    rewrite Hm. by apply (latest_greatest ls) in Hx as ->.
  - intros Hpre Hmax.
    assert (greatest restore_workspace.is_backup m x) as Hx.
    { split; [done|]. split; [by apply restore_workspace_filter|].
      intros y Hy Hp%restore_workspace_filter. apply le_compare.
      by apply Hmax. }
    rewrite restore_workspace_main_eq. cbn [fs].
    unfold restore_workspace.SRC_DIR.
    rewrite Hm. by apply (latest_greatest ls) in Hx as ->.
Qed.

Lemma restore_selects_greatest_witness :
  restore_db.main elements (World example_fs []) =
  (shutil.copy2 ["backups"; "db_backup_20240101_020000.sqlite3"]
                restore_db.DST;;
   print ("Database restored from: backups/" +:+
          "db_backup_20240101_020000.sqlite3")) (World example_fs []) ∧
  restore_workspace.main elements (World example_fs []) =
  (let* there := os.path_exists restore_workspace.DST in
   (if there then shutil.rmtree restore_workspace.DST else ret tt);;
   shutil.copytree ["backups"; "workspace_backup_20240101_020000"]
                   restore_workspace.DST;;
   print ("Workspace restored from: backups/" +:+
          "workspace_backup_20240101_020000")) (World example_fs []).
Proof.
  assert (resolve ["backups"] example_fs = Ok (Dir example_backups)) as Hm
    by (vm_compute; reflexivity).
  split.
  - refine (proj1 (restore_selects_greatest elements example_fs
             example_backups "db_backup_20240101_020000.sqlite3" []
             listing_ok_elements Hm _) _ _ _).
    + vm_compute. eauto.
    + by exists "20240101_020000.sqlite3".
    + by exists "db_backup_20240101_020000".
    + intros y Hy Hp Hs.
      assert (y ∈ List.filter restore_db.is_backup
                    (elements (dom example_backups))) as Hf.
      { apply (filter_listing elements); [apply listing_ok_elements|].
        split; [by apply elem_of_dom|by apply restore_db_filter]. }
      revert Hf. vm_compute (List.filter _ _).
      rewrite !elem_of_cons, elem_of_nil.
      intros [->|[->|[->|[]]]]; vm_compute; discriminate.
  - refine (proj2 (restore_selects_greatest elements example_fs
             example_backups "workspace_backup_20240101_020000" []
             listing_ok_elements Hm _) _ _).
    + vm_compute. eauto.
    + by exists "20240101_020000".
    + intros y Hy Hp.
      assert (y ∈ List.filter restore_workspace.is_backup
                    (elements (dom example_backups))) as Hf.
      { apply (filter_listing elements); [apply listing_ok_elements|].
        split; [by apply elem_of_dom|by apply restore_workspace_filter]. }
      revert Hf. vm_compute (List.filter _ _).
      rewrite !elem_of_cons, elem_of_nil.
      intros [->|[->|[->|[]]]]; vm_compute; discriminate.
Defined.

(** The example of the specification, run: of the backups of 01:00:00 and
    02:00:00 of 2024-01-01 and of 23:59:59 of 2023-12-31, both scripts restore
    the one of 02:00:00. *)
Example restore_example :
  let db := run (restore_db.main elements) example_fs in
  let ws := run (restore_workspace.main elements) example_fs in
  printed db =
    ["Database restored from: backups/db_backup_20240101_020000.sqlite3"] ∧
  resolve restore_db.DST (final db) = Ok (File "two" 2) ∧
  printed ws =
    ["Workspace restored from: backups/workspace_backup_20240101_020000"] ∧
  resolve restore_workspace.DST (final ws) =
    Ok (Dir {[ "a.txt" := File "two" 2 ]}).
Proof. vm_compute. repeat split; reflexivity. Qed.

Lemma list_filter_perm {A} (P : A → bool) (l1 l2 : list A) :
  l1 ≡ₚ l2 → List.filter P l1 ≡ₚ List.filter P l2.
Proof.
  induction 1 as [|x l1 l2 _ IH|x y l|l1 l2 l3 _ IH1 _ IH2]; cbn.
  - done.
  - destruct (P x); by rewrite IH.
  - destruct (P x), (P y); (done || apply Permutation_swap).
  - by rewrite IH1.
Qed.

(** C9.  The outcome of a restore does not depend on the order in which the
    system lists the backup root: under any two orders of the same entries
    the script ends with the same status, the same output and the same file
    system.  *)
Theorem restore_order_independent ls1 ls2 n :
  listing_ok ls1 → listing_ok ls2 →
  run (restore_db.main ls1) n = run (restore_db.main ls2) n ∧
  run (restore_workspace.main ls1) n = run (restore_workspace.main ls2) n.
Proof.
  intros H1 H2.
  assert (∀ P X, head (sort_reverse (List.filter P (ls1 X))) =
                 head (sort_reverse (List.filter P (ls2 X)))) as Hsel.
  { intros P X. apply sort_reverse_head_perm, list_filter_perm.
    by rewrite (H1 X), (H2 X). }
  unfold run. split.
  - rewrite !restore_db_main_eq. cbn [fs].
    destruct (resolve _ n) as [[|m]|e]; try done. by rewrite Hsel.
  - rewrite !restore_workspace_main_eq. cbn [fs].
    destruct (resolve _ n) as [[|m]|e]; try done. by rewrite Hsel.
Qed.

Lemma restore_order_independent_witness :
  listing_ok elements ∧ listing_ok elements_reversed ∧
  run (restore_db.main elements) example_fs =
  run (restore_db.main elements_reversed) example_fs ∧
  run (restore_workspace.main elements) example_fs =
  run (restore_workspace.main elements_reversed) example_fs.
Proof.
  assert (listing_ok elements_reversed) as Hr.
  { intros X. apply reverse_Permutation. }
  split; [apply listing_ok_elements|]. split; [exact Hr|].
  apply (restore_order_independent elements elements_reversed example_fs);
    [apply listing_ok_elements|exact Hr].
Defined.

(** ** What the restore scripts leave alone *)

(** C10.  The restore scripts read the backup root and write nothing in it:
    after a run, every path at or below [backups] names what it named
    before, in every state of the file system and under every order of
    listing.  *)
Theorem restore_keeps_backup_root ls n r :
  resolve ("backups" :: r) (final (run (restore_db.main ls) n)) =
    resolve ("backups" :: r) n ∧
  resolve ("backups" :: r) (final (run (restore_workspace.main ls) n)) =
    resolve ("backups" :: r) n.
Proof.
  split.
  - by apply (keeps_after _ _ _ _ (keeps_restore_db ls)).
  - by apply (keeps_after _ _ _ _ (keeps_restore_workspace ls)).
Qed.

(** The writes of a restore are at or below the live path: every path that
    parts ways with the live path names what it named before. *)
Lemma restore_writes_live_path_only ls n q :
  (diverge restore_db.DST q = true →
   resolve q (final (run (restore_db.main ls) n)) = resolve q n) ∧
  (diverge restore_workspace.DST q = true →
   resolve q (final (run (restore_workspace.main ls) n)) = resolve q n).
Proof.
  split; intros Hq.
  - by apply (keeps_after _ _ _ _ (keeps_restore_db ls)).
  - by apply (keeps_after _ _ _ _ (keeps_restore_workspace ls)).
Qed.

(** * What a library call prints: nothing *)

Section Silent.
Context {A : Type}.

Lemma silent_ret (a : A) : silent (ret a).
Proof. done. Qed.

Lemma silent_raise (e : exn) : silent (raise (A:=A) e).
Proof. done. Qed.

Lemma silent_fs_read (f : node → A) : silent (fs_read f).
Proof. done. Qed.

Lemma silent_bind {B} (m : M B) (k : B → M A) :
  silent m → (∀ b, silent (k b)) → silent (bind m k).
Proof.
  intros Hm Hk w. specialize (Hm w). unfold bind.
  destruct (m w) as [[b|e] w']; [|done]. by rewrite (Hk b w').
Qed.

Lemma silent_try_except (m : M A) (h : exn → M A) :
  silent m → (∀ e, silent (h e)) → silent (try_except m h).
Proof.
  intros Hm Hh w. specialize (Hm w). unfold try_except.
  destruct (m w) as [[b|e] w']; [done|]. by rewrite (Hh e w').
Qed.
End Silent.

Lemma silent_fs_call f : silent (fs_call f).
Proof. intros w. unfold fs_call. by destruct (f (fs w)). Qed.

Lemma silent_makedirs_rev exist_ok rname :
  silent (os.makedirs_rev exist_ok rname).
Proof.
  induction rname as [|tail rhead IH]; cbn [os.makedirs_rev];
    (apply silent_bind;
     [|intros _; apply silent_try_except; [apply silent_fs_call|];
       intros e; apply silent_bind; [apply silent_fs_read|];
       intros isdir; by destruct (_ || _)]).
  - done.
  - destruct rhead as [|tail' rhead']; [done|].
    apply silent_bind; [apply silent_fs_read|].
    intros []; [done|]. apply silent_try_except; [exact IH|].
    by intros [].
Qed.

Lemma silent_copy2 src dst : silent (shutil.copy2 src dst).
Proof.
  apply silent_bind; [apply silent_fs_read|]. intros isdir.
  apply silent_bind; [apply silent_fs_read|]. intros there.
  destruct (_ && _); [done|].
  apply silent_bind; [apply silent_fs_read|].
  intros [[data stat|m]|e]; try done. apply silent_fs_call.
Qed.

Lemma silent_copytree src dst : silent (shutil.copytree src dst).
Proof.
  apply silent_bind; [apply silent_fs_read|].
  intros [[data stat|m]|e]; try done.
  apply silent_bind; [apply silent_makedirs_rev|].
  intros _. apply silent_fs_call.
Qed.

Lemma silent_rmtree p : silent (shutil.rmtree p).
Proof. apply silent_fs_call. Qed.

(** * The library calls, run *)

(** Below a directory that is there, [os.makedirs] is [os.mkdir] with the
    handler of [exist_ok]. *)
Lemma makedirs_below d b exist_ok w x :
  resolve d (fs w) = Ok x →
  os.makedirs (d ++ [b]) exist_ok w =
  try_except (os.mkdir (d ++ [b]))
    (λ e, let* isdir := os.path_isdir (d ++ [b]) in
          if negb exist_ok || negb isdir then raise e else ret tt) w.
Proof.
  intros Hd. unfold os.makedirs. rewrite rev_app_distr. cbn [rev app].
  cbn [os.makedirs_rev]. rewrite <-(rev_involutive d) in Hd.
  destruct (rev d) as [|c rd] eqn:Hrd.
  - by rewrite <-(rev_involutive d), Hrd.
  - unfold bind at 1 2, os.path_exists, fs_read. rewrite Hd. unfold ret.
    by rewrite <-(rev_involutive d), Hrd.
Qed.

Lemma makedirs_new d b exist_ok n out m :
  resolve d n = Ok (Dir m) → m !! b = None →
  ∃ n', os.makedirs (d ++ [b]) exist_ok (World n out) = (Ok tt, World n' out) ∧
        resolve d n' = Ok (Dir (<[b:=Dir ∅]> m)) ∧
        fs_mkdir (d ++ [b]) n = Ok n'.
Proof.
  intros Hd Hb. destruct (fs_mkdir_ok d b n m Hd Hb) as (n' & Hmk & Hn').
  exists n'. split; [|done].
  rewrite (makedirs_below d b exist_ok _ (Dir m)) by done.
  unfold try_except, os.mkdir, fs_call. cbn [fs stdout]. by rewrite Hmk.
Qed.

Lemma makedirs_there d b exist_ok n out m x :
  resolve d n = Ok (Dir m) → m !! b = Some x →
  os.makedirs (d ++ [b]) exist_ok (World n out) =
  if exist_ok && (if x is Dir _ then true else false)
  then (Ok tt, World n out) else (Raise FileExistsError, World n out).
Proof.
  intros Hd Hb.
  rewrite (makedirs_below d b exist_ok _ (Dir m)) by done.
  unfold try_except, os.mkdir, fs_call. cbn [fs stdout].
  rewrite (fs_mkdir_exists d b n m x Hd Hb).
  unfold bind, os.path_isdir, fs_read. cbn [fs].
  rewrite resolve_app, Hd. cbn. rewrite Hb.
  by destruct exist_ok, x.
Qed.

(** Copying a file to a path that names no directory, in a directory that is
    there. *)
Lemma copy2_file src d b n out data stat m :
  resolve src n = Ok (File data stat) →
  resolve d n = Ok (Dir m) → (∀ m', m !! b ≠ Some (Dir m')) →
  src ≠ d ++ [b] →
  ∃ n', shutil.copy2 src (d ++ [b]) (World n out) = (Ok tt, World n' out) ∧
        resolve d n' = Ok (Dir (<[b:=File data stat]> m)).
Proof.
  intros Hsrc Hd Hb Hne.
  destruct (fs_write_ok d b n m data stat Hd Hb) as (n' & Hw & Hn').
  exists n'. split; [|done].
  assert ((if resolve (d ++ [b]) n is Ok (Dir _) then true else false) = false)
    as Hisdir.
  { rewrite resolve_app, Hd. cbn.
    destruct (m !! b) as [[|m']|] eqn:E; try done. by destruct (Hb m'). }
  unfold shutil.copy2, bind, os.path_isdir, os.path_exists, fs_read, fs_call.
  cbn [fs stdout]. rewrite Hisdir, Hsrc, bool_decide_eq_false_2 by done.
  cbn. rewrite Hsrc. cbn. by rewrite Hw.
Qed.

Lemma fs_write_post p data stat n n' :
  fs_write p data stat n = Ok n' → resolve p n' = Ok (File data stat).
Proof.
  unfold fs_write, update_entry.
  destruct (path_split p) as [[d b]|] eqn:Hp; [|done].
  apply path_split_inv in Hp as ->.
  intros (m & m' & Hm & Hf & Hm')%update_dir_inv.
  rewrite resolve_app, Hm'. cbn.
  destruct (m !! b) as [[]|]; try done;
    injection Hf as <-; by rewrite lookup_insert_eq.
Qed.

Lemma copy2_post src dst w w' :
  shutil.copy2 src dst w = (Ok tt, w') → ∃ x, resolve dst (fs w') = Ok x.
Proof.
  unfold shutil.copy2, bind, os.path_isdir, os.path_exists, fs_read, fs_call.
  destruct (resolve dst (fs w)) as [[d0 s0|m0]|e0];
    (destruct (_ && _); [done|]);
    (destruct (resolve src (fs w)) as [[data stat|]|]; try done);
    (destruct (fs_write _ data stat (fs w)) as [n'|] eqn:Hw; [|done]);
    intros [= <-]; cbn [fs]; apply fs_write_post in Hw; eauto.
  apply resolve_snoc_inv in Hw as (m & Hm & _). eauto.
Qed.

(** Copying a directory to a free name in a directory that is there. *)
Lemma copytree_new src d b n out entries m :
  resolve src n = Ok (Dir entries) →
  resolve d n = Ok (Dir m) → m !! b = None →
  ∃ n', shutil.copytree src (d ++ [b]) (World n out) = (Ok tt, World n' out) ∧
        resolve (d ++ [b]) n' = Ok (Dir entries).
Proof.
  intros Hsrc Hd Hb.
  destruct (makedirs_new d b false n out m Hd Hb) as (n1 & Hmk & Hn1 & _).
  destruct (fs_fill_ok (d ++ [b]) n1 ∅ entries) as (n' & Hfill & Hn').
  { rewrite resolve_app, Hn1. cbn. by rewrite lookup_insert_eq. }
  exists n'. split; [|done].
  unfold shutil.copytree, bind at 1, fs_read. cbn [fs]. rewrite Hsrc.
  unfold bind. rewrite Hmk. unfold fs_call. cbn [fs stdout]. by rewrite Hfill.
Qed.

(** Copying a directory to a name that is taken fails and changes nothing. *)
Lemma copytree_there src d b n out entries m x :
  resolve src n = Ok (Dir entries) →
  resolve d n = Ok (Dir m) → m !! b = Some x →
  shutil.copytree src (d ++ [b]) (World n out) =
  (Raise FileExistsError, World n out).
Proof.
  intros Hsrc Hd Hb.
  unfold shutil.copytree, bind at 1, fs_read. cbn [fs]. rewrite Hsrc.
  unfold bind. by rewrite (makedirs_there d b false n out m x Hd Hb).
Qed.

Lemma copytree_post src dst w w' :
  shutil.copytree src dst w = (Ok tt, w') →
  ∃ entries, resolve dst (fs w') = Ok (Dir entries).
Proof.
  unfold shutil.copytree, bind at 1, fs_read.
  destruct (resolve src (fs w)) as [[|entries]|]; try done.
  unfold bind. destruct (os.makedirs dst false w) as [[[]|] w1]; [|done].
  unfold fs_call. destruct (fs_fill dst entries (fs w1)) as [n'|] eqn:Hf; [|done].
  intros [= <-]. cbn [fs].
  apply update_dir_inv in Hf as (m1 & m1' & Hm1 & [= <-] & Hm1'). eauto.
Qed.

Lemma resolve_raise p n e :
  resolve p n = Raise e → e = FileNotFoundError ∨ e = NotADirectoryError.
Proof.
  revert n. induction p as [|c p IH]; intros [|m]; cbn; try done.
  - intros [= <-]. by right.
  - destruct (m !! c); [apply IH|]. intros [= <-]. by left.
Qed.

(** [os.makedirs('backups', exist_ok=True)] where the backup root is a
    directory, and where it is missing. *)
Lemma makedirs_backups_dir n out m :
  resolve ["backups"] n = Ok (Dir m) →
  os.makedirs ["backups"] true (World n out) = (Ok tt, World n out).
Proof.
  intros (r & Hr & Hb)%(resolve_snoc_inv []).
  exact (makedirs_there [] "backups" true n out r (Dir m) Hr Hb).
Qed.

Lemma makedirs_backups_absent n out :
  resolve ["backups"] n = Raise FileNotFoundError →
  ∃ n', os.makedirs ["backups"] true (World n out) = (Ok tt, World n' out) ∧
        fs_mkdir ["backups"] n = Ok n' ∧
        resolve ["backups"] n' = Ok (Dir ∅).
Proof.
  intros Hb. destruct n as [|r]; [done|]. cbn in Hb.
  destruct (r !! "backups") eqn:Hr; [done|].
  destruct (makedirs_new [] "backups" true (Dir r) out r eq_refl Hr)
    as (n' & Hmk & Hn' & Hfs).
  exists n'. split; [done|]. split; [done|].
  cbn in Hn'. injection Hn' as ->. cbn. by rewrite lookup_insert_eq.
Qed.

(** ** Restoring without a backup *)

(** C3.  When the backup root is missing, is empty or holds no entry that the
    filter of the mode accepts, [restore_db] and [restore_workspace] end with
    the status 1 and the file system is as it was: nothing is copied and
    nothing is deleted, at the live paths or anywhere else.  *)
Theorem restore_without_backup ls n :
  listing_ok ls →
  (no_artifact restore_db.is_backup n →
   status (run (restore_db.main ls) n) = 1 ∧
   final (run (restore_db.main ls) n) = n) ∧
  (no_artifact restore_workspace.is_backup n →
   status (run (restore_workspace.main ls) n) = 1 ∧
   final (run (restore_workspace.main ls) n) = n).
Proof.
  intros Hls. split; intros Hno; unfold run.
  - rewrite restore_db_main_eq. cbn [fs]. unfold restore_db.SRC_DIR.
    destruct (resolve ["backups"] n) as [[|m]|e] eqn:Hr; [done| |].
    + rewrite (proj2 (latest_none ls _ m Hls)); [done|].
      intros x Hx. by apply (Hno m).
    + by apply resolve_raise in Hr as [-> | ->].
  - rewrite restore_workspace_main_eq. cbn [fs].
    unfold restore_workspace.SRC_DIR.
    destruct (resolve ["backups"] n) as [[|m]|e] eqn:Hr; [done| |].
    + rewrite (proj2 (latest_none ls _ m Hls)); [done|].
      intros x Hx. by apply (Hno m).
    + by apply resolve_raise in Hr as [-> | ->].
Qed.

Lemma no_artifact_missing P r : r !! "backups" = None → no_artifact P (Dir r).
Proof. intros Hr m x. cbn. by rewrite Hr. Qed.

Lemma no_artifact_empty P r :
  r !! "backups" = Some (Dir ∅) → no_artifact P (Dir r).
Proof.
  intros Hr m x. cbn. rewrite Hr. intros [= <-].
  rewrite lookup_empty. by intros [].
Qed.

Lemma restore_without_backup_witness :
  let n := Dir {[ "backend" := Dir {[ "workspace.db" := File "live" 9 ]} ]} in
  listing_ok elements ∧
  no_artifact restore_db.is_backup n ∧
  no_artifact restore_workspace.is_backup n ∧
  (status (run (restore_db.main elements) n) = 1 ∧
   final (run (restore_db.main elements) n) = n) ∧
  (status (run (restore_workspace.main elements) n) = 1 ∧
   final (run (restore_workspace.main elements) n) = n).
Proof.
  assert (∀ P, no_artifact P
    (Dir {[ "backend" := Dir {[ "workspace.db" := File "live" 9 ]} ]})) as Hno.
  { intros P. apply no_artifact_missing. vm_compute. reflexivity. }
  cbn zeta. split; [apply listing_ok_elements|].
  split; [apply Hno|]. split; [apply Hno|].
  split.
  - apply (restore_without_backup elements _ listing_ok_elements), Hno.
  - apply (restore_without_backup elements _ listing_ok_elements), Hno.
Defined.

(** The three states the specification names: no backup root, an empty one,
    and one with entries of the other mode only. *)
Example restore_without_backup_examples :
  let live := {[ "backend" := Dir {[ "workspace.db" := File "live" 9 ]} ]} in
  let missing := Dir live in
  let empty := Dir (<["backups" := Dir ∅]> live) in
  let other := Dir (<["backups" := Dir {[ "notes.txt" := File "" 0 ]}]> live) in
  run (restore_db.main elements) missing = Outcome 1 [] missing ∧
  run (restore_workspace.main elements) missing = Outcome 1 [] missing ∧
  run (restore_db.main elements) empty =
    Outcome 1 ["No DB backup found."] empty ∧
  run (restore_workspace.main elements) empty =
    Outcome 1 ["No workspace backup found."] empty ∧
  run (restore_db.main elements) other =
    Outcome 1 ["No DB backup found."] other ∧
  run (restore_workspace.main elements) other =
    Outcome 1 ["No workspace backup found."] other.
Proof. vm_compute. repeat split; reflexivity. Qed.

(** ** Two workspace backups in one second *)

(** The copy of the workspace to a destination that is there. *)
Lemma backup_workspace_there now n out src m x :
  resolve backup_workspace.SRC n = Ok (Dir src) →
  resolve ["backups"] n = Ok (Dir m) →
  m !! backup_workspace.artifact now = Some x →
  backup_workspace.main now (World n out) =
  (Raise FileExistsError, World n out).
Proof.
  intros Hsrc Hm Hx. unfold backup_workspace.main, bind at 1.
  unfold backup_workspace.DST, path_join, backup_workspace.DST_DIR.
  rewrite (makedirs_backups_dir n out m Hm).
  unfold bind at 1, os.path_exists, fs_read. cbn [fs]. rewrite Hsrc.
  unfold bind.
  by rewrite (copytree_there _ ["backups"] _ n out src m x Hsrc Hm Hx).
Qed.

(** C5.  When the destination [backups/workspace_backup_<timestamp>] of a
    workspace backup is there already and the live workspace is a directory,
    so that the copy is made, the copy ends with [FileExistsError]: the run
    has the status 1, prints nothing and leaves the file system, and with it
    the artifact that is there, as it was.  *)
Theorem backup_workspace_collision now n src x :
  resolve backup_workspace.SRC n = Ok (Dir src) →
  resolve (backup_workspace.DST now) n = Ok x →
  raised (backup_workspace.main now) n = Some FileExistsError ∧
  run (backup_workspace.main now) n = Outcome 1 [] n ∧
  resolve (backup_workspace.DST now)
          (final (run (backup_workspace.main now) n)) = Ok x.
Proof.
  intros Hsrc Hdst. pose proof Hdst as Hdst'.
  unfold backup_workspace.DST, path_join, backup_workspace.DST_DIR in Hdst'.
  apply resolve_snoc_inv in Hdst' as (m & Hm & Hx).
  pose proof (backup_workspace_there now n [] src m x Hsrc Hm Hx) as Hrun.
  unfold raised, run. rewrite Hrun. by cbn.
Qed.

Lemma backup_workspace_collision_witness :
  let now := Datetime 2024 1 1 2 0 0 in
  resolve backup_workspace.SRC example_fs =
    Ok (Dir {[ "a.txt" := File "live" 9; "stale.txt" := File "stale" 9 ]}) ∧
  resolve (backup_workspace.DST now) example_fs =
    Ok (Dir {[ "a.txt" := File "two" 2 ]}) ∧
  raised (backup_workspace.main now) example_fs = Some FileExistsError ∧
  run (backup_workspace.main now) example_fs = Outcome 1 [] example_fs.
Proof.
  cbn zeta.
  assert (resolve backup_workspace.SRC example_fs =
    Ok (Dir {[ "a.txt" := File "live" 9; "stale.txt" := File "stale" 9 ]}))
    as Hsrc by (vm_compute; reflexivity).
  assert (resolve (backup_workspace.DST (Datetime 2024 1 1 2 0 0)) example_fs =
    Ok (Dir {[ "a.txt" := File "two" 2 ]})) as Hdst
    by (vm_compute; reflexivity).
  split; [exact Hsrc|]. split; [exact Hdst|].
  split; apply (backup_workspace_collision _ _ _ _ Hsrc Hdst).
Defined.

(** A second workspace backup in the second of the first one fails. *)
Lemma backup_workspace_twice now n src :
  resolve backup_workspace.SRC n = Ok (Dir src) →
  raised (backup_workspace.main now) n = None →
  let n' := final (run (backup_workspace.main now) n) in
  run (backup_workspace.main now) n' = Outcome 1 [] n'.
Proof.
  intros Hsrc Hok. cbn zeta.
  assert (∃ x, resolve (backup_workspace.DST now)
                 (final (run (backup_workspace.main now) n)) = Ok x) as [x Hx].
  { rewrite final_run. unfold raised in Hok. unfold after.
    destruct (backup_workspace.main now (World n [])) as [[[]|e] w'] eqn:Hrun;
      [clear Hok|done].
    revert Hrun. unfold backup_workspace.main, bind at 1.
    destruct (os.makedirs _ true _) as [[[]|e] w1] eqn:Hmk; [|done].
    assert (resolve backup_workspace.SRC (fs w1) = Ok (Dir src)) as Hsrc1.
    { rewrite <-Hsrc.
      pose proof (keeps_makedirs backup_workspace.DST_DIR true (World n [])
                    backup_workspace.SRC) as Hk.
      rewrite Hmk in Hk. apply Hk. by intros k. }
    unfold bind at 1, os.path_exists, fs_read. rewrite Hsrc1.
    unfold bind.
    destruct (shutil.copytree _ _ w1) as [[[]|e] w2] eqn:Hc; [|done].
    apply copytree_post in Hc as [entries Hc]. intros [= <-]. cbn. eauto. }
  assert (resolve backup_workspace.SRC
            (final (run (backup_workspace.main now) n)) = Ok (Dir src)) as Hsrc'.
  { rewrite <-Hsrc. by apply (keeps_after _ _ _ _ (keeps_backup_workspace now)). }
  unfold backup_workspace.DST, path_join, backup_workspace.DST_DIR in Hx.
  apply resolve_snoc_inv in Hx as (m & Hm & Hx).
  unfold run at 1.
  by rewrite (backup_workspace_there now _ [] src m x Hsrc' Hm Hx).
Qed.

(** ** Restoring over a live workspace *)

(** C6.  When the live workspace is a directory and the greatest of the
    workspace backups is a directory, [restore_workspace] deletes the live
    workspace, copies the backup to the live path and ends with the status
    0: the live workspace is then the backup, entry for entry, so a file of
    the old workspace that the backup does not have, such as [stale.txt], is
    gone; the backup root is as it was.  *)
Theorem restore_workspace_replaces ls n live bk x content :
  listing_ok ls →
  resolve restore_workspace.DST n = Ok (Dir live) →
  resolve ["backups"] n = Ok (Dir bk) →
  greatest restore_workspace.is_backup bk x →
  bk !! x = Some (Dir content) →
  let o := run (restore_workspace.main ls) n in
  restore_workspace.main ls (World n []) =
    (shutil.rmtree restore_workspace.DST;;
     shutil.copytree ["backups"; x] restore_workspace.DST;;
     print ("Workspace restored from: backups/" +:+ x)) (World n []) ∧
  status o = 0 ∧
  printed o = ["Workspace restored from: backups/" +:+ x] ∧
  resolve restore_workspace.DST (final o) = Ok (Dir content) ∧
  (∀ f, content !! f = None →
        resolve (restore_workspace.DST ++ [f]) (final o) =
        Raise FileNotFoundError) ∧
  resolve ["backups"] (final o) = Ok (Dir bk).
Proof.
  intros Hls Hlive Hbk Hx Hcontent. cbn zeta.
  set (storage := ["backend"; "src"; "infrastructure"; "storage"]).
  change restore_workspace.DST with (storage ++ ["workspace"]) in *.
  pose proof Hlive as (sm & Hsm & Hw)%resolve_snoc_inv.
  destruct (fs_rmtree_ok storage "workspace" n sm live Hsm Hw)
    as (n1 & Hrm & Hn1).
  assert (resolve ["backups"; x] n1 = Ok (Dir content)) as Hsrc1.
  { rewrite (fs_rmtree_frame _ _ _ _ Hrm) by done.
    rewrite (resolve_app ["backups"] [x]), Hbk. cbn. by rewrite Hcontent. }
  destruct (copytree_new ["backups"; x] storage "workspace" n1 []
              content (delete "workspace" sm) Hsrc1 Hn1)
    as (n2 & Hcp & Hn2); [apply lookup_delete_eq|].
  assert (restore_workspace.main ls (World n []) =
    (shutil.rmtree (storage ++ ["workspace"]);;
     shutil.copytree ["backups"; x] (storage ++ ["workspace"]);;
     print ("Workspace restored from: backups/" +:+ x)) (World n []))
    as Hmain.
  { rewrite restore_workspace_main_eq. cbn [fs].
    unfold restore_workspace.SRC_DIR. rewrite Hbk.
    apply (latest_greatest ls) in Hx as ->; [|done].
    unfold bind at 1, os.path_exists, fs_read. cbn [fs].
    change restore_workspace.DST with (storage ++ ["workspace"]).
    by rewrite Hlive. }
  assert (restore_workspace.main ls (World n []) =
    (Ok tt, World n2 ["Workspace restored from: backups/" +:+ x])) as Hrun.
  { rewrite Hmain. unfold bind at 1, shutil.rmtree, fs_call. cbn [fs stdout].
    rewrite Hrm. unfold bind at 1. rewrite Hcp. done. }
  split; [exact Hmain|]. unfold run. rewrite Hrun. cbn [status printed final fs stdout].
  split; [done|]. split; [done|]. split; [done|]. split.
  - intros f Hf. rewrite (resolve_app (storage ++ ["workspace"]) [f]), Hn2.
    cbn. by rewrite Hf.
  - rewrite <-Hbk.
    pose proof (keeps_after _ _ n ["backups"] (keeps_restore_workspace ls)
                  eq_refl) as Hk.
    unfold run in Hk. by rewrite Hrun in Hk.
Qed.

Lemma restore_workspace_replaces_witness :
  let o := run (restore_workspace.main elements) example_fs in
  status o = 0 ∧
  resolve restore_workspace.DST (final o) =
    Ok (Dir {[ "a.txt" := File "two" 2 ]}) ∧
  resolve (restore_workspace.DST ++ ["stale.txt"]) (final o) =
    Raise FileNotFoundError.
Proof.
  cbn zeta.
  assert (resolve restore_workspace.DST example_fs =
    Ok (Dir {[ "a.txt" := File "live" 9; "stale.txt" := File "stale" 9 ]}))
    as Hlive by (vm_compute; reflexivity).
  assert (resolve ["backups"] example_fs = Ok (Dir example_backups)) as Hbk
    by (vm_compute; reflexivity).
  assert (greatest restore_workspace.is_backup example_backups
            "workspace_backup_20240101_020000") as Hx.
  { apply (latest_greatest elements); [apply listing_ok_elements|].
    vm_compute. reflexivity. }
  assert (example_backups !! "workspace_backup_20240101_020000" =
    Some (Dir {[ "a.txt" := File "two" 2 ]})) as Hc
    by (vm_compute; reflexivity).
  destruct (restore_workspace_replaces elements example_fs _ _ _ _
              listing_ok_elements Hlive Hbk Hx Hc)
    as (_ & Hst & _ & Hdst & Hstale & _).
  split; [exact Hst|]. split; [exact Hdst|].
  apply Hstale. vm_compute. reflexivity.
Defined.

(** ** A backup without a source *)

(** [os.makedirs('backups', exist_ok=True)] does not reach below
    [backend]. *)
Lemma makedirs_backups_keeps w q c :
  c ≠ "backups" →
  resolve (c :: q) (fs (os.makedirs ["backups"] true w).2) =
  resolve (c :: q) (fs w).
Proof.
  intros Hc. apply (keeps_makedirs ["backups"] true w).
  intros k [= ? _]. done.
Qed.

(** The claim as it is written fails where [backups] is a regular file:
    [os.makedirs] raises [FileExistsError] and the run ends with the
    status 1. *)
Lemma backup_without_source_counterexample :
  ¬ (∀ now n e,
       resolve backup_db.SRC n = Raise e →
       status (run (backup_db.main now) n) = 0).
Proof.
  intros H.
  specialize (H (Datetime 2024 1 1 2 0 0)
                (Dir {[ "backups" := File "" 0 ]}) FileNotFoundError).
  vm_compute in H. by specialize (H eq_refl).
Qed.

(** C4, amended.  When the source of a backup is missing and [backups] is a
    directory or is missing, the backup ends with the status 0 and says that
    there is nothing to back up; where [backups] was a directory the file
    system is as it was, and where it was missing the one change is the new,
    empty directory [backups].  *)
Theorem backup_without_source now n :
  (resolve ["backups"] n = Raise FileNotFoundError ∨
   ∃ m, resolve ["backups"] n = Ok (Dir m)) →
  (∀ e, resolve backup_db.SRC n = Raise e →
     let o := run (backup_db.main now) n in
     status o = 0 ∧ printed o = ["No database file found to backup."] ∧
     (∀ m, resolve ["backups"] n = Ok (Dir m) → final o = n) ∧
     (resolve ["backups"] n = Raise FileNotFoundError →
      fs_mkdir ["backups"] n = Ok (final o) ∧
      resolve ["backups"] (final o) = Ok (Dir ∅))) ∧
  (∀ e, resolve backup_workspace.SRC n = Raise e →
     let o := run (backup_workspace.main now) n in
     status o = 0 ∧ printed o = ["No workspace directory found to backup."] ∧
     (∀ m, resolve ["backups"] n = Ok (Dir m) → final o = n) ∧
     (resolve ["backups"] n = Raise FileNotFoundError →
      fs_mkdir ["backups"] n = Ok (final o) ∧
      resolve ["backups"] (final o) = Ok (Dir ∅))).
Proof.
  intros Hroot.
  assert (∃ n', os.makedirs ["backups"] true (World n []) = (Ok tt, World n' [])
            ∧ (∀ m, resolve ["backups"] n = Ok (Dir m) → n' = n)
            ∧ (resolve ["backups"] n = Raise FileNotFoundError →
               fs_mkdir ["backups"] n = Ok n' ∧
               resolve ["backups"] n' = Ok (Dir ∅)))
    as (n' & Hmk & Hdir & Habsent).
  { destruct Hroot as [Hr|[m Hr]].
    - destruct (makedirs_backups_absent n [] Hr) as (n' & Hmk & Hfs & Hn').
      exists n'. split; [done|]. split; [|done]. intros m. by rewrite Hr.
    - exists n. split; [by apply (makedirs_backups_dir n [] m)|].
      split; [done|]. by rewrite Hr. }
  split; intros e Hsrc; cbn zeta; unfold run.
  - assert (backup_db.main now (World n []) =
            (Ok tt, World n' ["No database file found to backup."])) as ->.
    { unfold backup_db.main, bind at 1. unfold backup_db.DST_DIR.
      rewrite Hmk. unfold bind, os.path_exists, fs_read. cbn [fs].
      pose proof (makedirs_backups_keeps (World n []) (tail backup_db.SRC)
                    "backend") as Hk.
      rewrite Hmk in Hk. cbn [fs snd] in Hk.
      change ("backend" :: tail backup_db.SRC) with backup_db.SRC in Hk.
      by rewrite Hk, Hsrc. }
    cbn. split; [done|]. split; [done|]. split; [apply Hdir|apply Habsent].
  - assert (backup_workspace.main now (World n []) =
            (Ok tt, World n' ["No workspace directory found to backup."]))
      as ->.
    { unfold backup_workspace.main, bind at 1.
      unfold backup_workspace.DST_DIR.
      rewrite Hmk. unfold bind, os.path_exists, fs_read. cbn [fs].
      pose proof (makedirs_backups_keeps (World n [])
                    (tail backup_workspace.SRC) "backend") as Hk.
      rewrite Hmk in Hk. cbn [fs snd] in Hk.
      change ("backend" :: tail backup_workspace.SRC)
        with backup_workspace.SRC in Hk.
      by rewrite Hk, Hsrc. }
    cbn. split; [done|]. split; [done|]. split; [apply Hdir|apply Habsent].
Qed.

Lemma backup_without_source_witness :
  let now := Datetime 2024 1 1 2 0 0 in
  let n := Dir {[ "backups" := Dir {[ "old" := File "kept" 1 ]} ]} in
  (status (run (backup_db.main now) n) = 0 ∧
   final (run (backup_db.main now) n) = n) ∧
  (status (run (backup_workspace.main now) (Dir ∅)) = 0 ∧
   resolve ["backups"] (final (run (backup_workspace.main now) (Dir ∅))) =
     Ok (Dir ∅)).
Proof.
  cbn zeta. split.
  - destruct (backup_without_source (Datetime 2024 1 1 2 0 0)
                (Dir {[ "backups" := Dir {[ "old" := File "kept" 1 ]} ]}))
      as [Hdb _].
    { right. exists {[ "old" := File "kept" 1 ]}. vm_compute. reflexivity. }
    destruct (Hdb FileNotFoundError) as (Hst & _ & Hkept & _).
    { vm_compute. reflexivity. }
    split; [exact Hst|].
    apply (Hkept {[ "old" := File "kept" 1 ]}). vm_compute. reflexivity.
  - destruct (backup_without_source (Datetime 2024 1 1 2 0 0) (Dir ∅))
      as [_ Hws].
    { left. vm_compute. reflexivity. }
    destruct (Hws FileNotFoundError) as (Hst & _ & _ & Hnew).
    { vm_compute. reflexivity. }
    split; [exact Hst|]. apply Hnew. vm_compute. reflexivity.
Defined.

(** ** The artifacts after they are made *)

(** The claim as it is written fails for [backup_db]: a second database
    backup in the second of the first one has the destination of the first,
    and [shutil.copy2] writes over it.  In the example the artifact of
    02:00:00 holds ["two"] before the run and the live database after it. *)
Lemma artifacts_immutable_counterexample :
  ¬ (∀ now n name x,
       resolve ["backups"; name] n = Ok x →
       resolve ["backups"; name] (final (run (backup_db.main now) n)) = Ok x).
Proof.
  intros H.
  specialize (H (Datetime 2024 1 1 2 0 0) example_fs
                "db_backup_20240101_020000.sqlite3" (File "two" 2)).
  vm_compute in H. by specialize (H eq_refl).
Qed.

(** A workspace backup whose destination is there changes nothing, whatever
    the live workspace is. *)
Lemma backup_workspace_there_after now n x :
  resolve (backup_workspace.DST now) n = Ok x →
  after (backup_workspace.main now) n = n.
Proof.
  unfold backup_workspace.DST, path_join, backup_workspace.DST_DIR.
  intros (m & Hm & Hx)%resolve_snoc_inv. unfold after.
  destruct (resolve backup_workspace.SRC n) as [[data stat|src]|e] eqn:Hsrc.
  - unfold backup_workspace.main, bind at 1.
    unfold backup_workspace.DST_DIR.
    rewrite (makedirs_backups_dir n [] m Hm).
    unfold bind at 1, os.path_exists, fs_read. cbn [fs]. rewrite Hsrc.
    unfold bind at 1, shutil.copytree, bind at 1, fs_read. cbn [fs].
    by rewrite Hsrc.
  - by rewrite (backup_workspace_there now n [] src m x Hsrc Hm Hx).
  - unfold backup_workspace.main, bind at 1.
    unfold backup_workspace.DST_DIR.
    rewrite (makedirs_backups_dir n [] m Hm).
    unfold bind at 1, os.path_exists, fs_read. cbn [fs]. by rewrite Hsrc.
Qed.

(** One run keeps every entry of the backup root, but for a database backup
    and the entry of its own destination. *)
Lemma script_keeps_artifact o n name x :
  resolve ["backups"; name] n = Ok x →
  (∀ now, o = BackupDb now → name ≠ backup_db.artifact now) →
  resolve ["backups"; name] (final (run (script o) n)) = Ok x.
Proof.
  intros Hx Hne. destruct o as [now|now|ls|ls]; cbn [script].
  - rewrite <-Hx. apply (keeps_after _ _ _ _ (keeps_backup_db now)).
    cbn. destruct (String.eqb_spec (backup_db.artifact now) name) as [<-|];
      [by destruct (Hne now)|done].
  - destruct (String.eqb_spec (backup_workspace.artifact now) name)
      as [<-|Hn].
    + by rewrite final_run, (backup_workspace_there_after now n x).
    + rewrite <-Hx. apply (keeps_after _ _ _ _ (keeps_backup_workspace now)).
      cbn. by destruct (String.eqb_spec (backup_workspace.artifact now) name).
  - rewrite <-Hx. by apply (keeps_after _ _ _ _ (keeps_restore_db ls)).
  - rewrite <-Hx. by apply (keeps_after _ _ _ _ (keeps_restore_workspace ls)).
Qed.

(** C7, amended.  Through every sequence of runs of the four scripts, an
    entry of the backup root stays what it is, unless one of the runs is a
    database backup whose destination is that entry: [backup_workspace],
    [restore_db] and [restore_workspace] change no entry that is there, and
    [backup_db] changes none but the one its timestamp names.  *)
Theorem artifacts_kept ops n name x :
  resolve ["backups"; name] n = Ok x →
  (∀ now, BackupDb now ∈ ops → name ≠ backup_db.artifact now) →
  resolve ["backups"; name] (run_all ops n) = Ok x.
Proof.
  revert n. unfold run_all.
  induction ops as [|o ops IH]; intros n Hx Hne; cbn [foldl]; [done|].
  apply IH.
  - apply script_keeps_artifact; [done|].
    intros now ->. apply Hne. left.
  - intros now Hin. apply Hne. by right.
Qed.

Lemma artifacts_kept_witness :
  let t1 := Datetime 2024 1 1 3 0 0 in
  let t2 := Datetime 2024 1 1 2 0 0 in
  let ops := [BackupDb t1; BackupWorkspace t2; RestoreWorkspace elements;
              BackupWorkspace t1; RestoreDb elements] in
  resolve ["backups"; "db_backup_20240101_020000.sqlite3"]
          (run_all ops example_fs) = Ok (File "two" 2) ∧
  resolve ["backups"; "workspace_backup_20240101_020000"]
          (run_all ops example_fs) = Ok (Dir {[ "a.txt" := File "two" 2 ]}).
Proof.
  cbn zeta. split.
  - apply artifacts_kept; [vm_compute; reflexivity|].
    intros now [Heq|Hin]%elem_of_cons.
    + injection Heq as ->. vm_compute. discriminate.
    + vm_compute in Hin. repeat (apply elem_of_cons in Hin as [Hin|Hin];
        [discriminate Hin|]). by apply elem_of_nil in Hin.
  - apply artifacts_kept; [vm_compute; reflexivity|].
    intros now [Heq|Hin]%elem_of_cons.
    + injection Heq as ->. vm_compute. discriminate.
    + repeat (apply elem_of_cons in Hin as [Hin|Hin];
        [discriminate Hin|]). by apply elem_of_nil in Hin.
Defined.

(** * Further properties of the scripts *)

(** ** The names of the artifacts and the order of time *)

Lemma earlier_trichotomy d1 d2 :
  earlier d1 d2 ∨ fields d1 = fields d2 ∨ earlier d2 d1.
Proof.
  unfold earlier, fields. cbn [lex_lt].
  assert (year d1 = year d2 ∧ month d1 = month d2 ∧ day d1 = day d2 ∧
          hour d1 = hour d2 ∧ minute d1 = minute d2 ∧ second d1 = second d2 →
          [year d1; month d1; day d1; hour d1; minute d1; second d1] =
          [year d2; month d2; day d2; hour d2; minute d2; second d2]) as Heq.
  { by intros (-> & -> & -> & -> & -> & ->). }
  destruct (lt_eq_lt_dec (year d1) (year d2)) as [[?|?]|?];
  destruct (lt_eq_lt_dec (month d1) (month d2)) as [[?|?]|?];
  destruct (lt_eq_lt_dec (day d1) (day d2)) as [[?|?]|?];
  destruct (lt_eq_lt_dec (hour d1) (hour d2)) as [[?|?]|?];
  destruct (lt_eq_lt_dec (minute d1) (minute d2)) as [[?|?]|?];
  destruct (lt_eq_lt_dec (second d1) (second d2)) as [[?|?]|?];
  first [ left; lia | right; right; lia | right; left; apply Heq; lia ].
Qed.

Lemma lt_irrefl a : Str.lt a a = false.
Proof.
  unfold Str.lt, String.ltb. by rewrite str_compare_refl.
Qed.

Lemma lt_asym a b : Str.lt a b = true → Str.lt b a = false.
Proof.
  rewrite lt_compare. unfold Str.lt, String.ltb.
  rewrite (String.compare_antisym b a). by intros ->.
Qed.

(** X1.  The names that the backup scripts give to their artifacts are in
    the order of the clock: of two backups at valid times, one has the
    smaller name exactly when it was made at the earlier second.  This is
    what lets the restore scripts take the greatest name for the latest
    backup.  *)
Theorem artifact_names_chronological d1 d2 :
  valid_datetime d1 = true → valid_datetime d2 = true →
  (earlier d1 d2 ↔
   Str.lt (backup_db.artifact d1) (backup_db.artifact d2) = true) ∧
  (earlier d1 d2 ↔
   Str.lt (backup_workspace.artifact d1) (backup_workspace.artifact d2) = true).
Proof.
  intros Hv1 Hv2.
  assert (fields d1 = fields d2 → strftime d1 = strftime d2) as Hsame.
  { unfold fields, strftime. by intros [= -> -> -> -> -> ->]. }
  split; (split; [by (apply db_artifact_lt || apply workspace_artifact_lt)|]).
  - intros Hlt. destruct (earlier_trichotomy d1 d2) as [?|[Heq|Hgt]]; [done| |].
    + unfold backup_db.artifact, backup_db.TS in Hlt.
      by rewrite (Hsame Heq), lt_irrefl in Hlt.
    + apply (db_artifact_lt d2 d1 Hv2 Hv1), lt_asym in Hgt. congruence.
  - intros Hlt. destruct (earlier_trichotomy d1 d2) as [?|[Heq|Hgt]]; [done| |].
    + unfold backup_workspace.artifact, backup_workspace.TS in Hlt.
      by rewrite (Hsame Heq), lt_irrefl in Hlt.
    + apply (workspace_artifact_lt d2 d1 Hv2 Hv1), lt_asym in Hgt. congruence.
Qed.

Lemma artifact_names_chronological_witness :
  let d1 := Datetime 2023 12 31 23 59 59 in
  let d2 := Datetime 2024 1 1 1 0 0 in
  (earlier d1 d2 ↔
   Str.lt (backup_db.artifact d1) (backup_db.artifact d2) = true) ∧
  (earlier d1 d2 ↔
   Str.lt (backup_workspace.artifact d1) (backup_workspace.artifact d2) = true).
Proof.
  cbn zeta. apply artifact_names_chronological; vm_compute; reflexivity.
Defined.

(** X2.  The two modes never take each other's artifacts: the filter of
    [restore_workspace] rejects every name that [backup_db] gives, and the
    filter of [restore_db] rejects every name that [backup_workspace] gives,
    though all of them lie in the one backup root.  *)
Theorem filters_separate_modes now :
  restore_workspace.is_backup (backup_db.artifact now) = false ∧
  restore_db.is_backup (backup_workspace.artifact now) = false.
Proof.
  unfold restore_workspace.is_backup, restore_db.is_backup,
    backup_db.artifact, backup_workspace.artifact, Str.startswith.
  split.
  - by rewrite (str_app_cons "d").
  - by rewrite (str_app_cons "w").
Qed.

(** ** What the backup scripts leave alone *)

(** X3.  A backup never changes the live data: after [backup_db] or
    [backup_workspace], in every state and at every time, every path at or
    below [backend] names what it named before the run.  *)
Theorem backup_keeps_live now n r :
  resolve ("backend" :: r) (final (run (backup_db.main now) n)) =
    resolve ("backend" :: r) n ∧
  resolve ("backend" :: r) (final (run (backup_workspace.main now) n)) =
    resolve ("backend" :: r) n.
Proof.
  split.
  - by apply (keeps_after _ _ _ _ (keeps_backup_db now)).
  - by apply (keeps_after _ _ _ _ (keeps_backup_workspace now)).
Qed.

(** ** A restore after a backup *)

Lemma silent_makedirs name exist_ok : silent (os.makedirs name exist_ok).
Proof. apply silent_makedirs_rev. Qed.

(** A backup that reports an artifact has made it. *)
Lemma backup_db_created now n :
  printed (run (backup_db.main now) n) =
    ["Database backup created: " +:+ path_str (backup_db.DST now)] →
  ∃ x, resolve (backup_db.DST now) (final (run (backup_db.main now) n)) = Ok x.
Proof.
  unfold run.
  destruct (backup_db.main now (World n [])) as [r w'] eqn:Hrun.
  assert ((r = Ok tt ∧ ∃ x, resolve (backup_db.DST now) (fs w') = Ok x) ∨
          stdout w' = [] ∨
          stdout w' = ["No database file found to backup."]) as Hcases.
  { revert Hrun. unfold backup_db.main, bind at 1.
    pose proof (silent_makedirs backup_db.DST_DIR true (World n [])) as Hs1.
    destruct (os.makedirs _ true _) as [[[]|e] w1]; cbn [snd stdout] in Hs1.
    2: { intros [= <- <-]. by right; left. }
    unfold bind at 1, os.path_exists, fs_read.
    destruct (resolve backup_db.SRC (fs w1)).
    - unfold bind.
      pose proof (silent_copy2 backup_db.SRC (backup_db.DST now) w1) as Hs2.
      destruct (shutil.copy2 _ _ w1) as [[[]|e] w2] eqn:Hc; cbn [snd] in Hs2.
      + intros [= <- <-]. left. split; [done|]. by apply copy2_post in Hc.
      + intros [= <- <-]. right; left. by rewrite Hs2.
    - intros [= <- <-]. right; right. cbn. by rewrite Hs1. }
  destruct Hcases as [[-> Hx]|[Hp|Hp]].
  - done.
  - destruct r as [|[]]; cbn; by rewrite Hp.
  - destruct r as [|[]]; cbn; rewrite Hp; by rewrite (str_app_cons "D").
Qed.

Lemma backup_workspace_created now n :
  printed (run (backup_workspace.main now) n) =
    ["Workspace backup created: " +:+ path_str (backup_workspace.DST now)] →
  ∃ x, resolve (backup_workspace.DST now)
         (final (run (backup_workspace.main now) n)) = Ok x.
Proof.
  unfold run.
  destruct (backup_workspace.main now (World n [])) as [r w'] eqn:Hrun.
  assert ((r = Ok tt ∧
           ∃ x, resolve (backup_workspace.DST now) (fs w') = Ok x) ∨
          stdout w' = [] ∨
          stdout w' = ["No workspace directory found to backup."]) as Hcases.
  { revert Hrun. unfold backup_workspace.main, bind at 1.
    pose proof (silent_makedirs backup_workspace.DST_DIR true (World n []))
      as Hs1.
    destruct (os.makedirs _ true _) as [[[]|e] w1]; cbn [snd stdout] in Hs1.
    2: { intros [= <- <-]. by right; left. }
    unfold bind at 1, os.path_exists, fs_read.
    destruct (resolve backup_workspace.SRC (fs w1)).
    - unfold bind.
      pose proof (silent_copytree backup_workspace.SRC
                    (backup_workspace.DST now) w1) as Hs2.
      destruct (shutil.copytree _ _ w1) as [[[]|e] w2] eqn:Hc;
        cbn [snd] in Hs2.
      + intros [= <- <-]. left. split; [done|].
        apply copytree_post in Hc as [entries Hc]. eauto.
      + intros [= <- <-]. right; left. by rewrite Hs2.
    - intros [= <- <-]. right; right. cbn. by rewrite Hs1. }
  destruct Hcases as [[-> Hx]|[Hp|Hp]].
  - done.
  - destruct r as [|[]]; cbn; by rewrite Hp.
  - destruct r as [|[]]; cbn; rewrite Hp; by rewrite (str_app_cons "W").
Qed.

(** What a run that ends with one library call and a message prints. *)
Lemma printed_call_then_print (m : M unit) s n :
  silent m →
  printed (run (m;; print s) n) = [] ∨ printed (run (m;; print s) n) = [s].
Proof.
  intros Hm. specialize (Hm (World n [])). unfold run, bind.
  destruct (m (World n [])) as [[[]|e] w]; cbn [snd stdout] in Hm.
  - right. cbn. by rewrite Hm.
  - left. destruct e; cbn; by rewrite Hm.
Qed.

(** X4.  A restore that follows a backup finds it.  The name that a backup
    gives to its artifact passes the filter of the restore of its mode, so
    after a run of [backup_db] or [backup_workspace] that reports an artifact,
    the restore of that mode does not end with "no backup found", under any
    order of listing.  *)
Theorem restore_finds_new_backup now ls n :
  listing_ok ls →
  (restore_db.is_backup (backup_db.artifact now) = true ∧
   restore_workspace.is_backup (backup_workspace.artifact now) = true) ∧
  (printed (run (backup_db.main now) n) =
     ["Database backup created: " +:+ path_str (backup_db.DST now)] →
   "No DB backup found." ∉
     printed (run (restore_db.main ls) (final (run (backup_db.main now) n)))) ∧
  (printed (run (backup_workspace.main now) n) =
     ["Workspace backup created: " +:+ path_str (backup_workspace.DST now)] →
   "No workspace backup found." ∉
     printed (run (restore_workspace.main ls)
                  (final (run (backup_workspace.main now) n)))).
Proof.
  intros Hls.
  split; [split; [apply db_artifact_is_backup
                 |apply workspace_artifact_is_backup]|].
  split.
  - intros [x Hx]%backup_db_created.
    set (n' := final (run (backup_db.main now) n)) in *.
    unfold backup_db.DST, path_join, backup_db.DST_DIR in Hx.
    apply resolve_snoc_inv in Hx as (m & Hm & Hx).
    destruct (head (sort_reverse
                (List.filter restore_db.is_backup (ls (dom m)))))
      as [latest|] eqn:Hl.
    + assert (restore_db.main ls (World n' []) =
        (shutil.copy2 (path_join restore_db.SRC_DIR latest) restore_db.DST;;
         print ("Database restored from: " +:+
                path_str (path_join restore_db.SRC_DIR latest)))
          (World n' [])) as Hmain.
      { rewrite restore_db_main_eq. cbn [fs]. unfold restore_db.SRC_DIR.
        by rewrite Hm, Hl. }
      destruct (printed_call_then_print
                  (shutil.copy2 (path_join restore_db.SRC_DIR latest)
                                restore_db.DST)
                  ("Database restored from: " +:+
                   path_str (path_join restore_db.SRC_DIR latest)) n'
                  (silent_copy2 _ _)) as [Hp|Hp];
        unfold run in Hp |- *; rewrite Hmain, Hp.
      * apply not_elem_of_nil.
      * intros [Heq|[]%elem_of_nil]%elem_of_cons.
        by rewrite (str_app_cons "D") in Heq.
    + pose proof (proj1 (latest_none ls _ m Hls) Hl
                    (backup_db.artifact now)) as Hno.
      rewrite db_artifact_is_backup in Hno.
      discriminate (Hno (ex_intro _ x Hx)).
  - intros [x Hx]%backup_workspace_created.
    set (n' := final (run (backup_workspace.main now) n)) in *.
    unfold backup_workspace.DST, path_join, backup_workspace.DST_DIR in Hx.
    apply resolve_snoc_inv in Hx as (m & Hm & Hx).
    destruct (head (sort_reverse
                (List.filter restore_workspace.is_backup (ls (dom m)))))
      as [latest|] eqn:Hl.
    + set (msg := "Workspace restored from: " +:+
                  path_str (path_join restore_workspace.SRC_DIR latest)).
      set (body :=
        let* there := os.path_exists restore_workspace.DST in
        (if there then shutil.rmtree restore_workspace.DST else ret tt);;
        shutil.copytree (path_join restore_workspace.SRC_DIR latest)
                        restore_workspace.DST).
      assert (restore_workspace.main ls (World n' []) =
              (body;; print msg) (World n' [])) as Hmain.
      { rewrite restore_workspace_main_eq. cbn [fs].
        unfold restore_workspace.SRC_DIR at 1. rewrite Hm, Hl.
        unfold body, bind, os.path_exists, fs_read.
        destruct (resolve restore_workspace.DST n'); cbn [fs];
          by repeat match goal with |- context [match ?t with _ => _ end] =>
               match t with (_, _) => fail 1 | _ => destruct t as [[[]|?] ?] end
             end. }
      assert (silent body) as Hsil.
      { apply silent_bind; [apply silent_fs_read|]. intros there.
        apply silent_bind; [by destruct there; [apply silent_rmtree|]|].
        intros _. apply silent_copytree. }
      destruct (printed_call_then_print body msg n' Hsil) as [Hp|Hp];
        unfold run in Hp |- *; rewrite Hmain, Hp.
      * apply not_elem_of_nil.
      * intros [Heq|[]%elem_of_nil]%elem_of_cons.
        unfold msg in Heq. by rewrite (str_app_cons "W") in Heq.
    + pose proof (proj1 (latest_none ls _ m Hls) Hl
                    (backup_workspace.artifact now)) as Hno.
      rewrite workspace_artifact_is_backup in Hno.
      discriminate (Hno (ex_intro _ x Hx)).
Qed.

Lemma restore_finds_new_backup_witness :
  let now := Datetime 2024 1 1 3 0 0 in
  listing_ok elements ∧
  printed (run (backup_db.main now) example_fs) =
    ["Database backup created: " +:+ path_str (backup_db.DST now)] ∧
  "No DB backup found." ∉
    printed (run (restore_db.main elements)
                 (final (run (backup_db.main now) example_fs))).
Proof.
  cbn zeta.
  assert (printed (run (backup_db.main (Datetime 2024 1 1 3 0 0)) example_fs) =
    ["Database backup created: " +:+
     path_str (backup_db.DST (Datetime 2024 1 1 3 0 0))]) as Hp
    by (vm_compute; reflexivity).
  split; [apply listing_ok_elements|]. split; [exact Hp|].
  exact (proj1 (proj2 (restore_finds_new_backup (Datetime 2024 1 1 3 0 0)
                         elements example_fs listing_ok_elements)) Hp).
Defined.

(** ** A database backup, and the restore from it *)

(** [os.makedirs('backups', exist_ok=True)] where the backup root is a
    directory or can be made. *)
Lemma makedirs_backups_ok n out :
  backup_root_ok n →
  ∃ n0, os.makedirs ["backups"] true (World n out) = (Ok tt, World n0 out) ∧
        resolve ["backups"] n0 = Ok (Dir (backup_entries n)) ∧
        ∀ c q, c ≠ "backups" → resolve (c :: q) n0 = resolve (c :: q) n.
Proof.
  unfold backup_entries. intros [Hr|[m Hr]].
  - destruct (makedirs_backups_absent n out Hr) as (n0 & Hmk & _ & Hn0).
    exists n0. rewrite Hr. split; [done|]. split; [done|].
    intros c q Hc.
    pose proof (makedirs_backups_keeps (World n out) q c Hc) as Hk.
    by rewrite Hmk in Hk.
  - exists n. rewrite Hr. split; [by apply (makedirs_backups_dir n out m)|].
    done.
Qed.

(** The run of [backup_db] on a live database that is a file. *)
Lemma backup_db_main_file now n out data stat :
  resolve backup_db.SRC n = Ok (File data stat) →
  backup_root_ok n →
  (∀ m', backup_entries n !! backup_db.artifact now ≠ Some (Dir m')) →
  ∃ n', backup_db.main now (World n out) =
          (Ok tt, World n' (out ++ ["Database backup created: " +:+
                                    path_str (backup_db.DST now)])) ∧
        resolve ["backups"] n' =
          Ok (Dir (<[backup_db.artifact now := File data stat]>
                     (backup_entries n))) ∧
        ∀ r, resolve ("backend" :: r) n' = resolve ("backend" :: r) n.
Proof.
  intros Hsrc Hroot Hfree.
  destruct (makedirs_backups_ok n out Hroot) as (n0 & Hmk & Hn0 & Hk0).
  assert (resolve backup_db.SRC n0 = Ok (File data stat)) as Hsrc0.
  { rewrite <-Hsrc. by apply Hk0. }
  destruct (copy2_file backup_db.SRC ["backups"] (backup_db.artifact now)
              n0 out data stat (backup_entries n) Hsrc0 Hn0 Hfree)
    as (n' & Hcp & Hn'); [done|].
  exists n'. split; [|split; [done|]].
  - unfold backup_db.main, bind at 1. unfold backup_db.DST_DIR.
    rewrite Hmk. unfold bind at 1, os.path_exists, fs_read. cbn [fs].
    rewrite Hsrc0. unfold bind.
    unfold backup_db.DST, path_join, backup_db.DST_DIR. by rewrite Hcp.
  - intros r. rewrite <-(Hk0 "backend" r) by done.
    pose proof (keeps_copy2 backup_db.SRC
                  (["backups"] ++ [backup_db.artifact now])
                  (World n0 out) ("backend" :: r) eq_refl) as Hk.
    by rewrite Hcp in Hk.
Qed.

(** X5.  When the live database is a file, the backup root is a directory or
    is missing, and no directory has the name of the destination,
    [backup_db] ends with the status 0, names the artifact in its one line of
    output, and leaves the backup root with the entries it had and the
    artifact: a file with the bytes and the metadata of the live database.
    An older file of that name is replaced.  *)
Theorem backup_db_copies now n data stat :
  resolve backup_db.SRC n = Ok (File data stat) →
  backup_root_ok n →
  (∀ m', backup_entries n !! backup_db.artifact now ≠ Some (Dir m')) →
  let o := run (backup_db.main now) n in
  status o = 0 ∧
  printed o = ["Database backup created: backups/" +:+
               backup_db.artifact now] ∧
  backup_entries (final o) =
    <[backup_db.artifact now := File data stat]> (backup_entries n) ∧
  resolve (backup_db.DST now) (final o) = Ok (File data stat).
Proof.
  intros Hsrc Hroot Hfree. cbn zeta.
  destruct (backup_db_main_file now n [] data stat Hsrc Hroot Hfree)
    as (n' & Hrun & Hn' & _).
  unfold run. rewrite Hrun. cbn [status printed final app fs stdout].
  split; [done|]. split; [done|]. split.
  - unfold backup_entries at 1. by rewrite Hn'.
  - unfold backup_db.DST, path_join, backup_db.DST_DIR.
    rewrite resolve_app, Hn'. cbn. by rewrite lookup_insert_eq.
Qed.

Lemma backup_db_copies_witness :
  let now := Datetime 2024 1 1 2 0 0 in
  let o := run (backup_db.main now) example_fs in
  status o = 0 ∧
  resolve (backup_db.DST now) example_fs = Ok (File "two" 2) ∧
  resolve (backup_db.DST now) (final o) = Ok (File "live" 9).
Proof.
  cbn zeta.
  destruct (backup_db_copies (Datetime 2024 1 1 2 0 0) example_fs "live" 9)
    as (Hst & _ & _ & Hdst).
  - vm_compute. reflexivity.
  - right. exists example_backups. vm_compute. reflexivity.
  - intros m'. vm_compute. discriminate.
  - split; [exact Hst|]. split; [vm_compute; reflexivity|exact Hdst].
Defined.

(** The run of [restore_db] from a latest backup that is a file to a live
    path in a directory that is there. *)
Lemma restore_db_main_file ls n out m x data stat sm :
  listing_ok ls →
  resolve ["backups"] n = Ok (Dir m) →
  greatest restore_db.is_backup m x →
  m !! x = Some (File data stat) →
  resolve storage n = Ok (Dir sm) →
  (∀ m', sm !! "workspace.db" ≠ Some (Dir m')) →
  ∃ n', restore_db.main ls (World n out) =
          (Ok tt, World n' (out ++ ["Database restored from: backups/" +:+ x]))
        ∧ resolve storage n' =
          Ok (Dir (<["workspace.db" := File data stat]> sm)) ∧
        ∀ r, resolve ("backups" :: r) n' = resolve ("backups" :: r) n.
Proof.
  intros Hls Hm Hx Hfile Hsm Hfree.
  assert (resolve ["backups"; x] n = Ok (File data stat)) as Hsrc.
  { rewrite (resolve_app ["backups"] [x]), Hm. cbn. by rewrite Hfile. }
  destruct (copy2_file ["backups"; x] storage "workspace.db" n out data stat
              sm Hsrc Hsm Hfree) as (n' & Hcp & Hn'); [done|].
  exists n'. split; [|split; [done|]].
  - rewrite restore_db_main_eq. cbn [fs]. unfold restore_db.SRC_DIR.
    rewrite Hm. apply (latest_greatest ls) in Hx as ->; [|done].
    unfold bind. change restore_db.DST with (storage ++ ["workspace.db"]).
    change (path_join ["backups"] x) with ["backups"; x]. by rewrite Hcp.
  - intros r.
    pose proof (keeps_copy2 ["backups"; x] (storage ++ ["workspace.db"])
                  (World n out) ("backups" :: r) eq_refl) as Hk.
    by rewrite Hcp in Hk.
Qed.

(** X6.  When the greatest of the database backups is a file, the directory
    of the live database is there and the live path names no directory,
    [restore_db] ends with the status 0, names the backup in its one line of
    output, and leaves at the live path a file with the bytes and the
    metadata of that backup, whatever was there; the other entries of the
    directory and the backup root are as they were.  *)
Theorem restore_db_copies ls n m x data stat sm :
  listing_ok ls →
  resolve ["backups"] n = Ok (Dir m) →
  greatest restore_db.is_backup m x →
  m !! x = Some (File data stat) →
  resolve storage n = Ok (Dir sm) →
  (∀ m', sm !! "workspace.db" ≠ Some (Dir m')) →
  let o := run (restore_db.main ls) n in
  status o = 0 ∧
  printed o = ["Database restored from: backups/" +:+ x] ∧
  resolve restore_db.DST (final o) = Ok (File data stat) ∧
  resolve storage (final o) =
    Ok (Dir (<["workspace.db" := File data stat]> sm)) ∧
  resolve ["backups"] (final o) = Ok (Dir m).
Proof.
  intros Hls Hm Hx Hfile Hsm Hfree. cbn zeta.
  destruct (restore_db_main_file ls n [] m x data stat sm
              Hls Hm Hx Hfile Hsm Hfree) as (n' & Hrun & Hn' & Hk).
  unfold run. rewrite Hrun. cbn [status printed final app fs stdout].
  split; [done|]. split; [done|]. split; [|split; [done|]].
  - change restore_db.DST with (storage ++ ["workspace.db"]).
    rewrite resolve_app, Hn'. cbn. by rewrite lookup_insert_eq.
  - by rewrite (Hk []).
Qed.

Lemma restore_db_copies_witness :
  let o := run (restore_db.main elements) example_fs in
  status o = 0 ∧
  resolve restore_db.DST example_fs = Ok (File "live" 9) ∧
  resolve restore_db.DST (final o) = Ok (File "two" 2).
Proof.
  cbn zeta.
  destruct (restore_db_copies elements example_fs example_backups
              "db_backup_20240101_020000.sqlite3" "two" 2 example_storage)
    as (Hst & _ & Hdst & _).
  - apply listing_ok_elements.
  - vm_compute. reflexivity.
  - apply (latest_greatest elements); [apply listing_ok_elements|].
    vm_compute. reflexivity.
  - vm_compute. reflexivity.
  - vm_compute. reflexivity.
  - intros m'. vm_compute. discriminate.
  - split; [exact Hst|]. split; [vm_compute; reflexivity|exact Hdst].
Defined.

(** [backup_db] and then [restore_db], where the backup root is there or can
    be made and every older backup has a smaller name. *)
Lemma backup_restore_db_ok now ls n data stat sm :
  listing_ok ls →
  resolve backup_db.SRC n = Ok (File data stat) →
  resolve storage n = Ok (Dir sm) →
  sm !! "workspace.db" = Some (File data stat) →
  (∀ y, is_Some (backup_entries n !! y) → restore_db.is_backup y = true →
        Str.lt y (backup_db.artifact now) = true) →
  backup_entries n !! backup_db.artifact now = None →
  backup_root_ok n →
  resolve restore_db.DST
    (final (run (restore_db.main ls) (final (run (backup_db.main now) n)))) =
  Ok (File data stat).
Proof.
  intros Hls Hsrc Hsm Hlive Hlt Hnew Hroot.
  destruct (backup_db_main_file now n [] data stat Hsrc Hroot)
    as (n1 & Hrun1 & Hn1 & Hk1).
  { intros m'. by rewrite Hnew. }
  unfold run at 2. rewrite Hrun1. cbn [final fs].
  assert (greatest restore_db.is_backup
            (<[backup_db.artifact now := File data stat]> (backup_entries n))
            (backup_db.artifact now)) as Hg.
  { split; [by rewrite lookup_insert_eq|].
    split; [apply db_artifact_is_backup|].
    intros y Hy HP. destruct (decide (y = backup_db.artifact now)) as [->|Hne].
    - apply le_refl.
    - rewrite lookup_insert_ne in Hy by done. by apply lt_le, Hlt. }
  destruct (restore_db_main_file ls n1 [] _ _ data stat sm Hls Hn1 Hg)
    as (n2 & Hrun2 & Hn2 & _).
  - by rewrite lookup_insert_eq.
  - change storage with ("backend" :: ["src"; "infrastructure"; "storage"]).
    by rewrite Hk1.
  - intros m'. by rewrite Hlive.
  - unfold run. rewrite Hrun2. cbn [final fs].
    change restore_db.DST with (storage ++ ["workspace.db"]).
    rewrite resolve_app, Hn2. cbn. by rewrite lookup_insert_eq.
Qed.

(** X7.  Round trip of the database.  When the live database is a file, the
    clock is valid and every entry of the backup root that the filter of
    [restore_db] accepts is the artifact of an earlier valid time,
    [backup_db] followed by [restore_db] leaves at the live path the file
    that was there, bytes and metadata, under any order of listing; this
    holds too where the backup root cannot be made, as then both runs fail
    and change nothing.  *)
Theorem backup_restore_db_roundtrip now ls n data stat :
  listing_ok ls →
  valid_datetime now = true →
  resolve backup_db.SRC n = Ok (File data stat) →
  (∀ name, is_Some (backup_entries n !! name) →
           restore_db.is_backup name = true →
           ∃ t, valid_datetime t = true ∧ earlier t now ∧
                name = backup_db.artifact t) →
  resolve restore_db.DST
    (final (run (restore_db.main ls) (final (run (backup_db.main now) n)))) =
  Ok (File data stat).
Proof.
  intros Hls Hv Hsrc Hold.
  pose proof Hsrc as Hsrc'.
  change backup_db.SRC with (storage ++ ["workspace.db"]) in Hsrc'.
  apply resolve_snoc_inv in Hsrc' as (sm & Hsm & Hlive).
  assert (∀ y, is_Some (backup_entries n !! y) →
               restore_db.is_backup y = true →
               Str.lt y (backup_db.artifact now) = true) as Hlt.
  { intros y Hy HP. destruct (Hold y Hy HP) as (t & Ht & He & ->).
    by apply db_artifact_lt. }
  assert (backup_entries n !! backup_db.artifact now = None) as Hnew.
  { destruct (backup_entries n !! backup_db.artifact now) eqn:Hy; [|done].
    assert (Str.lt (backup_db.artifact now) (backup_db.artifact now) = true)
      as Hc.
    { apply Hlt; [by rewrite Hy|apply db_artifact_is_backup]. }
    by rewrite lt_irrefl in Hc. }
  destruct (resolve ["backups"] n) as [[d s|m]|e] eqn:Hr.
  - (* [backups] is a regular file: both runs fail *)
    pose proof Hr as (r & Hr0 & Hb)%(resolve_snoc_inv []).
    assert (backup_db.main now (World n []) =
            (Raise FileExistsError, World n [])) as Hrun1.
    { unfold backup_db.main, bind at 1. unfold backup_db.DST_DIR.
      pose proof (makedirs_there [] "backups" true n [] r (File d s)
                    Hr0 Hb) as Hmk.
      cbn [app andb] in Hmk. by rewrite Hmk. }
    unfold run at 2. rewrite Hrun1. cbn [final fs].
    unfold run. rewrite restore_db_main_eq. cbn [fs].
    unfold restore_db.SRC_DIR. rewrite Hr. cbn [final fs].
    exact Hsrc.
  - (* [backups] is a directory *)
    apply (backup_restore_db_ok now ls n data stat sm); try done.
    right. eauto.
  - destruct (resolve_raise _ _ _ Hr) as [->| ->].
    + apply (backup_restore_db_ok now ls n data stat sm); try done.
      by left.
    + (* a regular file is the root of the tree *)
      destruct n as [d s|r]; [done|]. cbn in Hr.
      by destruct (r !! "backups").
Qed.

Lemma backup_restore_db_roundtrip_witness :
  resolve restore_db.DST
    (final (run (restore_db.main elements)
              (final (run (backup_db.main (Datetime 2024 1 1 3 0 0))
                        example_fs)))) =
  Ok (File "live" 9).
Proof.
  apply (backup_restore_db_roundtrip (Datetime 2024 1 1 3 0 0) elements
           example_fs "live" 9).
  - apply listing_ok_elements.
  - vm_compute. reflexivity.
  - vm_compute. reflexivity.
  - intros name Hin HP.
    assert (name ∈ ["db_backup_20231231_235959.sqlite3";
                    "db_backup_20240101_010000.sqlite3";
                    "db_backup_20240101_020000.sqlite3"]) as Hn.
    { apply elem_of_dom in Hin.
      assert (name ∈ List.filter restore_db.is_backup
                       (elements (dom (backup_entries example_fs)))) as Hf.
      { apply (filter_listing elements); [apply listing_ok_elements|done]. }
      revert Hf. vm_compute (List.filter _ _). exact (λ H, H). }
    rewrite !elem_of_cons, elem_of_nil in Hn.
    destruct Hn as [->|[->|[->|[]]]].
    + exists (Datetime 2023 12 31 23 59 59).
      split; [vm_compute; reflexivity|]. split; [|vm_compute; reflexivity].
      vm_compute. lia.
    + exists (Datetime 2024 1 1 1 0 0).
      split; [vm_compute; reflexivity|]. split; [|vm_compute; reflexivity].
      vm_compute. lia.
    + exists (Datetime 2024 1 1 2 0 0).
      split; [vm_compute; reflexivity|]. split; [|vm_compute; reflexivity].
      vm_compute. lia.
Defined.

(** ** The workspace, backed up and restored *)

(** A change of the directory at [d ++ [b]] is a change of the entry [b] of
    the directory at [d]. *)
Lemma update_dir_snoc d b f n :
  update_dir (d ++ [b]) f n =
  update_dir d (λ m, match m !! b with
                     | None => Raise FileNotFoundError
                     | Some x => result_bind (update_dir [] f x)
                                   (λ x', Ok (<[b:=x']> m))
                     end) n.
Proof.
  revert n. induction d as [|c d IH]; intros [data stat|m]; try done.
  - cbn. destruct (m !! b) as [[data stat|m0]|]; try done.
    by destruct (f m0).
  - cbn [app update_dir]. destruct (m !! c) as [x|]; [|done].
    by rewrite IH.
Qed.

Lemma fs_fill_entry d b n m old entries :
  resolve d n = Ok (Dir m) → m !! b = Some (Dir old) →
  ∃ n', fs_fill (d ++ [b]) entries n = Ok n' ∧
        resolve d n' = Ok (Dir (<[b:=Dir entries]> m)).
Proof.
  intros Hd Hb. unfold fs_fill. rewrite update_dir_snoc.
  destruct (update_dir_ok d (λ m, match m !! b with
      | None => Raise FileNotFoundError
      | Some x => result_bind (update_dir [] (λ _, Ok entries) x)
                    (λ x', Ok (<[b:=x']> m))
      end) n m (<[b:=Dir entries]> m) Hd) as [n' Hn'].
  { by rewrite Hb. }
  exists n'. split; [done|].
  apply update_dir_inv in Hn' as (m1 & m1' & Hm1 & Hf & Hm1').
  rewrite Hd in Hm1. injection Hm1 as <-. rewrite Hb in Hf. cbn in Hf.
  by injection Hf as <-.
Qed.

(** Copying a directory to a free name of a directory that is there. *)
Lemma copytree_entry src d b n out entries m :
  resolve src n = Ok (Dir entries) →
  resolve d n = Ok (Dir m) → m !! b = None →
  ∃ n', shutil.copytree src (d ++ [b]) (World n out) = (Ok tt, World n' out) ∧
        resolve d n' = Ok (Dir (<[b:=Dir entries]> m)).
Proof.
  intros Hsrc Hd Hb.
  destruct (makedirs_new d b false n out m Hd Hb) as (n1 & Hmk & Hn1 & _).
  destruct (fs_fill_entry d b n1 (<[b:=Dir ∅]> m) ∅ entries Hn1)
    as (n' & Hfill & Hn'); [by rewrite lookup_insert_eq|].
  exists n'. split; [|by rewrite Hn', insert_insert_eq].
  unfold shutil.copytree, bind at 1, fs_read. cbn [fs]. rewrite Hsrc.
  unfold bind. rewrite Hmk. unfold fs_call. cbn [fs stdout]. by rewrite Hfill.
Qed.

(** The run of [backup_workspace] on a live workspace that is a directory. *)
Lemma backup_workspace_main_dir now n out entries :
  resolve backup_workspace.SRC n = Ok (Dir entries) →
  backup_root_ok n →
  backup_entries n !! backup_workspace.artifact now = None →
  ∃ n', backup_workspace.main now (World n out) =
          (Ok tt, World n' (out ++ ["Workspace backup created: " +:+
                                    path_str (backup_workspace.DST now)])) ∧
        resolve ["backups"] n' =
          Ok (Dir (<[backup_workspace.artifact now := Dir entries]>
                     (backup_entries n))) ∧
        ∀ r, resolve ("backend" :: r) n' = resolve ("backend" :: r) n.
Proof.
  intros Hsrc Hroot Hfree.
  destruct (makedirs_backups_ok n out Hroot) as (n0 & Hmk & Hn0 & Hk0).
  assert (resolve backup_workspace.SRC n0 = Ok (Dir entries)) as Hsrc0.
  { rewrite <-Hsrc. by apply Hk0. }
  destruct (copytree_entry backup_workspace.SRC ["backups"]
              (backup_workspace.artifact now) n0 out entries
              (backup_entries n) Hsrc0 Hn0 Hfree) as (n' & Hcp & Hn').
  exists n'. split; [|split; [done|]].
  - unfold backup_workspace.main, bind at 1. unfold backup_workspace.DST_DIR.
    rewrite Hmk. unfold bind at 1, os.path_exists, fs_read. cbn [fs].
    rewrite Hsrc0. unfold bind.
    unfold backup_workspace.DST, path_join, backup_workspace.DST_DIR.
    by rewrite Hcp.
  - intros r. rewrite <-(Hk0 "backend" r) by done.
    pose proof (keeps_copytree backup_workspace.SRC
                  (["backups"] ++ [backup_workspace.artifact now])
                  (World n0 out) ("backend" :: r) eq_refl) as Hk.
    by rewrite Hcp in Hk.
Qed.

(** X8.  When the live workspace is a directory, the backup root is a
    directory or is missing, and the name of the destination is free,
    [backup_workspace] ends with the status 0, names the artifact in its one
    line of output, and leaves the backup root with the entries it had and
    the artifact: a directory with the entries of the live workspace.  *)
Theorem backup_workspace_copies now n entries :
  resolve backup_workspace.SRC n = Ok (Dir entries) →
  backup_root_ok n →
  backup_entries n !! backup_workspace.artifact now = None →
  let o := run (backup_workspace.main now) n in
  status o = 0 ∧
  printed o = ["Workspace backup created: backups/" +:+
               backup_workspace.artifact now] ∧
  backup_entries (final o) =
    <[backup_workspace.artifact now := Dir entries]> (backup_entries n) ∧
  resolve (backup_workspace.DST now) (final o) = Ok (Dir entries).
Proof.
  intros Hsrc Hroot Hfree. cbn zeta.
  destruct (backup_workspace_main_dir now n [] entries Hsrc Hroot Hfree)
    as (n' & Hrun & Hn' & _).
  unfold run. rewrite Hrun. cbn [status printed final app fs stdout].
  split; [done|]. split; [done|]. split.
  - unfold backup_entries at 1. by rewrite Hn'.
  - unfold backup_workspace.DST, path_join, backup_workspace.DST_DIR.
    rewrite resolve_app, Hn'. cbn. by rewrite lookup_insert_eq.
Qed.

Lemma backup_workspace_copies_witness :
  let o := run (backup_workspace.main (Datetime 2024 1 1 3 0 0)) example_fs in
  status o = 0 ∧
  resolve ["backups"; "workspace_backup_20240101_030000"] (final o) =
    Ok (Dir {[ "a.txt" := File "live" 9; "stale.txt" := File "stale" 9 ]}).
Proof.
  cbn zeta.
  destruct (backup_workspace_copies (Datetime 2024 1 1 3 0 0) example_fs
              {[ "a.txt" := File "live" 9; "stale.txt" := File "stale" 9 ]})
    as (Hst & _ & _ & Hdst).
  - vm_compute. reflexivity.
  - right. exists example_backups. vm_compute. reflexivity.
  - vm_compute. reflexivity.
  - split; [exact Hst|exact Hdst].
Defined.

(** The run of [restore_workspace] where the greatest backup is a directory
    and the live path names a directory or nothing. *)
Lemma restore_workspace_main_dir ls n out bk x content sm :
  listing_ok ls →
  resolve ["backups"] n = Ok (Dir bk) →
  greatest restore_workspace.is_backup bk x →
  bk !! x = Some (Dir content) →
  resolve storage n = Ok (Dir sm) →
  (∀ data stat, sm !! "workspace" ≠ Some (File data stat)) →
  ∃ n', restore_workspace.main ls (World n out) =
          (Ok tt, World n' (out ++ ["Workspace restored from: backups/" +:+ x]))
        ∧ resolve storage n' = Ok (Dir (<["workspace" := Dir content]> sm)) ∧
        ∀ r, resolve ("backups" :: r) n' = resolve ("backups" :: r) n.
Proof.
  intros Hls Hbk Hx Hcontent Hsm Hfree.
  assert (∃ n', restore_workspace.main ls (World n out) =
            (Ok tt, World n' (out ++ ["Workspace restored from: backups/" +:+ x]))
          ∧ resolve storage n' = Ok (Dir (<["workspace" := Dir content]> sm)))
    as (n' & Hrun & Hn').
  { rewrite restore_workspace_main_eq. cbn [fs].
    unfold restore_workspace.SRC_DIR. rewrite Hbk.
    apply (latest_greatest ls) in Hx as ->; [|done].
    unfold bind at 1, os.path_exists, fs_read. cbn [fs].
    change restore_workspace.DST with (storage ++ ["workspace"]).
    change (path_join ["backups"] x) with ["backups"; x].
    rewrite resolve_app, Hsm. cbn [result_bind resolve].
    destruct (sm !! "workspace") as [[data stat|live]|] eqn:Hw.
    - by destruct (Hfree data stat).
    - destruct (fs_rmtree_ok storage "workspace" n sm live Hsm Hw)
        as (n1 & Hrm & Hn1).
      assert (resolve ["backups"; x] n1 = Ok (Dir content)) as Hsrc1.
      { rewrite (fs_rmtree_frame _ _ _ _ Hrm) by done.
        rewrite (resolve_app ["backups"] [x]), Hbk. cbn. by rewrite Hcontent. }
      destruct (copytree_entry ["backups"; x] storage "workspace" n1 out
                  content (delete "workspace" sm) Hsrc1 Hn1)
        as (n2 & Hcp & Hn2); [apply lookup_delete_eq|].
      exists n2. split; [|by rewrite Hn2, insert_delete_eq].
      unfold bind at 1, shutil.rmtree, fs_call. cbn [fs stdout].
      rewrite Hrm. unfold bind. by rewrite Hcp.
    - assert (resolve ["backups"; x] n = Ok (Dir content)) as Hsrc.
      { rewrite (resolve_app ["backups"] [x]), Hbk. cbn. by rewrite Hcontent. }
      destruct (copytree_entry ["backups"; x] storage "workspace" n out
                  content sm Hsrc Hsm Hw) as (n2 & Hcp & Hn2).
      exists n2. split; [|done].
      unfold bind at 1, ret. unfold bind. by rewrite Hcp. }
  exists n'. split; [done|]. split; [done|]. intros r.
  pose proof (keeps_restore_workspace ls (World n out) ("backups" :: r)
                eq_refl) as Hk.
  by rewrite Hrun in Hk.
Qed.

(** [backup_workspace] and then [restore_workspace], where the backup root
    is there or can be made and every older backup has a smaller name. *)
Lemma backup_restore_workspace_ok now ls n entries sm :
  listing_ok ls →
  resolve backup_workspace.SRC n = Ok (Dir entries) →
  resolve storage n = Ok (Dir sm) →
  sm !! "workspace" = Some (Dir entries) →
  (∀ y, is_Some (backup_entries n !! y) →
        restore_workspace.is_backup y = true →
        Str.lt y (backup_workspace.artifact now) = true) →
  backup_entries n !! backup_workspace.artifact now = None →
  backup_root_ok n →
  resolve restore_workspace.DST
    (final (run (restore_workspace.main ls)
              (final (run (backup_workspace.main now) n)))) =
  Ok (Dir entries).
Proof.
  intros Hls Hsrc Hsm Hlive Hlt Hnew Hroot.
  destruct (backup_workspace_main_dir now n [] entries Hsrc Hroot Hnew)
    as (n1 & Hrun1 & Hn1 & Hk1).
  unfold run at 2. rewrite Hrun1. cbn [final fs].
  assert (greatest restore_workspace.is_backup
            (<[backup_workspace.artifact now := Dir entries]>
               (backup_entries n))
            (backup_workspace.artifact now)) as Hg.
  { split; [by rewrite lookup_insert_eq|].
    split; [apply workspace_artifact_is_backup|].
    intros y Hy HP.
    destruct (decide (y = backup_workspace.artifact now)) as [->|Hne].
    - apply le_refl.
    - rewrite lookup_insert_ne in Hy by done. by apply lt_le, Hlt. }
  destruct (restore_workspace_main_dir ls n1 [] _ _ entries sm Hls Hn1 Hg)
    as (n2 & Hrun2 & Hn2 & _).
  - by rewrite lookup_insert_eq.
  - change storage with ("backend" :: ["src"; "infrastructure"; "storage"]).
    by rewrite Hk1.
  - intros data stat. by rewrite Hlive.
  - unfold run. rewrite Hrun2. cbn [final fs].
    change restore_workspace.DST with (storage ++ ["workspace"]).
    rewrite resolve_app, Hn2. cbn. by rewrite lookup_insert_eq.
Qed.

(** X9.  Round trip of the workspace.  When the live workspace is a
    directory, the clock is valid and every entry of the backup root that
    the filter of [restore_workspace] accepts is the artifact of an earlier
    valid time, [backup_workspace] followed by [restore_workspace] leaves at
    the live path a directory with the entries that were there, under any
    order of listing; where the backup root cannot be made both runs fail
    and change nothing.  *)
Theorem backup_restore_workspace_roundtrip now ls n entries :
  listing_ok ls →
  valid_datetime now = true →
  resolve backup_workspace.SRC n = Ok (Dir entries) →
  (∀ name, is_Some (backup_entries n !! name) →
           restore_workspace.is_backup name = true →
           ∃ t, valid_datetime t = true ∧ earlier t now ∧
                name = backup_workspace.artifact t) →
  resolve restore_workspace.DST
    (final (run (restore_workspace.main ls)
              (final (run (backup_workspace.main now) n)))) =
  Ok (Dir entries).
Proof.
  intros Hls Hv Hsrc Hold.
  pose proof Hsrc as Hsrc'.
  change backup_workspace.SRC with (storage ++ ["workspace"]) in Hsrc'.
  apply resolve_snoc_inv in Hsrc' as (sm & Hsm & Hlive).
  assert (∀ y, is_Some (backup_entries n !! y) →
               restore_workspace.is_backup y = true →
               Str.lt y (backup_workspace.artifact now) = true) as Hlt.
  { intros y Hy HP. destruct (Hold y Hy HP) as (t & Ht & He & ->).
    by apply workspace_artifact_lt. }
  assert (backup_entries n !! backup_workspace.artifact now = None) as Hnew.
  { destruct (backup_entries n !! backup_workspace.artifact now) eqn:Hy;
      [|done].
    assert (Str.lt (backup_workspace.artifact now)
                   (backup_workspace.artifact now) = true) as Hc.
    { apply Hlt; [by rewrite Hy|apply workspace_artifact_is_backup]. }
    by rewrite lt_irrefl in Hc. }
  destruct (resolve ["backups"] n) as [[d s|m]|e] eqn:Hr.
  - (* [backups] is a regular file: both runs fail *)
    pose proof Hr as (r & Hr0 & Hb)%(resolve_snoc_inv []).
    assert (backup_workspace.main now (World n []) =
            (Raise FileExistsError, World n [])) as Hrun1.
    { unfold backup_workspace.main, bind at 1.
      unfold backup_workspace.DST_DIR.
      pose proof (makedirs_there [] "backups" true n [] r (File d s)
                    Hr0 Hb) as Hmk.
      cbn [app andb] in Hmk. by rewrite Hmk. }
    unfold run at 2. rewrite Hrun1. cbn [final fs].
    unfold run. rewrite restore_workspace_main_eq. cbn [fs].
    unfold restore_workspace.SRC_DIR. rewrite Hr. cbn [final fs].
    exact Hsrc.
  - apply (backup_restore_workspace_ok now ls n entries sm); try done.
    right. eauto.
  - destruct (resolve_raise _ _ _ Hr) as [->| ->].
    + apply (backup_restore_workspace_ok now ls n entries sm); try done.
      by left.
    + destruct n as [d s|r]; [done|]. cbn in Hr.
      by destruct (r !! "backups").
Qed.

Lemma backup_restore_workspace_roundtrip_witness :
  resolve restore_workspace.DST
    (final (run (restore_workspace.main elements)
              (final (run (backup_workspace.main (Datetime 2024 1 1 3 0 0))
                        example_fs)))) =
  Ok (Dir {[ "a.txt" := File "live" 9; "stale.txt" := File "stale" 9 ]}).
Proof.
  apply (backup_restore_workspace_roundtrip (Datetime 2024 1 1 3 0 0)
           elements example_fs).
  - apply listing_ok_elements.
  - vm_compute. reflexivity.
  - vm_compute. reflexivity.
  - intros name Hin HP.
    assert (name ∈ ["workspace_backup_20231231_235959";
                    "workspace_backup_20240101_010000";
                    "workspace_backup_20240101_020000"]) as Hn.
    { apply elem_of_dom in Hin.
      assert (name ∈ List.filter restore_workspace.is_backup
                       (elements (dom (backup_entries example_fs)))) as Hf.
      { apply (filter_listing elements); [apply listing_ok_elements|done]. }
      revert Hf. vm_compute (List.filter _ _). exact (λ H, H). }
    rewrite !elem_of_cons, elem_of_nil in Hn.
    destruct Hn as [->|[->|[->|[]]]].
    + exists (Datetime 2023 12 31 23 59 59).
      split; [vm_compute; reflexivity|]. split; [|vm_compute; reflexivity].
      vm_compute. lia.
    + exists (Datetime 2024 1 1 1 0 0).
      split; [vm_compute; reflexivity|]. split; [|vm_compute; reflexivity].
      vm_compute. lia.
    + exists (Datetime 2024 1 1 2 0 0).
      split; [vm_compute; reflexivity|]. split; [|vm_compute; reflexivity].
      vm_compute. lia.
Defined.

(** ** Sources and destinations of the wrong kind *)

(** [copy2] does not copy a directory. *)
Lemma copy2_dir src dst n out m :
  resolve src n = Ok (Dir m) → (∀ k, src ≠ dst ++ k) →
  shutil.copy2 src dst (World n out) = (Raise IsADirectoryError, World n out).
Proof.
  intros Hsrc Hne.
  unfold shutil.copy2, bind, os.path_isdir, os.path_exists, fs_read.
  cbn [fs]. rewrite Hsrc.
  destruct (match resolve dst n with Ok (Dir _) => true | _ => false end).
  - rewrite bool_decide_eq_false_2 by apply Hne. cbn. by rewrite Hsrc.
  - rewrite bool_decide_eq_false_2.
    + cbn. by rewrite Hsrc.
    + intros Heq. apply (Hne []). by rewrite app_nil_r.
Qed.

(** [copy2] to a directory writes the file into it, under its own name. *)
Lemma copy2_into_dir src dst n out data stat m :
  resolve src n = Ok (File data stat) →
  resolve dst n = Ok (Dir m) →
  (∀ m', m !! basename src ≠ Some (Dir m')) →
  src ≠ dst ++ [basename src] →
  ∃ n', shutil.copy2 src dst (World n out) = (Ok tt, World n' out) ∧
        resolve dst n' = Ok (Dir (<[basename src:=File data stat]> m)).
Proof.
  intros Hsrc Hdst Hb Hne.
  destruct (fs_write_ok dst (basename src) n m data stat Hdst Hb)
    as (n' & Hw & Hn').
  exists n'. split; [|done].
  unfold shutil.copy2, bind, os.path_isdir, os.path_exists, fs_read, fs_call.
  cbn [fs stdout]. rewrite Hdst, Hsrc. unfold path_join.
  rewrite bool_decide_eq_false_2 by done.
  cbn. rewrite Hsrc. cbn. by rewrite Hw.
Qed.

(** Without the directory at [d] nothing is changed there, and the error is
    that of the look-up. *)
Lemma update_dir_resolve_raise d f n e :
  resolve d n = Raise e → update_dir d f n = Raise e.
Proof.
  revert n. induction d as [|c d IH]; intros [data stat|m]; cbn; try done.
  destruct (m !! c) as [x|]; [|done].
  intros Hx. by rewrite (IH x Hx).
Qed.

Lemma fs_write_no_parent d b data stat n e :
  resolve d n = Raise e → fs_write (d ++ [b]) data stat n = Raise e.
Proof.
  intros Hd. unfold fs_write, update_entry. rewrite path_split_snoc.
  by apply update_dir_resolve_raise.
Qed.

(** X10.  When the greatest of the database backups is a directory,
    [restore_db] fails with [IsADirectoryError]: the status is 1, nothing is
    printed and the file system is as it was.  It does not fall back on an
    older backup.  *)
Theorem restore_db_directory_backup ls n m x content :
  listing_ok ls →
  resolve ["backups"] n = Ok (Dir m) →
  greatest restore_db.is_backup m x →
  m !! x = Some (Dir content) →
  raised (restore_db.main ls) n = Some IsADirectoryError ∧
  run (restore_db.main ls) n = Outcome 1 [] n.
Proof.
  intros Hls Hm Hx Hdir.
  assert (restore_db.main ls (World n []) =
          (Raise IsADirectoryError, World n [])) as Hrun.
  { rewrite restore_db_main_eq. cbn [fs]. unfold restore_db.SRC_DIR.
    rewrite Hm. apply (latest_greatest ls) in Hx as ->; [|done].
    unfold bind at 1. rewrite (copy2_dir _ _ n [] content); [done| |done].
    unfold path_join. rewrite (resolve_app ["backups"] [x]), Hm. cbn.
    by rewrite Hdir. }
  unfold raised, run. by rewrite Hrun.
Qed.

Lemma restore_db_directory_backup_witness :
  let n := Dir {[ "backups" :=
                    Dir {[ "db_backup_20240101_010000.sqlite3" := File "one" 1;
                           "db_backup_20240102_000000.sqlite3" := Dir ∅ ]} ]} in
  run (restore_db.main elements) n = Outcome 1 [] n.
Proof.
  cbn zeta.
  refine (proj2 (restore_db_directory_backup elements _
            {[ "db_backup_20240101_010000.sqlite3" := File "one" 1;
               "db_backup_20240102_000000.sqlite3" := Dir ∅ ]}
            "db_backup_20240102_000000.sqlite3" ∅ listing_ok_elements _ _ _)).
  - vm_compute. reflexivity.
  - apply (latest_greatest elements); [apply listing_ok_elements|].
    vm_compute. reflexivity.
  - vm_compute. reflexivity.
Defined.

(** X11.  When the greatest of the workspace backups is a regular file and
    the live workspace is a directory, [restore_workspace] deletes the live
    workspace and then fails with [NotADirectoryError]: the status is 1,
    nothing is printed, and the file system is the one the deletion leaves,
    with nothing at the live path; the backup root is as it was.  *)
Theorem restore_workspace_file_backup ls n bk x data stat live :
  listing_ok ls →
  resolve ["backups"] n = Ok (Dir bk) →
  greatest restore_workspace.is_backup bk x →
  bk !! x = Some (File data stat) →
  resolve restore_workspace.DST n = Ok (Dir live) →
  let o := run (restore_workspace.main ls) n in
  raised (restore_workspace.main ls) n = Some NotADirectoryError ∧
  status o = 1 ∧ printed o = [] ∧
  fs_rmtree restore_workspace.DST n = Ok (final o) ∧
  resolve restore_workspace.DST (final o) = Raise FileNotFoundError ∧
  resolve ["backups"] (final o) = Ok (Dir bk).
Proof.
  intros Hls Hbk Hx Hfile Hlive. cbn zeta.
  pose proof Hlive as Hlive'.
  change restore_workspace.DST with (storage ++ ["workspace"]) in Hlive'.
  apply resolve_snoc_inv in Hlive' as (sm & Hsm & Hw).
  destruct (fs_rmtree_ok storage "workspace" n sm live Hsm Hw)
    as (n1 & Hrm & Hn1).
  change (storage ++ ["workspace"]) with restore_workspace.DST in Hrm.
  assert (resolve ["backups"] n1 = Ok (Dir bk)) as Hbk1.
  { by rewrite (fs_rmtree_frame _ _ _ _ Hrm). }
  assert (restore_workspace.main ls (World n []) =
          (Raise NotADirectoryError, World n1 [])) as Hrun.
  { rewrite restore_workspace_main_eq. cbn [fs].
    unfold restore_workspace.SRC_DIR. rewrite Hbk.
    apply (latest_greatest ls) in Hx as ->; [|done].
    unfold bind at 1, os.path_exists, fs_read. cbn [fs]. rewrite Hlive.
    unfold bind at 1, shutil.rmtree, fs_call. cbn [fs stdout]. rewrite Hrm.
    unfold bind at 1, shutil.copytree, bind at 1, fs_read. cbn [fs].
    unfold path_join. rewrite (resolve_app ["backups"] [x]), Hbk1. cbn.
    by rewrite Hfile. }
  unfold raised, run. rewrite Hrun. cbn [status printed final fs stdout].
  split; [done|]. split; [done|]. split; [done|]. split; [done|].
  split; [|done].
  change restore_workspace.DST with (storage ++ ["workspace"]).
  rewrite resolve_app, Hn1. cbn. by rewrite lookup_delete_eq.
Qed.

Lemma restore_workspace_file_backup_witness :
  let n := Dir {[ "backups" :=
                    Dir {[ "workspace_backup_20240101_010000" :=
                             Dir {[ "a.txt" := File "one" 1 ]};
                           "workspace_backup_notes.txt" := File "notes" 3 ]};
                  "backend" := Dir {[ "src" := Dir {[ "infrastructure" :=
                     Dir {[ "storage" := Dir example_storage ]} ]} ]} ]} in
  let o := run (restore_workspace.main elements) n in
  status o = 1 ∧
  resolve restore_workspace.DST (final o) = Raise FileNotFoundError.
Proof.
  cbn zeta.
  destruct (restore_workspace_file_backup elements
    (Dir {[ "backups" :=
              Dir {[ "workspace_backup_20240101_010000" :=
                       Dir {[ "a.txt" := File "one" 1 ]};
                     "workspace_backup_notes.txt" := File "notes" 3 ]};
            "backend" := Dir {[ "src" := Dir {[ "infrastructure" :=
               Dir {[ "storage" := Dir example_storage ]} ]} ]} ]})
    {[ "workspace_backup_20240101_010000" := Dir {[ "a.txt" := File "one" 1 ]};
       "workspace_backup_notes.txt" := File "notes" 3 ]}
    "workspace_backup_notes.txt" "notes" 3
    {[ "a.txt" := File "live" 9; "stale.txt" := File "stale" 9 ]}
    listing_ok_elements) as (_ & Hst & _ & _ & Hdst & _).
  - vm_compute. reflexivity.
  - apply (latest_greatest elements); [apply listing_ok_elements|].
    vm_compute. reflexivity.
  - vm_compute. reflexivity.
  - vm_compute. reflexivity.
  - split; [exact Hst|exact Hdst].
Defined.

(** X12.  When the live workspace path names a regular file and there is a
    workspace backup, [restore_workspace] fails in the deletion with
    [NotADirectoryError]: the status is 1, nothing is printed and the file
    system is as it was.  *)
Theorem restore_workspace_live_file ls n bk x data stat :
  listing_ok ls →
  resolve ["backups"] n = Ok (Dir bk) →
  greatest restore_workspace.is_backup bk x →
  resolve restore_workspace.DST n = Ok (File data stat) →
  raised (restore_workspace.main ls) n = Some NotADirectoryError ∧
  run (restore_workspace.main ls) n = Outcome 1 [] n.
Proof.
  intros Hls Hbk Hx Hlive.
  pose proof Hlive as Hlive'.
  change restore_workspace.DST with (storage ++ ["workspace"]) in Hlive'.
  apply resolve_snoc_inv in Hlive' as (sm & Hsm & Hw).
  pose proof (fs_rmtree_file storage "workspace" n sm data stat Hsm Hw) as Hrm.
  change (storage ++ ["workspace"]) with restore_workspace.DST in Hrm.
  assert (restore_workspace.main ls (World n []) =
          (Raise NotADirectoryError, World n [])) as Hrun.
  { rewrite restore_workspace_main_eq. cbn [fs].
    unfold restore_workspace.SRC_DIR. rewrite Hbk.
    apply (latest_greatest ls) in Hx as ->; [|done].
    unfold bind at 1, os.path_exists, fs_read. cbn [fs]. rewrite Hlive.
    unfold bind at 1, shutil.rmtree, fs_call. cbn [fs stdout].
    by rewrite Hrm. }
  unfold raised, run. by rewrite Hrun.
Qed.

Lemma restore_workspace_live_file_witness :
  let n := Dir {[ "backups" := Dir example_backups;
                  "backend" := Dir {[ "src" := Dir {[ "infrastructure" :=
                     Dir {[ "storage" :=
                       Dir {[ "workspace" := File "x" 1 ]} ]} ]} ]} ]} in
  run (restore_workspace.main elements) n = Outcome 1 [] n.
Proof.
  cbn zeta.
  refine (proj2 (restore_workspace_live_file elements _ example_backups
            "workspace_backup_20240101_020000" "x" 1
            listing_ok_elements _ _ _)).
  - vm_compute. reflexivity.
  - apply (latest_greatest elements); [apply listing_ok_elements|].
    vm_compute. reflexivity.
  - vm_compute. reflexivity.
Defined.

(** X13.  [restore_db] makes no directory: when the directory of the live
    database cannot be reached, it fails with the error of the look-up
    ([FileNotFoundError] for a missing directory, [NotADirectoryError] for a
    regular file on the way), with the status 1, nothing printed and the file
    system as it was.  *)
Theorem restore_db_no_directory ls n m x data stat e :
  listing_ok ls →
  resolve ["backups"] n = Ok (Dir m) →
  greatest restore_db.is_backup m x →
  m !! x = Some (File data stat) →
  resolve storage n = Raise e →
  raised (restore_db.main ls) n = Some e ∧
  run (restore_db.main ls) n = Outcome 1 [] n.
Proof.
  intros Hls Hm Hx Hfile Hst.
  assert (resolve ["backups"; x] n = Ok (File data stat)) as Hsrc.
  { rewrite (resolve_app ["backups"] [x]), Hm. cbn. by rewrite Hfile. }
  assert (restore_db.main ls (World n []) = (Raise e, World n [])) as Hrun.
  { rewrite restore_db_main_eq. cbn [fs]. unfold restore_db.SRC_DIR.
    rewrite Hm. apply (latest_greatest ls) in Hx as ->; [|done].
    unfold bind at 1.
    change (path_join ["backups"] x) with ["backups"; x].
    unfold shutil.copy2, bind, os.path_isdir, os.path_exists, fs_read, fs_call.
    cbn [fs stdout].
    change restore_db.DST with (storage ++ ["workspace.db"]).
    rewrite resolve_app, Hst. cbn [result_bind].
    rewrite Hsrc, bool_decide_eq_false_2 by done.
    cbn [andb fs stdout]. rewrite Hsrc. cbn [fs stdout].
    by rewrite (fs_write_no_parent storage "workspace.db" data stat n e). }
  unfold raised, run. rewrite Hrun.
  split; [done|].
  destruct (resolve_raise _ _ _ Hst) as [->| ->]; done.
Qed.

Lemma restore_db_no_directory_witness :
  let n := Dir {[ "backups" := Dir example_backups;
                  "backend" := Dir {[ "src" := Dir ∅ ]} ]} in
  raised (restore_db.main elements) n = Some FileNotFoundError ∧
  run (restore_db.main elements) n = Outcome 1 [] n.
Proof.
  cbn zeta.
  refine (restore_db_no_directory elements _ example_backups
            "db_backup_20240101_020000.sqlite3" "two" 2 FileNotFoundError
            listing_ok_elements _ _ _ _).
  - vm_compute. reflexivity.
  - apply (latest_greatest elements); [apply listing_ok_elements|].
    vm_compute. reflexivity.
  - vm_compute. reflexivity.
  - vm_compute. reflexivity.
Defined.

(** X14.  A source of the wrong kind is not backed up.  With a backup root
    that is there or can be made, [backup_db] on a live database path that
    names a directory fails with [IsADirectoryError], and
    [backup_workspace] on a live workspace path that names a regular file
    fails with [NotADirectoryError]: the status is 1, nothing is printed and
    the backup root gets no entry.  *)
Theorem backup_wrong_kind now n :
  backup_root_ok n →
  (∀ m, resolve backup_db.SRC n = Ok (Dir m) →
     let o := run (backup_db.main now) n in
     raised (backup_db.main now) n = Some IsADirectoryError ∧
     status o = 1 ∧ printed o = [] ∧
     backup_entries (final o) = backup_entries n) ∧
  (∀ data stat, resolve backup_workspace.SRC n = Ok (File data stat) →
     let o := run (backup_workspace.main now) n in
     raised (backup_workspace.main now) n = Some NotADirectoryError ∧
     status o = 1 ∧ printed o = [] ∧
     backup_entries (final o) = backup_entries n).
Proof.
  intros Hroot.
  destruct (makedirs_backups_ok n [] Hroot) as (n0 & Hmk & Hn0 & Hk0).
  split.
  - intros m Hsrc. cbn zeta.
    assert (resolve backup_db.SRC n0 = Ok (Dir m)) as Hsrc0.
    { rewrite <-Hsrc. by apply Hk0. }
    assert (backup_db.main now (World n []) =
            (Raise IsADirectoryError, World n0 [])) as Hrun.
    { unfold backup_db.main, bind at 1. unfold backup_db.DST_DIR.
      rewrite Hmk. unfold bind at 1, os.path_exists, fs_read. cbn [fs].
      rewrite Hsrc0. unfold bind at 1.
      by rewrite (copy2_dir _ _ n0 [] m Hsrc0). }
    unfold raised, run. rewrite Hrun. cbn [status printed final fs stdout].
    split; [done|]. split; [done|]. split; [done|].
    unfold backup_entries at 1. by rewrite Hn0.
  - intros data stat Hsrc. cbn zeta.
    assert (resolve backup_workspace.SRC n0 = Ok (File data stat)) as Hsrc0.
    { rewrite <-Hsrc. by apply Hk0. }
    assert (backup_workspace.main now (World n []) =
            (Raise NotADirectoryError, World n0 [])) as Hrun.
    { unfold backup_workspace.main, bind at 1.
      unfold backup_workspace.DST_DIR.
      rewrite Hmk. unfold bind at 1, os.path_exists, fs_read. cbn [fs].
      rewrite Hsrc0. unfold bind at 1, shutil.copytree, bind at 1, fs_read.
      cbn [fs]. by rewrite Hsrc0. }
    unfold raised, run. rewrite Hrun. cbn [status printed final fs stdout].
    split; [done|]. split; [done|]. split; [done|].
    unfold backup_entries at 1. by rewrite Hn0.
Qed.

Lemma backup_wrong_kind_witness :
  let n := Dir {[ "backend" := Dir {[ "src" := Dir {[ "infrastructure" :=
                     Dir {[ "storage" :=
                       Dir {[ "workspace.db" := Dir ∅;
                              "workspace" := File "x" 1 ]} ]} ]} ]} ]} in
  let now := Datetime 2024 1 1 2 0 0 in
  status (run (backup_db.main now) n) = 1 ∧
  backup_entries (final (run (backup_db.main now) n)) = ∅ ∧
  status (run (backup_workspace.main now) n) = 1 ∧
  backup_entries (final (run (backup_workspace.main now) n)) = ∅.
Proof.
  cbn zeta.
  destruct (backup_wrong_kind (Datetime 2024 1 1 2 0 0)
    (Dir {[ "backend" := Dir {[ "src" := Dir {[ "infrastructure" :=
               Dir {[ "storage" :=
                 Dir {[ "workspace.db" := Dir ∅;
                        "workspace" := File "x" 1 ]} ]} ]} ]} ]}))
    as [Hdb Hws].
  - left. vm_compute. reflexivity.
  - destruct (Hdb ∅) as (_ & Hs1 & _ & He1); [vm_compute; reflexivity|].
    destruct (Hws "x" 1) as (_ & Hs2 & _ & He2); [vm_compute; reflexivity|].
    split; [exact Hs1|]. split; [exact He1|]. split; [exact Hs2|exact He2].
Defined.

(** X15.  When the live database path names a directory, [restore_db]
    copies the greatest backup into that directory, under the name of the
    backup, and ends with the status 0 and its usual line of output: the
    live path still names a directory, with the entries it had and the
    copy.  *)
Theorem restore_db_live_directory ls n m x data stat lm :
  listing_ok ls →
  resolve ["backups"] n = Ok (Dir m) →
  greatest restore_db.is_backup m x →
  m !! x = Some (File data stat) →
  resolve restore_db.DST n = Ok (Dir lm) →
  (∀ m', lm !! x ≠ Some (Dir m')) →
  let o := run (restore_db.main ls) n in
  status o = 0 ∧
  printed o = ["Database restored from: backups/" +:+ x] ∧
  resolve restore_db.DST (final o) = Ok (Dir (<[x := File data stat]> lm)).
Proof.
  intros Hls Hm Hx Hfile Hlive Hfree. cbn zeta.
  assert (resolve ["backups"; x] n = Ok (File data stat)) as Hsrc.
  { rewrite (resolve_app ["backups"] [x]), Hm. cbn. by rewrite Hfile. }
  destruct (copy2_into_dir ["backups"; x] restore_db.DST n [] data stat lm
              Hsrc Hlive Hfree) as (n' & Hcp & Hn'); [done|].
  assert (restore_db.main ls (World n []) =
          (Ok tt, World n' ["Database restored from: backups/" +:+ x]))
    as Hrun.
  { rewrite restore_db_main_eq. cbn [fs]. unfold restore_db.SRC_DIR.
    rewrite Hm. apply (latest_greatest ls) in Hx as ->; [|done].
    unfold bind. change (path_join ["backups"] x) with ["backups"; x].
    by rewrite Hcp. }
  unfold run. rewrite Hrun. cbn [status printed final fs stdout].
  done.
Qed.

Lemma restore_db_live_directory_witness :
  let n := Dir {[ "backups" := Dir example_backups;
                  "backend" := Dir {[ "src" := Dir {[ "infrastructure" :=
                     Dir {[ "storage" :=
                       Dir {[ "workspace.db" := Dir ∅ ]} ]} ]} ]} ]} in
  let o := run (restore_db.main elements) n in
  status o = 0 ∧
  resolve restore_db.DST (final o) =
    Ok (Dir (<["db_backup_20240101_020000.sqlite3" := File "two" 2]> ∅)).
Proof.
  cbn zeta.
  destruct (restore_db_live_directory elements
    (Dir {[ "backups" := Dir example_backups;
            "backend" := Dir {[ "src" := Dir {[ "infrastructure" :=
               Dir {[ "storage" :=
                 Dir {[ "workspace.db" := Dir ∅ ]} ]} ]} ]} ]})
    example_backups "db_backup_20240101_020000.sqlite3" "two" 2 ∅
    listing_ok_elements) as (Hst & _ & Hdst).
  - vm_compute. reflexivity.
  - apply (latest_greatest elements); [apply listing_ok_elements|].
    vm_compute. reflexivity.
  - vm_compute. reflexivity.
  - vm_compute. reflexivity.
  - intros m'. vm_compute. discriminate.
  - split; [exact Hst|exact Hdst].
Defined.

(** ** Missing directories on the way to the live path *)

(** [os.makedirs] below a directory that is missing makes that directory
    first. *)
Lemma makedirs_above d b exist_ok w e :
  resolve d (fs w) = Raise e →
  os.makedirs (d ++ [b]) exist_ok w =
  (try_except (os.makedirs d exist_ok)
     (λ e, match e with FileExistsError => ret tt | _ => raise e end);;
   try_except (os.mkdir (d ++ [b]))
     (λ e, let* isdir := os.path_isdir (d ++ [b]) in
           if negb exist_ok || negb isdir then raise e else ret tt)) w.
Proof.
  intros Hd. unfold os.makedirs. rewrite rev_app_distr. cbn [rev app].
  cbn [os.makedirs_rev]. rewrite <-(rev_involutive d) in Hd.
  destruct (rev d) as [|c rd] eqn:Hrd; [done|].
  unfold bind, os.path_exists, fs_read. rewrite Hd.
  by rewrite <-(rev_involutive d), Hrd.
Qed.

(** From the first missing component on, [os.makedirs] makes every directory
    of the path. *)
Lemma makedirs_chain k p c exist_ok n out m :
  resolve p n = Ok (Dir m) → m !! c = None →
  ∃ n', os.makedirs (p ++ c :: k) exist_ok (World n out) =
          (Ok tt, World n' out) ∧
        resolve (p ++ c :: k) n' = Ok (Dir ∅).
Proof.
  intros Hp Hc. induction k as [|b k IH] using rev_ind.
  - destruct (makedirs_new p c exist_ok n out m Hp Hc) as (n' & Hmk & Hn' & _).
    exists n'. split; [done|].
    rewrite resolve_app, Hn'. cbn. by rewrite lookup_insert_eq.
  - destruct IH as (n1 & Hmk1 & Hn1).
    destruct (fs_mkdir_ok (p ++ c :: k) b n1 ∅ Hn1) as (n2 & Hmk2 & Hn2);
      [done|].
    exists n2.
    replace (p ++ c :: k ++ [b]) with ((p ++ c :: k) ++ [b])
      by by rewrite <-app_assoc.
    split.
    + rewrite (makedirs_above _ b exist_ok _ FileNotFoundError).
      * unfold bind, try_except at 1. rewrite Hmk1.
        unfold try_except, os.mkdir, fs_call. cbn [fs stdout].
        by rewrite Hmk2.
      * cbn [fs]. rewrite resolve_app, Hp. cbn. by rewrite Hc.
    + rewrite resolve_app, Hn2. cbn. by rewrite lookup_insert_eq.
Qed.

(** [copytree] to a path with missing directories on the way makes them. *)
Lemma copytree_chain src p c k n out entries m :
  resolve src n = Ok (Dir entries) →
  resolve p n = Ok (Dir m) → m !! c = None →
  ∃ n', shutil.copytree src (p ++ c :: k) (World n out) =
          (Ok tt, World n' out) ∧
        resolve (p ++ c :: k) n' = Ok (Dir entries).
Proof.
  intros Hsrc Hp Hc.
  destruct (makedirs_chain k p c false n out m Hp Hc) as (n1 & Hmk & Hn1).
  destruct (fs_fill_ok (p ++ c :: k) n1 ∅ entries Hn1) as (n' & Hfill & Hn').
  exists n'. split; [|done].
  unfold shutil.copytree, bind at 1, fs_read. cbn [fs]. rewrite Hsrc.
  unfold bind. rewrite Hmk. unfold fs_call. cbn [fs stdout]. by rewrite Hfill.
Qed.

(** X16.  [restore_workspace] makes the directories that are missing on the
    way to the live workspace: when a directory on that way is there and the
    next component of the path is not, and the greatest of the workspace
    backups is a directory, it ends with the status 0 and the live path names
    a directory with the entries of that backup; the backup root is as it
    was.  ([restore_db] fails there.)  *)
Theorem restore_workspace_makes_parents ls n bk x content p c k m :
  listing_ok ls →
  resolve ["backups"] n = Ok (Dir bk) →
  greatest restore_workspace.is_backup bk x →
  bk !! x = Some (Dir content) →
  restore_workspace.DST = p ++ c :: k →
  resolve p n = Ok (Dir m) → m !! c = None →
  let o := run (restore_workspace.main ls) n in
  status o = 0 ∧
  printed o = ["Workspace restored from: backups/" +:+ x] ∧
  resolve restore_workspace.DST (final o) = Ok (Dir content) ∧
  resolve ["backups"] (final o) = Ok (Dir bk).
Proof.
  intros Hls Hbk Hx Hcontent Hdst Hp Hc. cbn zeta.
  assert (resolve ["backups"; x] n = Ok (Dir content)) as Hsrc.
  { rewrite (resolve_app ["backups"] [x]), Hbk. cbn. by rewrite Hcontent. }
  destruct (copytree_chain ["backups"; x] p c k n [] content m Hsrc Hp Hc)
    as (n' & Hcp & Hn').
  assert (restore_workspace.main ls (World n []) =
          (Ok tt, World n' ["Workspace restored from: backups/" +:+ x]))
    as Hrun.
  { rewrite restore_workspace_main_eq. cbn [fs].
    unfold restore_workspace.SRC_DIR. rewrite Hbk.
    apply (latest_greatest ls) in Hx as ->; [|done].
    change (path_join ["backups"] x) with ["backups"; x].
    rewrite Hdst.
    unfold bind at 1, os.path_exists, fs_read. cbn [fs].
    rewrite resolve_app, Hp. cbn [result_bind resolve]. rewrite Hc.
    unfold bind at 1, ret. unfold bind. by rewrite Hcp. }
  pose proof (keeps_after _ _ n ["backups"] (keeps_restore_workspace ls)
                eq_refl) as Hk.
  revert Hk. unfold run. rewrite Hrun. cbn [status printed final fs stdout].
  intros Hk. rewrite Hdst, Hk. done.
Qed.

Lemma restore_workspace_makes_parents_witness :
  let n := Dir {[ "backups" := Dir example_backups; "backend" := Dir ∅ ]} in
  let o := run (restore_workspace.main elements) n in
  resolve restore_workspace.DST n = Raise FileNotFoundError ∧
  status o = 0 ∧
  resolve restore_workspace.DST (final o) =
    Ok (Dir {[ "a.txt" := File "two" 2 ]}).
Proof.
  cbn zeta.
  destruct (restore_workspace_makes_parents elements
    (Dir {[ "backups" := Dir example_backups; "backend" := Dir ∅ ]})
    example_backups "workspace_backup_20240101_020000"
    {[ "a.txt" := File "two" 2 ]}
    ["backend"] "src" ["infrastructure"; "storage"; "workspace"] ∅
    listing_ok_elements) as (Hst & _ & Hdst & _).
  - vm_compute. reflexivity.
  - apply (latest_greatest elements); [apply listing_ok_elements|].
    vm_compute. reflexivity.
  - vm_compute. reflexivity.
  - reflexivity.
  - vm_compute. reflexivity.
  - vm_compute. reflexivity.
  - split; [vm_compute; reflexivity|]. split; [exact Hst|exact Hdst].
Defined.

(** ** Restoring twice *)

Lemma update_dir_twice d f n n' :
  (∀ m m', f m = Ok m' → f m' = Ok m') →
  update_dir d f n = Ok n' → update_dir d f n' = Ok n'.
Proof.
  intros Hf. revert n n'.
  induction d as [|c d IH]; intros [data stat|m] n'; cbn; try done.
  - destruct (f m) as [m'|] eqn:Hm; cbn; [|done].
    intros [= <-]. cbn. by rewrite (Hf m m' Hm).
  - destruct (m !! c) as [x|]; [|done].
    destruct (update_dir d f x) as [x'|] eqn:Hx; cbn; [|done].
    intros [= <-]. cbn. rewrite lookup_insert_eq, (IH x x' Hx). cbn.
    by rewrite insert_insert_eq.
Qed.

(** Writing the same file again changes nothing. *)
Lemma fs_write_twice p data stat n n' :
  fs_write p data stat n = Ok n' → fs_write p data stat n' = Ok n'.
Proof.
  unfold fs_write, update_entry.
  destruct (path_split p) as [[d b]|]; [|done].
  apply update_dir_twice. intros m m'.
  destruct (m !! b) as [[]|]; try done;
    intros [= <-]; by rewrite lookup_insert_eq, insert_insert_eq.
Qed.

(** A failed [copy2] changes nothing. *)
Lemma copy2_raise src dst w e w' :
  shutil.copy2 src dst w = (Raise e, w') → w' = w.
Proof.
  unfold shutil.copy2, bind, os.path_isdir, os.path_exists, fs_read, fs_call.
  destruct (_ && _); [by intros [= _ <-]|].
  destruct (resolve src (fs w)) as [[data stat|]|]; try by intros [= _ <-].
  destruct (fs_write _ data stat (fs w)); [done|]. by intros [= _ <-].
Qed.

(** A [copy2] that went through goes through again, and changes nothing. *)
Lemma copy2_twice src dst w w' :
  diverge dst src = true →
  shutil.copy2 src dst w = (Ok tt, w') → shutil.copy2 src dst w' = (Ok tt, w').
Proof.
  intros Hdiv.
  unfold shutil.copy2, bind, os.path_isdir, os.path_exists, fs_read, fs_call.
  cbn [fs].
  destruct (resolve dst (fs w)) as [[d0 s0|lm]|e0] eqn:Hdst;
    (destruct (_ && _) eqn:Hsame; [done|]);
    (destruct (resolve src (fs w)) as [[data stat|]|] eqn:Hsrc; try done);
    (destruct (fs_write _ data stat (fs w)) as [n'|] eqn:Hw; [|done]);
    intros [= <-]; cbn [fs stdout].
  1,3: pose proof (fs_write_post _ _ _ _ _ Hw) as ->;
       rewrite (fs_write_frame _ _ _ _ _ src Hw Hdiv), Hsrc;
       rewrite Hsame; cbn [fs stdout];
       rewrite (fs_write_frame _ _ _ _ _ src Hw Hdiv), Hsrc; cbn [fs stdout];
       by rewrite (fs_write_twice _ _ _ _ _ Hw).
  assert (resolve dst n' = Ok (Dir (<[basename src:=File data stat]> lm)))
    as ->.
  { revert Hw. unfold fs_write, update_entry, path_join.
    rewrite path_split_snoc.
    intros (m1 & m1' & Hm1 & Hf & Hm1')%update_dir_inv.
    rewrite Hdst in Hm1. injection Hm1 as <-. rewrite Hm1'.
    destruct (lm !! basename src) as [[]|]; try done; by injection Hf as <-. }
  rewrite (fs_write_frame _ _ _ _ _ src Hw), Hsrc by by apply diverge_app.
  rewrite Hsame. cbn [fs stdout].
  rewrite (fs_write_frame _ _ _ _ _ src Hw), Hsrc by by apply diverge_app.
  cbn [fs stdout]. by rewrite (fs_write_twice _ _ _ _ _ Hw).
Qed.

(** X17.  [restore_db] is idempotent: a second run right after the first
    ends as the first did, with the same status, the same output and the same
    file system, in every state and under every order of listing.  *)
Theorem restore_db_idempotent ls n :
  run (restore_db.main ls) (final (run (restore_db.main ls) n)) =
  run (restore_db.main ls) n.
Proof.
  unfold run at 2 3. rewrite restore_db_main_eq. cbn [fs].
  destruct (resolve restore_db.SRC_DIR n) as [[d s|m]|e] eqn:Hm.
  - cbn [final fs]. unfold run. rewrite restore_db_main_eq. cbn [fs].
    by rewrite Hm.
  - destruct (head _) as [latest|] eqn:Hl.
    2: { unfold bind, print, exit, raise. cbn [final fs stdout].
         unfold run. rewrite restore_db_main_eq. cbn [fs].
         by rewrite Hm, Hl. }
    unfold bind.
    destruct (shutil.copy2 _ _ (World n [])) as [[[]|e] w1] eqn:Hcp.
    + pose proof (silent_copy2 (path_join restore_db.SRC_DIR latest)
                    restore_db.DST (World n [])) as Hs.
      rewrite Hcp in Hs. cbn [snd stdout] in Hs.
      destruct w1 as [n1 out1]. cbn [stdout] in Hs. subst out1.
      unfold print. cbn [final fs stdout].
      pose proof (keeps_copy2 (path_join restore_db.SRC_DIR latest)
                    restore_db.DST (World n []) ["backups"] eq_refl) as Hk.
      rewrite Hcp in Hk. cbn [snd fs] in Hk.
      unfold run. rewrite restore_db_main_eq. cbn [fs].
      unfold restore_db.SRC_DIR in *. rewrite Hk, Hm, Hl.
      unfold bind.
      by rewrite (copy2_twice (path_join ["backups"] latest) restore_db.DST
                    _ _ eq_refl Hcp).
    + pose proof (copy2_raise _ _ _ _ _ Hcp) as ->.
      assert (final (match e with
                     | SystemExit code => Outcome code [] n
                     | _ => Outcome 1 [] n
                     end) = n) as Hfin by by destruct e.
      cbn [stdout fs]. rewrite Hfin.
      unfold run. rewrite restore_db_main_eq. cbn [fs].
      rewrite Hm, Hl. unfold bind. by rewrite Hcp.
  - assert (final (match e with
                   | SystemExit code => Outcome code [] n
                   | _ => Outcome 1 [] n
                   end) = n) as Hfin by by destruct e.
    cbn [stdout fs]. rewrite Hfin.
    unfold run. rewrite restore_db_main_eq. cbn [fs]. by rewrite Hm.
Qed.

(** ** The two modes *)

(** X18.  The restores keep to their mode: [restore_db] changes nothing at
    or below the live workspace, and [restore_workspace] changes nothing at
    or below the live database, in every state.  *)
Theorem restores_separate ls n r :
  resolve (restore_workspace.DST ++ r) (final (run (restore_db.main ls) n)) =
    resolve (restore_workspace.DST ++ r) n ∧
  resolve (restore_db.DST ++ r) (final (run (restore_workspace.main ls) n)) =
    resolve (restore_db.DST ++ r) n.
Proof.
  split.
  - by apply (keeps_after _ _ _ _ (keeps_restore_db ls)).
  - by apply (keeps_after _ _ _ _ (keeps_restore_workspace ls)).
Qed.

(** ** How a run ends *)

Section RaisesOs.
Context {A : Type}.

Lemma raises_os_ret (a : A) : raises_os (ret a).
Proof. by intros w e w'. Qed.

Lemma raises_os_raise (e : exn) : os_error e → raises_os (raise (A:=A) e).
Proof. by intros He w e' w' [= <- _]. Qed.

Lemma raises_os_fs_read (f : node → A) : raises_os (fs_read f).
Proof. by intros w e w'. Qed.

Lemma raises_os_bind {B} (m : M B) (k : B → M A) :
  raises_os m → (∀ b, raises_os (k b)) → raises_os (bind m k).
Proof.
  intros Hm Hk w e w'. unfold bind.
  destruct (m w) as [[b|e0] w0] eqn:E.
  - apply Hk.
  - intros [= <- _]. by eapply Hm.
Qed.

Lemma raises_os_try_except (m : M A) (h : exn → M A) :
  (∀ e, os_error e → raises_os (h e)) → raises_os m →
  raises_os (try_except m h).
Proof.
  intros Hh Hm w e w'. unfold try_except.
  destruct (m w) as [[b|e0] w0] eqn:E; [done|].
  apply Hh. by eapply Hm.
Qed.
End RaisesOs.

Lemma resolve_os p n e : resolve p n = Raise e → os_error e.
Proof. by intros [->| ->]%resolve_raise. Qed.

Lemma update_dir_os d f n e :
  (∀ m e, f m = Raise e → os_error e) →
  update_dir d f n = Raise e → os_error e.
Proof.
  intros Hf. revert n.
  induction d as [|c d IH]; intros [data stat|m]; cbn; try by intros [= <-].
  - destruct (f m) as [m'|e'] eqn:E; [done|]. cbn. intros [= <-].
    by eapply Hf.
  - destruct (m !! c) as [x|]; [|by intros [= <-]].
    destruct (update_dir d f x) as [x'|e'] eqn:E; [done|]. cbn.
    intros [= <-]. by eapply IH.
Qed.

Lemma update_entry_os p f n e :
  (∀ b m e, f b m = Raise e → os_error e) →
  update_entry p f n = Raise e → os_error e.
Proof.
  intros Hf. unfold update_entry.
  destruct (path_split p) as [[d b]|]; [|by intros [= <-]].
  apply update_dir_os, Hf.
Qed.

Lemma raises_os_fs_call f :
  (∀ n e, f n = Raise e → os_error e) → raises_os (fs_call f).
Proof.
  intros Hf w e w'. unfold fs_call.
  destruct (f (fs w)) as [n'|e'] eqn:E; [done|].
  intros [= <- _]. by eapply Hf.
Qed.

Lemma raises_os_mkdir p : raises_os (os.mkdir p).
Proof.
  apply raises_os_fs_call. intros n e. apply update_entry_os.
  intros b m e'. by destruct (m !! b); intros [= <-].
Qed.

Lemma raises_os_rmtree p : raises_os (shutil.rmtree p).
Proof.
  apply raises_os_fs_call. intros n e. apply update_entry_os.
  intros b m e'. by destruct (m !! b) as [[]|]; intros [= <-].
Qed.

Lemma raises_os_listdir ls p : raises_os (os.listdir ls p).
Proof.
  intros w e w'. unfold os.listdir, bind, fs_read.
  destruct (resolve p (fs w)) as [[data stat|m]|e0] eqn:E; try done.
  - by intros [= <- _].
  - intros [= <- _]. by eapply resolve_os.
Qed.

Lemma raises_os_makedirs_rev exist_ok rname :
  raises_os (os.makedirs_rev exist_ok rname).
Proof.
  induction rname as [|tail rhead IH]; cbn [os.makedirs_rev];
    (apply raises_os_bind;
     [|intros _; apply raises_os_try_except; [|apply raises_os_mkdir];
       intros e He; apply raises_os_bind; [apply raises_os_fs_read|];
       intros isdir; destruct (_ || _);
       [by apply raises_os_raise|apply raises_os_ret]]).
  - apply raises_os_ret.
  - destruct rhead as [|tail' rhead']; [apply raises_os_ret|].
    apply raises_os_bind; [apply raises_os_fs_read|].
    intros []; [apply raises_os_ret|].
    apply raises_os_try_except; [|exact IH].
    intros e He. destruct e; try by apply raises_os_raise.
    apply raises_os_ret.
Qed.

Lemma raises_os_makedirs name exist_ok :
  raises_os (os.makedirs name exist_ok).
Proof. apply raises_os_makedirs_rev. Qed.

Lemma raises_os_copy2 src dst : raises_os (shutil.copy2 src dst).
Proof.
  intros w e w'.
  unfold shutil.copy2, bind, os.path_isdir, os.path_exists, fs_read, fs_call.
  destruct (_ && _); [by intros [= <- _]|].
  destruct (resolve src (fs w)) as [[data stat|m]|e0] eqn:E.
  - destruct (fs_write _ data stat (fs w)) as [n'|e1] eqn:Hw; [done|].
    intros [= <- _]. revert Hw. apply update_entry_os.
    intros b m e'. by destruct (m !! b) as [[]|]; intros [= <-].
  - by intros [= <- _].
  - intros [= <- _]. by eapply resolve_os.
Qed.

Lemma raises_os_copytree src dst : raises_os (shutil.copytree src dst).
Proof.
  intros w e w'. unfold shutil.copytree, bind at 1, fs_read.
  destruct (resolve src (fs w)) as [[data stat|m]|e0] eqn:E.
  - by intros [= <- _].
  - apply raises_os_bind; [apply raises_os_makedirs|]. intros _.
    apply raises_os_fs_call. intros n e'. by apply update_dir_os.
  - intros [= <- _]. by eapply resolve_os.
Qed.

(** The rules of [one_message]. *)
Lemma one_message_print (P : string → Prop) s : P s → one_message P (print s).
Proof. intros HP w Hw. unfold print. cbn. rewrite Hw. by exists s. Qed.

Lemma one_message_bind {B} P (m : M B) (k : B → M unit) :
  silent m → raises_os m → (∀ b, one_message P (k b)) →
  one_message P (bind m k).
Proof.
  intros Hs Hr Hk w Hw. specialize (Hs w). specialize (Hr w). unfold bind.
  destruct (m w) as [[b|e] w0]; cbn [snd] in Hs.
  - apply Hk. by rewrite Hs.
  - specialize (Hr e w0 eq_refl). rewrite Hs, Hw. by destruct e.
Qed.

Lemma one_message_no_backup P s :
  s = "No DB backup found." ∨ s = "No workspace backup found." →
  one_message P (print s;; exit 1).
Proof.
  intros Hs w Hw. unfold bind, print, exit, raise. cbn. rewrite Hw.
  split; [done|]. by destruct Hs as [->| ->]; [left|right].
Qed.

(** The timestamp and the messages of the backups are one line each. *)
Lemma strftime_one_line d : contains newline (strftime d) = false.
Proof.
  assert (∀ w n, contains newline (zpad w n) = false) as Hz.
  { intros w n. apply contains_all_digits; [reflexivity|apply zpad_all_digits]. }
  unfold strftime. rewrite !contains_app, !Hz. reflexivity.
Qed.

Lemma backup_db_text_one_line now :
  contains newline
    ("Database backup created: " +:+ path_str (backup_db.DST now)) = false.
Proof.
  change (path_str (backup_db.DST now))
    with ("backups/" +:+ backup_db.artifact now).
  unfold backup_db.artifact, backup_db.TS.
  rewrite !contains_app, strftime_one_line. reflexivity.
Qed.

Lemma backup_workspace_text_one_line now :
  contains newline
    ("Workspace backup created: " +:+ path_str (backup_workspace.DST now)) =
  false.
Proof.
  change (path_str (backup_workspace.DST now))
    with ("backups/" +:+ backup_workspace.artifact now).
  unfold backup_workspace.artifact, backup_workspace.TS.
  rewrite !contains_app, strftime_one_line. reflexivity.
Qed.

Lemma one_message_script o :
  one_message
    (λ text, match o with
             | BackupDb _ | BackupWorkspace _ => contains newline text = false
             | RestoreDb _ =>
                 ∃ x, text = "Database restored from: backups/" +:+ x
             | RestoreWorkspace _ =>
                 ∃ x, text = "Workspace restored from: backups/" +:+ x
             end)
    (script o).
Proof.
  destruct o as [now|now|ls|ls]; cbn [script].
  - apply one_message_bind;
      [apply silent_makedirs|apply raises_os_makedirs|]. intros _.
    apply one_message_bind; [done|apply raises_os_fs_read|].
    intros []; [|by apply one_message_print].
    apply one_message_bind; [apply silent_copy2|apply raises_os_copy2|].
    intros _. apply one_message_print, backup_db_text_one_line.
  - apply one_message_bind;
      [apply silent_makedirs|apply raises_os_makedirs|]. intros _.
    apply one_message_bind; [done|apply raises_os_fs_read|].
    intros []; [|by apply one_message_print].
    apply one_message_bind;
      [apply silent_copytree|apply raises_os_copytree|].
    intros _. apply one_message_print, backup_workspace_text_one_line.
  - apply one_message_bind; [|apply raises_os_listdir|].
    { apply silent_bind; [done|]. by intros [[]|]. }
    intros names. cbn zeta.
    destruct (List.filter _ names) as [|x l];
      [apply one_message_no_backup; by left|].
    destruct (sort_reverse (x :: l)) as [|latest rest].
    { intros w Hw. by cbn. }
    apply one_message_bind; [apply silent_copy2|apply raises_os_copy2|].
    intros _. apply one_message_print. by exists latest.
  - apply one_message_bind; [|apply raises_os_listdir|].
    { apply silent_bind; [done|]. by intros [[]|]. }
    intros names. cbn zeta.
    destruct (List.filter _ names) as [|x l];
      [apply one_message_no_backup; by right|].
    destruct (sort_reverse (x :: l)) as [|latest rest].
    { intros w Hw. by cbn. }
    apply one_message_bind; [done|apply raises_os_fs_read|]. intros there.
    apply one_message_bind.
    + destruct there; [apply silent_rmtree|done].
    + destruct there; [apply raises_os_rmtree|apply raises_os_ret].
    + intros _.
      apply one_message_bind;
        [apply silent_copytree|apply raises_os_copytree|].
      intros _. apply one_message_print. by exists latest.
Qed.

(** X19.  Every run of each of the four scripts, in every state, ends in one
    of two ways.  Either the status is 0 and [print] was called exactly once:
    by a backup on a text without a newline, which is one line of output; by
    a restore on the text that names the backup it restored from, after
    [backups/].  Or the status is 1 and either nothing was printed (an error
    of a system call) or the one line that reports that no backup was found.
    No other status occurs.  *)
Theorem exit_behaviour o n :
  let r := run (script o) n in
  (status r = 0 ∧
   ∃ text, printed r = [text] ∧
     match o with
     | BackupDb _ | BackupWorkspace _ => contains newline text = false
     | RestoreDb _ => ∃ x, text = "Database restored from: backups/" +:+ x
     | RestoreWorkspace _ =>
         ∃ x, text = "Workspace restored from: backups/" +:+ x
     end) ∨
  (status r = 1 ∧ (printed r = [] ∨
                   printed r = ["No DB backup found."] ∨
                   printed r = ["No workspace backup found."])).
Proof.
  cbn zeta. pose proof (one_message_script o (World n []) eq_refl) as H.
  unfold run. destruct (script o (World n [])) as [[[]|e] w].
  - by left.
  - right. destruct e; cbn [status printed]; try (split; [done|by left]).
    destruct H as [-> H]. split; [done|]. by right.
Qed.

(** ** What is never removed *)

Section Grows.
Context {A : Type}.

Lemma grows_ret (a : A) : grows (ret a).
Proof. intros w q x Hx. by exists x. Qed.

Lemma grows_raise (e : exn) : grows (raise (A:=A) e).
Proof. intros w q x Hx. by exists x. Qed.

Lemma grows_fs_read (f : node → A) : grows (fs_read f).
Proof. intros w q x Hx. by exists x. Qed.

Lemma grows_bind {B} (m : M B) (k : B → M A) :
  grows m → (∀ b, grows (k b)) → grows (bind m k).
Proof.
  intros Hm Hk w q x Hx. destruct (Hm w q x Hx) as [x1 Hx1]. unfold bind.
  destruct (m w) as [[b|e] w1]; [|by exists x1].
  by apply (Hk b w1 q x1).
Qed.

Lemma grows_try_except (m : M A) (h : exn → M A) :
  grows m → (∀ e, grows (h e)) → grows (try_except m h).
Proof.
  intros Hm Hh w q x Hx. destruct (Hm w q x Hx) as [x1 Hx1].
  unfold try_except.
  destruct (m w) as [[b|e] w1]; [by exists x1|].
  by apply (Hh e w1 q x1).
Qed.
End Grows.

Lemma grows_print s : grows (print s).
Proof. intros w q x Hx. by exists x. Qed.

Lemma grows_fs_call f :
  (∀ n n' q x, f n = Ok n' → resolve q n = Ok x → ∃ x', resolve q n' = Ok x') →
  grows (fs_call f).
Proof.
  intros Hf w q x Hx. unfold fs_call.
  destruct (f (fs w)) as [n'|e] eqn:E; [|by exists x].
  by apply (Hf (fs w) n' q x).
Qed.

(** A change of the entries of a directory that keeps what the paths below
    it name removes nothing. *)
Lemma update_dir_grows d f n n' :
  (∀ m m' k x, resolve d n = Ok (Dir m) → f m = Ok m' → m !! k = Some x →
     ∃ x', m' !! k = Some x' ∧
           ∀ q y, resolve q x = Ok y → ∃ y', resolve q x' = Ok y') →
  update_dir d f n = Ok n' →
  ∀ q y, resolve q n = Ok y → ∃ y', resolve q n' = Ok y'.
Proof.
  revert n n'. induction d as [|c d IH]; intros [data stat|m] n' Hf; cbn;
    try done.
  - destruct (f m) as [m'|] eqn:Hm; cbn; [|done].
    intros [= <-] [|k q] y; [by eexists|]. cbn.
    destruct (m !! k) as [x|] eqn:Hk; [|done].
    destruct (Hf m m' k x eq_refl Hm Hk) as (x' & -> & Hx'). apply Hx'.
  - destruct (m !! c) as [x|] eqn:Hc; [|done].
    destruct (update_dir d f x) as [x'|] eqn:Hx; cbn; [|done].
    intros [= <-] [|k q] y; [by eexists|]. cbn.
    destruct (decide (k = c)) as [->|Hne].
    + rewrite lookup_insert_eq, Hc. apply (IH x x'); [|done].
      intros m0 m0' k0 x0 Hm0. apply Hf. cbn. by rewrite Hc.
    + rewrite lookup_insert_ne by done. destruct (m !! k); eauto.
Qed.

Lemma fs_mkdir_grows p n n' q x :
  fs_mkdir p n = Ok n' → resolve q n = Ok x → ∃ x', resolve q n' = Ok x'.
Proof.
  unfold fs_mkdir, update_entry.
  destruct (path_split p) as [[d b]|]; [|done].
  intros Hu. revert q x. eapply update_dir_grows; [|exact Hu].
  intros m m' k y _ Hf Hk. cbn in Hf.
  destruct (m !! b) eqn:Hb; [done|]. injection Hf as <-.
  exists y. split; [|eauto].
  rewrite lookup_insert_ne; [done|]. intros <-. by rewrite Hb in Hk.
Qed.

Lemma fs_write_grows p data stat n n' q x :
  fs_write p data stat n = Ok n' → resolve q n = Ok x →
  ∃ x', resolve q n' = Ok x'.
Proof.
  unfold fs_write, update_entry.
  destruct (path_split p) as [[d b]|]; [|done].
  intros Hu. revert q x. eapply update_dir_grows; [|exact Hu].
  intros m m' k y _ Hf Hk. cbn in Hf.
  destruct (decide (k = b)) as [->|Hne].
  - rewrite Hk in Hf. destruct y as [d0 s0|m0]; [|done].
    injection Hf as <-. exists (File data stat).
    split; [by rewrite lookup_insert_eq|].
    intros [|c q] z; [by eexists|done].
  - exists y. split; [|eauto].
    destruct (m !! b) as [[]|]; try done;
      injection Hf as <-; by rewrite lookup_insert_ne.
Qed.

Lemma fs_fill_grows p entries n n' q x :
  resolve p n = Ok (Dir ∅) →
  fs_fill p entries n = Ok n' → resolve q n = Ok x →
  ∃ x', resolve q n' = Ok x'.
Proof.
  intros Hp Hu. revert q x. eapply update_dir_grows; [|exact Hu].
  intros m m' k y Hm _ Hk. rewrite Hp in Hm. by injection Hm as <-.
Qed.

Lemma fs_mkdir_post p n n' :
  fs_mkdir p n = Ok n' → resolve p n' = Ok (Dir ∅).
Proof.
  unfold fs_mkdir, update_entry.
  destruct (path_split p) as [[d b]|] eqn:Hp; [|done].
  apply path_split_inv in Hp as ->.
  intros (m & m' & Hm & Hf & Hm')%update_dir_inv.
  rewrite resolve_app, Hm'. cbn.
  destruct (m !! b); [done|]. injection Hf as <-. by rewrite lookup_insert_eq.
Qed.

Lemma grows_mkdir p : grows (os.mkdir p).
Proof.
  apply grows_fs_call. intros n n' q x. apply fs_mkdir_grows.
Qed.

Lemma grows_makedirs_rev exist_ok rname :
  grows (os.makedirs_rev exist_ok rname).
Proof.
  induction rname as [|tail rhead IH]; cbn [os.makedirs_rev];
    (apply grows_bind;
     [|intros _; apply grows_try_except; [apply grows_mkdir|];
       intros e; apply grows_bind; [apply grows_fs_read|];
       intros isdir; destruct (_ || _);
       [apply grows_raise|apply grows_ret]]).
  - apply grows_ret.
  - destruct rhead as [|tail' rhead']; [apply grows_ret|].
    apply grows_bind; [apply grows_fs_read|].
    intros []; [apply grows_ret|].
    apply grows_try_except; [exact IH|].
    intros e. destruct e; (apply grows_raise || apply grows_ret).
Qed.

Lemma grows_makedirs name exist_ok : grows (os.makedirs name exist_ok).
Proof. apply grows_makedirs_rev. Qed.

(** [os.makedirs(name)] without [exist_ok] ends well only with a directory
    that is new. *)
Lemma makedirs_new_post name w w' :
  os.makedirs name false w = (Ok tt, w') →
  resolve name (fs w') = Ok (Dir ∅).
Proof.
  unfold os.makedirs. rewrite <-(rev_involutive name) at 2.
  generalize (rev name). intros rname.
  assert (∀ (pre : M unit),
    (pre;; try_except (os.mkdir (rev rname))
             (λ e, let* isdir := os.path_isdir (rev rname) in
                   if negb false || negb isdir then raise e else ret tt)) w =
    (Ok tt, w') → resolve (rev rname) (fs w') = Ok (Dir ∅)) as H.
  { intros pre. unfold bind at 1. destruct (pre w) as [[[]|e] w0]; [|done].
    unfold try_except, os.mkdir, fs_call.
    destruct (fs_mkdir (rev rname) (fs w0)) as [n'|e] eqn:Hmk.
    - intros [= <-]. cbn [fs]. by apply fs_mkdir_post in Hmk.
    - unfold bind, os.path_isdir, fs_read. by cbn. }
  destruct rname as [|tail rhead]; cbn [os.makedirs_rev]; apply H.
Qed.

Lemma grows_copy2 src dst : grows (shutil.copy2 src dst).
Proof.
  apply grows_bind; [apply grows_fs_read|]. intros isdir.
  apply grows_bind; [apply grows_fs_read|]. intros there.
  destruct (_ && _); [apply grows_raise|].
  apply grows_bind; [apply grows_fs_read|].
  intros [[data stat|m]|e]; try apply grows_raise.
  apply grows_fs_call. intros n n' q x. apply fs_write_grows.
Qed.

Lemma grows_copytree src dst : grows (shutil.copytree src dst).
Proof.
  apply grows_bind; [apply grows_fs_read|].
  intros [[data stat|m]|e]; try apply grows_raise.
  intros w q x Hx. unfold bind.
  destruct (grows_makedirs dst false w q x Hx) as [x1 Hx1].
  destruct (os.makedirs dst false w) as [[[]|e] w1] eqn:Hmk; [|by exists x1].
  apply makedirs_new_post in Hmk. cbn [snd] in Hx1.
  unfold fs_call. destruct (fs_fill dst m (fs w1)) as [n'|e] eqn:Hf;
    [|by exists x1].
  cbn [snd fs]. by apply (fs_fill_grows dst m (fs w1) n' q x1).
Qed.

(** X20.  [backup_db], [backup_workspace] and [restore_db] remove nothing:
    in every state, a path that names a file or a directory before the run
    names one after it.  ([restore_workspace], which deletes the live
    workspace, is the one script that does not have this property.)  *)
Theorem never_removes now ls n q x :
  resolve q n = Ok x →
  (∃ x', resolve q (final (run (backup_db.main now) n)) = Ok x') ∧
  (∃ x', resolve q (final (run (backup_workspace.main now) n)) = Ok x') ∧
  (∃ x', resolve q (final (run (restore_db.main ls) n)) = Ok x').
Proof.
  intros Hx. rewrite !final_run. unfold after.
  split; [|split].
  - apply (grows_bind (os.makedirs backup_db.DST_DIR true)
             (λ _, _) (grows_makedirs _ _)) with (x := x); [|done].
    intros _. apply grows_bind; [apply grows_fs_read|].
    intros []; [|apply grows_print].
    apply grows_bind; [apply grows_copy2|]. intros _. apply grows_print.
  - apply (grows_bind (os.makedirs backup_workspace.DST_DIR true)
             (λ _, _) (grows_makedirs _ _)) with (x := x); [|done].
    intros _. apply grows_bind; [apply grows_fs_read|].
    intros []; [|apply grows_print].
    apply grows_bind; [apply grows_copytree|]. intros _. apply grows_print.
  - apply (grows_bind (os.listdir ls restore_db.SRC_DIR) (λ _, _))
      with (x := x); [| |done].
    { apply grows_bind; [apply grows_fs_read|].
      intros [[|m]|e]; (apply grows_ret || apply grows_raise). }
    intros names. cbn zeta.
    destruct (List.filter _ names) as [|y l].
    { apply grows_bind; [apply grows_print|]. intros _. apply grows_raise. }
    destruct (sort_reverse (y :: l)) as [|latest rest]; [apply grows_raise|].
    apply grows_bind; [apply grows_copy2|]. intros _. apply grows_print.
Qed.

Lemma never_removes_witness :
  let now := Datetime 2024 1 1 2 0 0 in
  let q := ["backups"; "db_backup_20240101_020000.sqlite3"] in
  (∃ x', resolve q (final (run (backup_db.main now) example_fs)) = Ok x') ∧
  (∃ x', resolve q (final (run (backup_workspace.main now) example_fs)) =
         Ok x') ∧
  (∃ x', resolve q (final (run (restore_db.main elements) example_fs)) =
         Ok x').
Proof.
  cbn zeta.
  apply (never_removes (Datetime 2024 1 1 2 0 0) elements example_fs
           ["backups"; "db_backup_20240101_020000.sqlite3"] (File "two" 2)).
  vm_compute. reflexivity.
Defined.

(** * The round trip of the database, and the names of the artifacts *)




(** A restore in a backup root with an entry that the filter accepts goes on
    to the copy. *)
Lemma restore_db_found ls n m x :
  listing_ok ls →
  resolve ["backups"] n = Ok (Dir m) →
  is_Some (m !! x) → restore_db.is_backup x = true →
  ∃ latest,
    restore_db.main ls (World n []) =
    (shutil.copy2 ["backups"; latest] restore_db.DST;;
     print ("Database restored from: backups/" +:+ latest)) (World n []).
Proof.
  intros Hls Hm Hx HP.
  destruct (head (sort_reverse
              (List.filter restore_db.is_backup (ls (dom m)))))
    as [latest|] eqn:Hl.
  - exists latest. rewrite restore_db_main_eq. cbn [fs].
    unfold restore_db.SRC_DIR. by rewrite Hm, Hl.
  - pose proof (proj1 (latest_none ls _ m Hls) Hl x Hx) as Hno. congruence.
Qed.

Lemma restore_workspace_found ls n m x :
  listing_ok ls →
  resolve ["backups"] n = Ok (Dir m) →
  is_Some (m !! x) → restore_workspace.is_backup x = true →
  ∃ latest,
    restore_workspace.main ls (World n []) =
    ((let* there := os.path_exists restore_workspace.DST in
      (if there then shutil.rmtree restore_workspace.DST else ret tt);;
      shutil.copytree ["backups"; latest] restore_workspace.DST);;
     print ("Workspace restored from: backups/" +:+ latest)) (World n []).
Proof.
  intros Hls Hm Hx HP.
  destruct (head (sort_reverse
              (List.filter restore_workspace.is_backup (ls (dom m)))))
    as [latest|] eqn:Hl.
  - exists latest. rewrite restore_workspace_main_eq. cbn [fs].
    unfold restore_workspace.SRC_DIR. rewrite Hm, Hl.
    change (path_join ["backups"] latest) with ["backups"; latest].
    unfold bind, os.path_exists, fs_read.
    destruct (resolve restore_workspace.DST n); cbn [fs];
      by repeat match goal with |- context [match ?t with _ => _ end] =>
           match t with (_, _) => fail 1 | _ => destruct t as [[[]|?] ?] end
         end.
  - pose proof (proj1 (latest_none ls _ m Hls) Hl x Hx) as Hno. congruence.
Qed.

(** A script that ends with a system call and a message does not end as
    [exit(1)] after ["No ... backup found."] does. *)
Lemma call_then_print_found (m : M unit) s t n :
  silent m → raises_os m → s ≠ t →
  (t ∉ printed (run (m;; print s) n)) ∧
  raised (m;; print s) n ≠ Some (SystemExit 1).
Proof.
  intros Hs Hr Hne. split.
  - destruct (printed_call_then_print m s n Hs) as [->| ->].
    + apply not_elem_of_nil.
    + by intros [?|[]%elem_of_nil]%elem_of_cons.
  - unfold raised, bind. specialize (Hr (World n [])).
    destruct (m (World n [])) as [[[]|e] w]; [done|].
    intros [= ->]. by apply (Hr (SystemExit 1) w).
Qed.

(** C8.  The names of the artifacts.  [backup_db] names its artifact
    [db_backup_<timestamp>.sqlite3] and [backup_workspace]
    [workspace_backup_<timestamp>], where the timestamp of a valid time is
    [YYYYMMDD_HHMMSS]: the year on four digits and the month, the day, the
    hour, the minute and the second on two digits each.  These names start
    with [db_backup_] and end with [.sqlite3], or start with
    [workspace_backup_], and pass the filter of the restore of their mode; so
    a restore that runs after a backup that reported its artifact does not
    report that no backup was found and does not end with [exit(1)], under
    any order of listing.  *)
Theorem artifact_names_pass_filters now ls n :
  listing_ok ls →
  (backup_db.artifact now = "db_backup_" +:+ strftime now +:+ ".sqlite3" ∧
   backup_workspace.artifact now = "workspace_backup_" +:+ strftime now) ∧
  (valid_datetime now = true →
   ∃ Y M D h m s,
     strftime now = Y +:+ M +:+ D +:+ "_" +:+ h +:+ m +:+ s ∧
     (String.length Y = 4 ∧ all_digits Y = true ∧ decimal Y = year now) ∧
     (String.length M = 2 ∧ all_digits M = true ∧ decimal M = month now) ∧
     (String.length D = 2 ∧ all_digits D = true ∧ decimal D = day now) ∧
     (String.length h = 2 ∧ all_digits h = true ∧ decimal h = hour now) ∧
     (String.length m = 2 ∧ all_digits m = true ∧ decimal m = minute now) ∧
     (String.length s = 2 ∧ all_digits s = true ∧ decimal s = second now)) ∧
  ((∃ t, backup_db.artifact now = "db_backup_" +:+ t) ∧
   (∃ t, backup_db.artifact now = t +:+ ".sqlite3") ∧
   restore_db.is_backup (backup_db.artifact now) = true) ∧
  ((∃ t, backup_workspace.artifact now = "workspace_backup_" +:+ t) ∧
   restore_workspace.is_backup (backup_workspace.artifact now) = true) ∧
  (printed (run (backup_db.main now) n) =
     ["Database backup created: backups/db_backup_" +:+ strftime now +:+
      ".sqlite3"] →
   let backed_up := final (run (backup_db.main now) n) in
   ("No DB backup found." ∉ printed (run (restore_db.main ls) backed_up)) ∧
   raised (restore_db.main ls) backed_up ≠ Some (SystemExit 1)) ∧
  (printed (run (backup_workspace.main now) n) =
     ["Workspace backup created: backups/workspace_backup_" +:+
      strftime now] →
   let backed_up := final (run (backup_workspace.main now) n) in
   ("No workspace backup found." ∉
      printed (run (restore_workspace.main ls) backed_up)) ∧
   raised (restore_workspace.main ls) backed_up ≠ Some (SystemExit 1)).
Proof.
  intros Hls. split; [done|]. split; [|split; [|split; [|split]]].
  - intros Hv. apply valid_datetime_widths in Hv
      as (HY & HM & HD & Hh & Hm & Hs).
    exists (zpad 4 (year now)), (zpad 2 (month now)), (zpad 2 (day now)),
           (zpad 2 (hour now)), (zpad 2 (minute now)), (zpad 2 (second now)).
    split; [done|].
    repeat split;
      (apply zpad_length || apply zpad_all_digits || by apply decimal_zpad).
  - pose proof (db_artifact_is_backup now) as HP.
    pose proof (proj1 (restore_db_filter _) HP) as [Hp Hs]. done.
  - pose proof (workspace_artifact_is_backup now) as HP.
    pose proof (proj1 (restore_workspace_filter _) HP) as Hp. done.
  - intros Hprinted. cbn zeta.
    destruct (backup_db_created now n Hprinted) as [x Hx].
    set (n' := final (run (backup_db.main now) n)) in *.
    unfold backup_db.DST, path_join, backup_db.DST_DIR in Hx.
    apply resolve_snoc_inv in Hx as (m & Hm & Hx).
    destruct (restore_db_found ls n' m (backup_db.artifact now) Hls Hm)
      as [latest Hmain]; [by rewrite Hx|apply db_artifact_is_backup|].
    unfold run, raised. rewrite Hmain.
    apply (call_then_print_found
             (shutil.copy2 ["backups"; latest] restore_db.DST)).
    + apply silent_copy2.
    + apply raises_os_copy2.
    + by rewrite (str_app_cons "D").
  - intros Hprinted. cbn zeta.
    destruct (backup_workspace_created now n Hprinted) as [x Hx].
    set (n' := final (run (backup_workspace.main now) n)) in *.
    unfold backup_workspace.DST, path_join, backup_workspace.DST_DIR in Hx.
    apply resolve_snoc_inv in Hx as (m & Hm & Hx).
    destruct (restore_workspace_found ls n' m (backup_workspace.artifact now)
                Hls Hm)
      as [latest Hmain]; [by rewrite Hx|apply workspace_artifact_is_backup|].
    unfold run, raised. rewrite Hmain.
    apply (call_then_print_found
             (let* there := os.path_exists restore_workspace.DST in
              (if there then shutil.rmtree restore_workspace.DST else ret tt);;
              shutil.copytree ["backups"; latest] restore_workspace.DST)).
    + apply silent_bind; [apply silent_fs_read|]. intros there.
      apply silent_bind; [by destruct there; [apply silent_rmtree|]|].
      intros _. apply silent_copytree.
    + apply raises_os_bind; [apply raises_os_fs_read|]. intros there.
      apply raises_os_bind.
      * destruct there; [apply raises_os_rmtree|apply raises_os_ret].
      * intros _. apply raises_os_copytree.
    + by rewrite (str_app_cons "W").
Qed.

Lemma artifact_names_pass_filters_witness :
  let now := Datetime 2024 1 1 3 0 0 in
  let backed_up := final (run (backup_db.main now) example_fs) in
  backup_db.artifact now = "db_backup_20240101_030000.sqlite3" ∧
  backup_workspace.artifact now = "workspace_backup_20240101_030000" ∧
  printed (run (backup_db.main now) example_fs) =
    ["Database backup created: backups/db_backup_20240101_030000.sqlite3"] ∧
  ("No DB backup found." ∉
     printed (run (restore_db.main elements) backed_up)) ∧
  raised (restore_db.main elements) backed_up ≠ Some (SystemExit 1).
Proof.
  cbn zeta.
  assert (printed (run (backup_db.main (Datetime 2024 1 1 3 0 0)) example_fs) =
    ["Database backup created: backups/db_backup_" +:+
     strftime (Datetime 2024 1 1 3 0 0) +:+ ".sqlite3"]) as Hp
    by (vm_compute; reflexivity).
  destruct (artifact_names_pass_filters (Datetime 2024 1 1 3 0 0) elements
              example_fs listing_ok_elements)
    as ([Hdb Hws] & _ & _ & _ & Hrestore & _).
  split; [exact Hdb|]. split; [exact Hws|]. split; [exact Hp|].
  exact (Hrestore Hp).
Defined.
